(** * ZeroKachra: complaint lifecycle, submission, gamification and analytics

    A shallow embedding of the business logic of the campus waste-complaint
    application: the entity model ([types.ts]), the complaint handlers of
    [App.tsx], the authenticity call of [services/geminiService.ts], the
    submission form ([ComplaintForm.tsx]), the chat tool call
    ([ChatAssistant.tsx]) and the derived views of [Dashboard.tsx].

    Conventions.
    - A JavaScript [Date] is its time value, an integral number of
      milliseconds, modelled as [Z].  Every read of the clock ([Date.now()],
      [new Date()]) is an explicit argument.
    - Integral JavaScript numbers (ids, votes, points, lengths) are [Z] or
      [nat]; the analytics arithmetic, which divides, is done on binary64
      floats ([PrimFloat]), the representation of a JavaScript number.
    - An optional field ([resolvedAt?], [imageUrl?], [deletedAt?]) is an
      [option]; [undefined] and an absent property are both [None].
    - React state is passed explicitly: a handler that calls
      [setComplaints(prev => f prev)] is the function [f].
    - A JavaScript string is held as the UTF-8 bytes of its text, which is
      what a string literal of this file is.  Equality and concatenation
      are those of the bytes; [JsString.length] counts UTF-16 code units
      and [JsString.trim] strips the white space of ECMAScript.  A string
      with an unpaired surrogate has no UTF-8 form and is not covered. *)

From Stdlib Require Import ZArith List String Ascii Bool Lia.
From Stdlib Require Import Permutation Sorted DecimalString.
From Stdlib Require Import Floats.
Import ListNotations.

Local Open Scope string_scope.
Local Open Scope list_scope.
Local Open Scope Z_scope.

(* ================================================================== *)
(** ** types.ts *)

Inductive Role := USER | ADMIN.

Inductive Badge :=
| RECYCLING_ROOKIE
| WASTE_WARRIOR
| COMPOST_CHAMPION
| COMMUNITY_VOICE
| INFLUENCER.

Inductive Status := PENDING | IN_PROGRESS | RESOLVED.

(** The string literals carried by [authenticityStatus].  The interface in
    [types.ts] lists the first three; [handleAdminVerify] stores the other
    two. *)
Inductive Authenticity :=
| Unverified
| LikelyAuthentic
| PotentialSpam
| Verified
| Spam.

(** The return type of [verifyComplaintAuthenticity]. *)
Inductive AiVerdict := AiLikelyAuthentic | AiPotentialSpam.

(** The second argument of [handleAdminVerify]. *)
Inductive AdminVerdict := AdminVerified | AdminSpam.

Definition Authenticity_of_ai (r : AiVerdict) : Authenticity :=
  match r with
  | AiLikelyAuthentic => LikelyAuthentic
  | AiPotentialSpam => PotentialSpam
  end.

Definition Authenticity_of_admin (r : AdminVerdict) : Authenticity :=
  match r with
  | AdminVerified => Verified
  | AdminSpam => Spam
  end.

Definition Role_eqb (a b : Role) : bool :=
  match a, b with
  | USER, USER | ADMIN, ADMIN => true
  | _, _ => false
  end.

Definition Badge_eqb (a b : Badge) : bool :=
  match a, b with
  | RECYCLING_ROOKIE, RECYCLING_ROOKIE
  | WASTE_WARRIOR, WASTE_WARRIOR
  | COMPOST_CHAMPION, COMPOST_CHAMPION
  | COMMUNITY_VOICE, COMMUNITY_VOICE
  | INFLUENCER, INFLUENCER => true
  | _, _ => false
  end.

Definition Status_eqb (a b : Status) : bool :=
  match a, b with
  | PENDING, PENDING | IN_PROGRESS, IN_PROGRESS | RESOLVED, RESOLVED => true
  | _, _ => false
  end.

Definition Authenticity_eqb (a b : Authenticity) : bool :=
  match a, b with
  | Unverified, Unverified
  | LikelyAuthentic, LikelyAuthentic
  | PotentialSpam, PotentialSpam
  | Verified, Verified
  | Spam, Spam => true
  | _, _ => false
  end.

Module User.
Record t := mk {
  id : Z;
  name : string;
  email : string;
  password : option string;
  role : Role;
  points : Z;
  badges : list Badge
}.
End User.

Module Complaint.
Record t := mk {
  id : Z;
  userId : Z;
  userName : string;
  location : string;
  description : string;
  status : Status;
  createdAt : Z;
  resolvedAt : option Z;
  imageUrl : option string;
  votes : Z;
  isPublic : bool;
  authenticityStatus : option Authenticity;
  deletedAt : option Z
}.

(** The object spreads [{ ...c, field: value }] of the handlers. *)
Definition with_votes (v : Z) (c : t) : t :=
  mk (id c) (userId c) (userName c) (location c) (description c) (status c)
     (createdAt c) (resolvedAt c) (imageUrl c) v (isPublic c)
     (authenticityStatus c) (deletedAt c).

Definition with_status (s : Status) (r : option Z) (c : t) : t :=
  mk (id c) (userId c) (userName c) (location c) (description c) s
     (createdAt c) r (imageUrl c) (votes c) (isPublic c)
     (authenticityStatus c) (deletedAt c).

Definition with_deletedAt (d : option Z) (c : t) : t :=
  mk (id c) (userId c) (userName c) (location c) (description c) (status c)
     (createdAt c) (resolvedAt c) (imageUrl c) (votes c) (isPublic c)
     (authenticityStatus c) d.

Definition with_authenticityStatus (a : option Authenticity) (c : t) : t :=
  mk (id c) (userId c) (userName c) (location c) (description c) (status c)
     (createdAt c) (resolvedAt c) (imageUrl c) (votes c) (isPublic c)
     a (deletedAt c).
End Complaint.

(** JavaScript truthiness of the values the code tests with [!x] or [x &&]. *)
Definition truthy_string (s : string) : bool :=
  match s with EmptyString => false | _ => true end.

Definition truthy_opt_string (s : option string) : bool :=
  match s with Some s' => truthy_string s' | None => false end.

Definition is_some {A : Type} (o : option A) : bool :=
  match o with Some _ => true | None => false end.

(** [x || undefined] on a [string | null]. *)
Definition or_undefined (s : option string) : option string :=
  if truthy_opt_string s then s else None.

(* ================================================================== *)
(** ** JavaScript strings *)

Module JsString.

(** The UTF-16 code units a byte of the text stands for: one for the first
    byte of a code point up to U+FFFF, two for the first byte of a code
    point above it (a surrogate pair), none for a continuation byte. *)
Definition units (c : ascii) : nat :=
  let n := nat_of_ascii c in
  if (Nat.leb 128 n && Nat.ltb n 192)%bool then 0%nat
  else if Nat.leb 240 n then 2%nat
  else 1%nat.

(** [s.length]. *)
Fixpoint length (s : string) : nat :=
  match s with
  | String c s' => (units c + length s')%nat
  | EmptyString => 0%nat
  end.

(** The white space that [trim] strips is WhiteSpace and LineTerminator of
    ECMAScript: U+0009 to U+000D, U+0020, U+00A0, U+1680, U+2000 to U+200A,
    U+2028, U+2029, U+202F, U+205F, U+3000 and U+FEFF.  The three
    predicates recognise their encodings of one, two and three bytes. *)
Definition white1 (a : ascii) : bool :=
  let a := nat_of_ascii a in
  (Nat.eqb a 32 || (Nat.leb 9 a && Nat.leb a 13))%bool.

Definition white2 (a b : ascii) : bool :=
  (Nat.eqb (nat_of_ascii a) 194 && Nat.eqb (nat_of_ascii b) 160)%bool.

Definition white3 (a b c : ascii) : bool :=
  let a := nat_of_ascii a in
  let b := nat_of_ascii b in
  let c := nat_of_ascii c in
  ((Nat.eqb a 225 && Nat.eqb b 154 && Nat.eqb c 128)
   || (Nat.eqb a 226 && Nat.eqb b 128
       && ((Nat.leb 128 c && Nat.leb c 138)
           || Nat.eqb c 168 || Nat.eqb c 169 || Nat.eqb c 175))
   || (Nat.eqb a 226 && Nat.eqb b 129 && Nat.eqb c 159)
   || (Nat.eqb a 227 && Nat.eqb b 128 && Nat.eqb c 128)
   || (Nat.eqb a 239 && Nat.eqb b 187 && Nat.eqb c 191))%bool.

(** [String.prototype.trimStart]: the text from its first code point that
    is not white space. *)
Fixpoint trimStart (s : string) : string :=
  match s with
  | EmptyString => EmptyString
  | String a s1 =>
      if white1 a then trimStart s1
      else
        match s1 with
        | EmptyString => s
        | String b s2 =>
            if white2 a b then trimStart s2
            else
              match s2 with
              | EmptyString => s
              | String c s3 => if white3 a b c then trimStart s3 else s
              end
        end
  end.

(** [String.prototype.trimEnd]: the text up to the point from which only
    white space follows. *)
Fixpoint trimEnd (s : string) : string :=
  match s with
  | EmptyString => EmptyString
  | String c s' =>
      match trimStart s with
      | EmptyString => EmptyString
      | _ => String c (trimEnd s')
      end
  end.

(** [String.prototype.trim]. *)
Definition trim (s : string) : string := trimEnd (trimStart s).

(** The text made of the given bytes. *)
Definition of_bytes (bytes : list nat) : string :=
  string_of_list_ascii (map ascii_of_nat bytes).

(** The white space code points, each as it stands in a text. *)
Definition white_space : list string :=
  map of_bytes
    [ [9]; [10]; [11]; [12]; [13]; [32];
      [194; 160];
      [225; 154; 128];
      [226; 128; 128]; [226; 128; 129]; [226; 128; 130]; [226; 128; 131];
      [226; 128; 132]; [226; 128; 133]; [226; 128; 134]; [226; 128; 135];
      [226; 128; 136]; [226; 128; 137]; [226; 128; 138];
      [226; 128; 168]; [226; 128; 169]; [226; 128; 175];
      [226; 129; 159];
      [227; 128; 128];
      [239; 187; 191] ]%nat.

End JsString.

(* ================================================================== *)
(** ** services/geminiService.ts: verifyComplaintAuthenticity *)

(** What an [async] call does when awaited: it resolves to a value or it
    rejects, which an enclosing [try] catches. *)
Inductive Completion (A : Type) :=
| Returns (a : A)
| Throws.
Arguments Returns {A} a.
Arguments Throws {A}.

Module GeminiService.

(** The remote [ai.models.generateContent] call: it answers with an
    optional text, or fails (network error, quota, refusal). *)
Inductive GenerateContent :=
| Responds (text : option string)
| Fails.

(** [verifyComplaintAuthenticity(description, imageUrl)].  [apiKey] says
    whether [process.env.API_KEY] is set; [remote] is the outcome of the
    request the function sends.  The description and the image only shape
    that request.  Both the missing key and the [catch] block return
    ['Likely Authentic']. *)
Definition verifyComplaintAuthenticity
    (apiKey : bool) (remote : GenerateContent) : Completion AiVerdict :=
  if negb apiKey then Returns AiLikelyAuthentic
  else
    match remote with
    | Responds text =>
        match option_map JsString.trim text with
        | Some t =>
            if (t =? "Likely Authentic")%string then Returns AiLikelyAuthentic
            else if (t =? "Potential Spam")%string then Returns AiPotentialSpam
            else Returns AiLikelyAuthentic
        | None => Returns AiLikelyAuthentic
        end
    | Fails => Returns AiLikelyAuthentic
    end.

End GeminiService.

(* ================================================================== *)
(** ** App.tsx: the complaint handlers *)

Module App.

Definition initialUsers : list User.t :=
  [ User.mk 1 "Alice" "alice@example.com" (Some "password") USER 150
      [RECYCLING_ROOKIE];
    User.mk 2 "Admin Bob" "admin@example.com" (Some "admin") ADMIN 0 [];
    User.mk 4 "Diana" "diana@example.com" (Some "password") USER 210
      [RECYCLING_ROOKIE; WASTE_WARRIOR];
    User.mk 5 "Eve" "eve@example.com" (Some "password") USER 80 [];
    User.mk 6 "Frank" "frank@example.com" (Some "password") USER 300
      [RECYCLING_ROOKIE; WASTE_WARRIOR; COMPOST_CHAMPION];
    User.mk 7 "Grace" "grace@example.com" (Some "password") USER 120
      [RECYCLING_ROOKIE] ].

(** The mock complaints; [now] is the clock when the module is loaded, its
    reads taken at one instant. *)
Definition initialComplaints (now : Z) : list Complaint.t :=
  let day := 24 * 60 * 60 * 1000 in
  [ Complaint.mk 1 1 "Alice" "Library, 2nd Floor" "Overflowing recycling bin."
      RESOLVED (now - 2 * day) (Some (now - 1 * day)) (Some "https://images.unsplash.com/photo-1599664223843-93498b115a38?q=80&w=2070&auto=format&fit=crop")
      12 true (Some Verified) None;
    Complaint.mk 2 1 "Alice" "Cafeteria" "General waste bin is full and smelly."
      IN_PROGRESS (now - 1 * day) None None 5 true (Some LikelyAuthentic) None;
    Complaint.mk 3 1 "Alice" "Dorm Block A" "Broken glass bottle on the pavement."
      PENDING now None None 0 false (Some Unverified) None;
    Complaint.mk 4 4 "Diana" "Gym" "Paper towels all over the floor."
      PENDING (now - 3 * 60 * 60 * 1000) None None 8 true (Some Unverified) None;
    Complaint.mk 5 5 "Eve" "Science Building" "Compost bin is missing."
      IN_PROGRESS (now - 5 * day) None None 3 true (Some LikelyAuthentic) None ].

(** [handleAddComplaint].  [idNow] is the value of [Date.now()] and
    [createdNow] the time value of [new Date()], two reads of the clock.
    [isPublic] and [authenticityStatus] are optional arguments with the
    defaults [true] and ['Unverified']. *)
Definition handleAddComplaint
    (currentUser : option User.t) (idNow createdNow : Z)
    (location description : string) (imageUrl : option string)
    (isPublic : option bool) (authenticityStatus : option Authenticity)
    (prev : list Complaint.t) : list Complaint.t :=
  match currentUser with
  | None => prev
  | Some u =>
      let newComplaint :=
        Complaint.mk idNow (User.id u) (User.name u) location description
          PENDING createdNow None imageUrl 0
          (match isPublic with Some b => b | None => true end)
          (Some (match authenticityStatus with
                 | Some a => a
                 | None => Unverified
                 end))
          None in
      newComplaint :: prev
  end.

Definition handleVote (complaintId : Z) (prev : list Complaint.t) :=
  map (fun c =>
         if Complaint.id c =? complaintId
         then Complaint.with_votes (Complaint.votes c + 1) c
         else c) prev.

Definition handleUpdateComplaintStatus
    (complaintId : Z) (status : Status) (now : Z) (prev : list Complaint.t) :=
  map (fun c =>
         if Complaint.id c =? complaintId
         then Complaint.with_status status
                (if Status_eqb status RESOLVED then Some now else None) c
         else c) prev.

Definition handleDeleteComplaint
    (complaintId : Z) (now : Z) (prev : list Complaint.t) :=
  map (fun c =>
         if Complaint.id c =? complaintId
         then Complaint.with_deletedAt (Some now) c
         else c) prev.

Definition handleRestoreComplaint (complaintId : Z) (prev : list Complaint.t) :=
  map (fun c =>
         if Complaint.id c =? complaintId
         then Complaint.with_deletedAt None c
         else c) prev.

Definition handlePermanentDelete (complaintId : Z) (prev : list Complaint.t) :=
  filter (fun c => negb (Complaint.id c =? complaintId)) prev.

(** [handleVerifyAuthenticity].  [complaints] is the list the callback
    closed over (its [useCallback] dependency), [prev] the list at the time
    the state update runs, after the awaited call. *)
Definition handleVerifyAuthenticity
    (complaints : list Complaint.t) (complaintId : Z)
    (apiKey : bool) (remote : GeminiService.GenerateContent)
    (prev : list Complaint.t) : list Complaint.t :=
  match find (fun c => Complaint.id c =? complaintId) complaints with
  | None => prev
  | Some _ =>
      match GeminiService.verifyComplaintAuthenticity apiKey remote with
      | Returns result =>
          map (fun c =>
                 if Complaint.id c =? complaintId
                 then Complaint.with_authenticityStatus
                        (Some (Authenticity_of_ai result)) c
                 else c) prev
      | Throws => prev
      end
  end.

Definition handleAdminVerify
    (complaintId : Z) (status : AdminVerdict) (prev : list Complaint.t) :=
  map (fun c =>
         if Complaint.id c =? complaintId
         then Complaint.with_authenticityStatus
                (Some (Authenticity_of_admin status)) c
         else c) prev.

End App.


(* ================================================================== *)
(** ** components/ComplaintForm.tsx *)

Module ComplaintForm.

(** The form's state hooks that the submission reads. *)
Record State := mkState {
  location : string;
  description : string;
  image : option string;
  isPublic : bool;
  verificationResult : option string
}.

(** The arguments of the [onSubmit] call. *)
Record Submission := mkSubmission {
  finalLocation : string;
  submittedDescription : string;
  imageUrl : option string;
  finalIsPublic : bool;
  finalAuthStatus : Authenticity
}.

(** What the browser answers during [handleSubmit] when the location is
    missing: whether [navigator.geolocation] exists, the answer to the first
    [window.confirm], the position fix (its coordinates already formatted
    with [toFixed(5)], or [None] when the device reports an error), the
    address [getLocationFromCoordinates] resolves to, and the answer to the
    second [window.confirm]. *)
Record Browser := mkBrowser {
  geolocation : bool;
  confirmAutoDetect : bool;
  currentPosition : option string;
  address : string;
  confirmProceed : bool
}.

Inductive Outcome :=
| Alert (message : string)
| Declined
| Proceed (location : string).

(** [handleSubmit], up to the call of [processSubmission]. *)
Definition handleSubmit (env : Browser) (st : State) : Outcome :=
  if negb (truthy_string (description st)) then
    Alert "Please provide a description."
  else if negb (truthy_opt_string (image st)) then
    Alert "An image is required to file a complaint."
  else if truthy_string (location st) then
    Proceed (location st)
  else if negb (geolocation env) then
    Alert "Location is required and Geolocation is not supported. Please enter it manually."
  else if confirmAutoDetect env then
    match currentPosition env with
    | Some coordinates =>
        let detectedLocation :=
          if truthy_string (address env) then address env else coordinates in
        if confirmProceed env then Proceed detectedLocation else Declined
    | None =>
        Alert "Could not access location. Please check permissions or enter manually."
    end
  else Declined.

(** [processSubmission(finalLocation)]; [verify] is what the awaited
    [verifyComplaintAuthenticity] call does, evaluated only on the branch
    that makes the call. *)
Definition processSubmission
    (st : State) (finalLocation : string) (verify : Completion AiVerdict)
    : Submission :=
  let manual :=
    match verificationResult st with
    | Some r =>
        if (r =? "Likely Authentic")%string then Some LikelyAuthentic
        else if (r =? "Potential Spam")%string then Some PotentialSpam
        else None
    | None => None
    end in
  let checked :=
    match manual with
    | Some a => (isPublic st, a)
    | None =>
        if isPublic st then
          match verify with
          | Returns status => (isPublic st, Authenticity_of_ai status)
          | Throws => (false, Unverified)
          end
        else (isPublic st, Unverified)
    end in
  let finalAuthStatus := snd checked in
  let finalIsPublic :=
    if Authenticity_eqb finalAuthStatus PotentialSpam then false
    else fst checked in
  mkSubmission finalLocation (description st) (or_undefined (image st))
    finalIsPublic finalAuthStatus.

End ComplaintForm.

(* ================================================================== *)
(** ** components/Dashboard.tsx and App.tsx: filing through the form *)

Module Filing.

(** [Dashboard.handleComplaintSubmit] hands the five arguments to
    [onAddComplaint], which [App] binds to [handleAddComplaint]. *)
Definition handleComplaintSubmit
    (currentUser : option User.t) (idNow createdNow : Z)
    (s : ComplaintForm.Submission) (prev : list Complaint.t) :=
  App.handleAddComplaint currentUser idNow createdNow
    (ComplaintForm.finalLocation s) (ComplaintForm.submittedDescription s)
    (ComplaintForm.imageUrl s) (Some (ComplaintForm.finalIsPublic s))
    (Some (ComplaintForm.finalAuthStatus s)) prev.

(** A click on the form's submit button, end to end: validation, the
    authenticity call against the gateway, and the insertion. *)
Definition submitForm
    (currentUser : option User.t) (idNow createdNow : Z)
    (env : ComplaintForm.Browser)
    (apiKey : bool) (remote : GeminiService.GenerateContent)
    (st : ComplaintForm.State) (prev : list Complaint.t) : list Complaint.t :=
  match ComplaintForm.handleSubmit env st with
  | ComplaintForm.Proceed loc =>
      handleComplaintSubmit currentUser idNow createdNow
        (ComplaintForm.processSubmission st loc
           (GeminiService.verifyComplaintAuthenticity apiKey remote))
        prev
  | _ => prev
  end.

End Filing.

(* ================================================================== *)
(** ** components/ChatAssistant.tsx: the create_complaint tool call *)

Module ChatAssistant.

Record ToolArgs := mkArgs {
  location : string;
  description : string
}.

(** [handleToolCall(name, args)]: the reply handed back to the model and the
    effect on the complaints.  [onAddComplaint] is [App.handleAddComplaint],
    called with four arguments. *)
Definition handleToolCall
    (currentUser : option User.t) (idNow createdNow : Z)
    (name : string) (args : ToolArgs) (prev : list Complaint.t)
    : string * list Complaint.t :=
  if (name =? "create_complaint")%string then
    (("Complaint successfully created for " ++ location args ++ ".")%string,
     App.handleAddComplaint currentUser idNow createdNow
       (location args) (description args) None (Some true) None prev)
  else ("Unknown action.", prev).

End ChatAssistant.

(* ================================================================== *)
(** ** components/Dashboard.tsx: ComplaintCard's authenticity controls *)

Module ComplaintCard.

Record Props := mkProps {
  complaint : Complaint.t;
  currentUser : User.t;
  onVerify : bool;
  onAdminVerify : bool
}.

Definition authStatus (p : Props) : Authenticity :=
  match Complaint.authenticityStatus (complaint p) with
  | Some a => a
  | None => Unverified
  end.

Definition isAiChecked (p : Props) : bool :=
  Authenticity_eqb (authStatus p) LikelyAuthentic
  || Authenticity_eqb (authStatus p) PotentialSpam.

Definition isVerified (p : Props) : bool := Authenticity_eqb (authStatus p) Verified.

Definition isSpam (p : Props) : bool := Authenticity_eqb (authStatus p) Spam.

(** The card of a deleted complaint shown to an administrator has only the
    restore and purge buttons. *)
Definition isBinCard (p : Props) : bool :=
  is_some (Complaint.deletedAt (complaint p))
  && Role_eqb (User.role (currentUser p)) ADMIN.

(** The block that holds the authenticity buttons is rendered. *)
Definition showsAuthenticityControls (p : Props) : bool :=
  negb (isBinCard p)
  && Role_eqb (User.role (currentUser p)) ADMIN
  && onVerify p && onAdminVerify p
  && negb (isVerified p) && negb (isSpam p).

(** The "check authenticity" button, whose click runs [onVerify]. *)
Definition showsVerifyButton (p : Props) : bool :=
  showsAuthenticityControls p && negb (isAiChecked p).

(** A click on the "check authenticity" button of the card, when there is
    one: [handleVerifyClick] awaits [onVerify(complaint.id)]. *)
Definition handleVerifyClick
    (p : Props) (complaints : list Complaint.t)
    (apiKey : bool) (remote : GeminiService.GenerateContent)
    (prev : list Complaint.t) : list Complaint.t :=
  if showsVerifyButton p then
    App.handleVerifyAuthenticity complaints (Complaint.id (complaint p))
      apiKey remote prev
  else prev.

End ComplaintCard.

(* ================================================================== *)
(** ** The complaint collection as a state machine *)

Module Lifecycle.

(** The operations that address one complaint by its id, with what each
    reads besides the id. *)
Inductive Operation :=
| CastVote
| SetStatus (status : Status) (now : Z)
| SoftDelete (now : Z)
| RestoreDeleted
| Purge
| ApplyAiVerification
    (complaints : list Complaint.t)
    (apiKey : bool) (remote : GeminiService.GenerateContent)
| ApplyAdminVerification (status : AdminVerdict).

Definition apply (op : Operation) (complaintId : Z) (prev : list Complaint.t)
    : list Complaint.t :=
  match op with
  | CastVote => App.handleVote complaintId prev
  | SetStatus status now => App.handleUpdateComplaintStatus complaintId status now prev
  | SoftDelete now => App.handleDeleteComplaint complaintId now prev
  | RestoreDeleted => App.handleRestoreComplaint complaintId prev
  | Purge => App.handlePermanentDelete complaintId prev
  | ApplyAiVerification complaints apiKey remote =>
      App.handleVerifyAuthenticity complaints complaintId apiKey remote prev
  | ApplyAdminVerification status => App.handleAdminVerify complaintId status prev
  end.

(** Everything that writes the collection: the two ways of filing and the
    per-complaint operations. *)
Inductive Action :=
| SubmitForm
    (currentUser : option User.t) (idNow createdNow : Z)
    (env : ComplaintForm.Browser)
    (apiKey : bool) (remote : GeminiService.GenerateContent)
    (st : ComplaintForm.State)
| ChatToolCall
    (currentUser : option User.t) (idNow createdNow : Z)
    (name : string) (args : ChatAssistant.ToolArgs)
| OnComplaint (op : Operation) (complaintId : Z).

Definition step (a : Action) (prev : list Complaint.t) : list Complaint.t :=
  match a with
  | SubmitForm currentUser idNow createdNow env apiKey remote st =>
      Filing.submitForm currentUser idNow createdNow env apiKey remote st prev
  | ChatToolCall currentUser idNow createdNow name args =>
      snd (ChatAssistant.handleToolCall currentUser idNow createdNow name args prev)
  | OnComplaint op complaintId => apply op complaintId prev
  end.

(** The collection after a sequence of actions, oldest first. *)
Definition run (actions : list Action) (start : list Complaint.t) : list Complaint.t :=
  fold_left (fun cs a => step a cs) actions start.

(** The invariant of the data model: [resolvedAt] is set exactly on the
    resolved complaints. *)
Definition resolvedAt_iff_resolved (c : Complaint.t) : Prop :=
  Complaint.resolvedAt c <> None <-> Complaint.status c = RESOLVED.

(** The shape shared by the handlers that [map] over the collection:
    [prev.map(c => c.id === complaintId ? update(c) : c)]. *)
Definition updateById
    (complaintId : Z) (update : Complaint.t -> Complaint.t)
    (prev : list Complaint.t) : list Complaint.t :=
  map (fun c => if Complaint.id c =? complaintId then update c else c) prev.

(** The complaints an operation on [complaintId] must not touch. *)
Definition others (complaintId : Z) (cs : list Complaint.t) : list Complaint.t :=
  filter (fun c => negb (Complaint.id c =? complaintId)) cs.

End Lifecycle.

(* ================================================================== *)
(** ** components/Dashboard.tsx: the gamification view *)

Module Gamification.

Definition isSpamStatus (a : option Authenticity) : bool :=
  match a with Some Spam => true | _ => false end.

Definition userActivePublicComplaints
    (complaints : list Complaint.t) (u : User.t) : list Complaint.t :=
  filter (fun c =>
            (Complaint.userId c =? User.id u)
            && Complaint.isPublic c
            && negb (Status_eqb (Complaint.status c) RESOLVED)
            && negb (is_some (Complaint.deletedAt c))
            && negb (isSpamStatus (Complaint.authenticityStatus c)))
         complaints.

(** The sum of a list of numbers, for stating what the reductions compute. *)
Definition sum (l : list Z) : Z := fold_right Z.add 0 l.

(** [Array.prototype.reduce] with an initial value. *)
Definition reduce {A B : Type} (f : B -> A -> B) (init : B) (l : list A) : B :=
  fold_left f l init.

Definition includes (b : Badge) (l : list Badge) : bool :=
  existsb (Badge_eqb b) l.

Definition totalPoints (complaints : list Complaint.t) (u : User.t) : Z :=
  User.points u
  + reduce (fun sum c => sum + Complaint.votes c * 5) 0
      (userActivePublicComplaints complaints u).

Definition totalVotes (complaints : list Complaint.t) (u : User.t) : Z :=
  reduce (fun sum c => sum + Complaint.votes c) 0
    (userActivePublicComplaints complaints u).

Definition dynamicBadges (complaints : list Complaint.t) (u : User.t) : list Badge :=
  let b0 := User.badges u in
  let b1 :=
    if (totalVotes complaints u >=? 5) && negb (includes COMMUNITY_VOICE b0)
    then b0 ++ [COMMUNITY_VOICE] else b0 in
  if (totalVotes complaints u >=? 10) && negb (includes INFLUENCER b1)
  then b1 ++ [INFLUENCER] else b1.

(** The object each user is mapped to: [{ ...u, points, badges }]. *)
Definition withStats (complaints : list Complaint.t) (u : User.t) : User.t :=
  User.mk (User.id u) (User.name u) (User.email u) (User.password u)
    (User.role u) (totalPoints complaints u) (dynamicBadges complaints u).

(** [Array.prototype.sort] with the comparator [(a, b) => b.points - a.points]:
    a stable sort, written as an insertion sort that keeps an element in
    front of the later ones it ties with. *)
Fixpoint insert (a : User.t) (l : list User.t) : list User.t :=
  match l with
  | [] => [a]
  | b :: l' =>
      if User.points b - User.points a <=? 0 then a :: b :: l'
      else b :: insert a l'
  end.

Definition sort (l : list User.t) : list User.t :=
  fold_right insert [] l.

Definition sortedUsers (users : list User.t) (complaints : list Complaint.t)
    : list User.t :=
  sort (filter (fun u => Role_eqb (User.role u) USER)
          (map (withStats complaints) users)).

(** [sortedUsers.find(u => u.id === currentUser.id) || currentUser], whose
    points and badges the view displays. *)
Definition currentUserStats
    (users : list User.t) (complaints : list Complaint.t) (currentUser : User.t)
    : User.t :=
  match find (fun u => User.id u =? User.id currentUser)
             (sortedUsers users complaints) with
  | Some s => s
  | None => currentUser
  end.

End Gamification.

(* ================================================================== *)
(** ** components/Dashboard.tsx: AdminReportsView's metrics *)

Module Analytics.

(** *** JavaScript numbers

    A JavaScript number is a binary64 float.  An integer below [2^63] in
    magnitude is turned into the nearest one, which is the integer itself
    below [2^53]; lengths and differences of time values are far below. *)

Definition Number_of_Z (z : Z) : float :=
  if z <? 0 then PrimFloat.opp (of_uint63 (Uint63.of_Z (- z)))
  else of_uint63 (Uint63.of_Z z).

Definition Number_of_nat (n : nat) : float := Number_of_Z (Z.of_nat n).

(** [Math.round]: the nearest integer, a tie going up.  A finite float is
    [m * 2^e] for integers [m] and [e], so [floor (x + 1/2)] is computed on
    integers; a float with [0 <= e] is already integral. *)
Definition Math_round (x : float) : float :=
  match Prim2SF x with
  | S754_finite s m e =>
      if 0 <=? e then x
      else
        let v := if s then Z.neg m else Z.pos m in
        let n := (2 * v + 2 ^ (- e)) / 2 ^ (1 - e) in
        if (n =? 0) && s then (-0)%float else Number_of_Z n
  | _ => x
  end.

Definition digits (n : Z) : string := NilZero.string_of_uint (N.to_uint (Z.to_N n)).

Section Host.

(** [Number::toString], which [toFixed] falls back to for a value that is
    not finite or is at least [10^21]. *)
Variable Number_toString : float -> string.

(** [Date.prototype.getFullYear] and [getMonth], which read the time value
    in the local time zone. *)
Variable getFullYear : Z -> Z.
Variable getMonth : Z -> Z.

(** [Number.prototype.toFixed(1)]: with [n] the integer nearest to [10 * x],
    the larger one on a tie, the digits of [n] with a point before the last
    one; the sign is kept in front.  [10^21 <= x] is tested on [n]: such
    an [x] is integral and [n = 10 * x]. *)
Definition toFixed1 (x : float) : string :=
  match Prim2SF x with
  | S754_zero _ => "0.0"
  | S754_finite s m e =>
      let n :=
        if 0 <=? e then 10 * Z.pos m * 2 ^ e
        else (20 * Z.pos m + 2 ^ (- e)) / 2 ^ (1 - e) in
      if 10 ^ 22 <=? n then Number_toString x
      else ((if s then "-" else "") ++ digits (n / 10) ++ "." ++ digits (n mod 10))%string
  | _ => Number_toString x
  end.

(** The two [select] boxes: [None] is the value ['all'], [Some n] a value
    that [parseInt] reads as [n]. *)
Record Filters := mkFilters {
  year : option Z;
  month : option Z
}.

Definition filteredComplaints (filters : Filters) (complaints : list Complaint.t)
    : list Complaint.t :=
  filter (fun c =>
            let yearMatch :=
              match year filters with
              | None => true
              | Some y => getFullYear (Complaint.createdAt c) =? y
              end in
            let monthMatch :=
              match month filters with
              | None => true
              | Some m => getMonth (Complaint.createdAt c) =? m
              end in
            yearMatch && monthMatch && negb (is_some (Complaint.deletedAt c)))
         complaints.

Definition resolvedComplaints (filtered : list Complaint.t) : list Complaint.t :=
  filter (fun c =>
            Status_eqb (Complaint.status c) RESOLVED
            && is_some (Complaint.resolvedAt c))
         filtered.

(** The [forEach] that accumulates [resolvedAt.getTime() - createdAt.getTime()].
    Both time values are integers below [2^53] in magnitude, hence exact
    floats, and the subtraction rounds their integer difference. *)
Definition totalResolutionTime (resolved : list Complaint.t) : float :=
  fold_left
    (fun total c =>
       match Complaint.resolvedAt c with
       | Some r => (total + Number_of_Z (r - Complaint.createdAt c))%float
       | None => total
       end)
    resolved 0%float.

(** [Math.round((totalResolved / total) * 100)], guarded by [total > 0]. *)
Definition percentage (totalResolved total : nat) : float :=
  if (0 <? total)%nat
  then Math_round ((Number_of_nat totalResolved / Number_of_nat total) * 100)%float
  else 0%float.

Record Metrics := mkMetrics {
  avgResolutionTimeDays : string;
  resolutionRate : float;
  total : nat
}.

Definition analyticsMetrics (filtered : list Complaint.t) : Metrics :=
  let resolved := resolvedComplaints filtered in
  let totalResolved := List.length resolved in
  let total := List.length filtered in
  let avgResolutionTimeHours :=
    if (0 <? totalResolved)%nat
    then ((totalResolutionTime resolved / Number_of_nat totalResolved)
          / (1000 * 60 * 60))%float
    else 0%float in
  mkMetrics (toFixed1 (avgResolutionTimeHours / 24)%float)
            (percentage totalResolved total)
            total.

End Host.

(** The rate as the specification words it: [100 * resolved / total]
    rounded to the nearest integer, a half going up, and 0 for an empty
    set. *)
Definition spec_resolutionRate (resolvedCount totalCount : nat) : Z :=
  if (totalCount =? 0)%nat then 0
  else (200 * Z.of_nat resolvedCount + Z.of_nat totalCount)
       / (2 * Z.of_nat totalCount).

(** The times the specification averages: [resolvedAt - createdAt], in
    milliseconds, of each complaint that is Resolved and has [resolvedAt],
    in the order of the collection. *)
Fixpoint spec_resolutionTimes (filtered : list Complaint.t) : list Z :=
  match filtered with
  | [] => []
  | c :: rest =>
      match Complaint.status c, Complaint.resolvedAt c with
      | RESOLVED, Some r =>
          (r - Complaint.createdAt c) :: spec_resolutionTimes rest
      | _, _ => spec_resolutionTimes rest
      end
  end.

(** The computed rate and the specification's agree on every pair of
    counts [resolved <= total < bound]. *)
Definition agrees_below (bound : nat) : bool :=
  forallb
    (fun total =>
       forallb
         (fun resolved =>
            Leibniz.eqb (percentage resolved total)
              (Number_of_Z (spec_resolutionRate resolved total)))
         (seq 0 (S total)))
    (seq 0 bound).

(** Two days, in milliseconds. *)
Definition twoDays : Z := 2 * 24 * 60 * 60 * 1000.

End Analytics.

(* ================================================================== *)
(** ** components/Dashboard.tsx and App.tsx: the lists the views render *)

Module Views.

(** [[...xs].sort((a, b) => key(b) - key(a))]: a stable sort by descending
    key, written as an insertion sort that keeps an element in front of the
    later ones it ties with. *)
Fixpoint insertBy {A : Type} (key : A -> Z) (a : A) (l : list A) : list A :=
  match l with
  | [] => [a]
  | b :: l' =>
      if key b - key a <=? 0 then a :: b :: l'
      else b :: insertBy key a l'
  end.

Definition sortDescending {A : Type} (key : A -> Z) (l : list A) : list A :=
  fold_right (insertBy key) [] l.

(** What a stable sort by descending key makes of a list: a rearrangement
    in which keys never increase and elements of equal key keep the order
    they had. *)
Definition stableDescending {A : Type} (key : A -> Z) (sorted original : list A)
    : Prop :=
  Permutation sorted original
  /\ StronglySorted (fun a b => key b <= key a) sorted
  /\ forall k, filter (fun a => key a =? k) sorted
               = filter (fun a => key a =? k) original.

(** [xs.slice(0, n)]. *)
Definition slice {A : Type} (n : nat) (l : list A) : list A := firstn n l.

(** [complaints.filter(c => c.userId === currentUser.id && !c.deletedAt)]:
    the chat assistant's context in [App] and the user's own list in
    [renderUserDashboard]. *)
Definition userComplaints (currentUser : User.t) (complaints : list Complaint.t) :=
  filter (fun c =>
            (Complaint.userId c =? User.id currentUser)
            && negb (is_some (Complaint.deletedAt c)))
         complaints.

Definition publicComplaintsBase (complaints : list Complaint.t) :=
  filter (fun c =>
            Complaint.isPublic c
            && negb (Status_eqb (Complaint.status c) RESOLVED)
            && negb (is_some (Complaint.deletedAt c)))
         complaints.

(** The "trending" strip of the home view. *)
Definition publicComplaintsHome (complaints : list Complaint.t) :=
  slice 5 (sortDescending Complaint.votes (publicComplaintsBase complaints)).

Definition myComplaintsHome (currentUser : User.t) (complaints : list Complaint.t) :=
  slice 5 (sortDescending Complaint.createdAt (userComplaints currentUser complaints)).

(** The community view. *)
Definition publicComplaints (complaints : list Complaint.t) :=
  sortDescending Complaint.votes (publicComplaintsBase complaints).

(** The administrator's "recent" view. *)
Definition recentComplaints (complaints : list Complaint.t) :=
  sortDescending Complaint.createdAt
    (filter (fun c =>
               negb (is_some (Complaint.deletedAt c))
               && (Status_eqb (Complaint.status c) PENDING
                   || Status_eqb (Complaint.status c) IN_PROGRESS))
            complaints).

(** [c.deletedAt?.getTime() || 0]. *)
Definition deletedTime (c : Complaint.t) : Z :=
  match Complaint.deletedAt c with
  | Some t => t
  | None => 0
  end.

(** The recycle bin. *)
Definition binComplaints (complaints : list Complaint.t) :=
  sortDescending deletedTime
    (filter (fun c => is_some (Complaint.deletedAt c)) complaints).

End Views.

(* ================================================================== *)
(** ** components/Dashboard.tsx: the charts of AdminReportsView *)

Module Charts.

(** [Object.values(Status)]. *)
Definition statusValues : list Status := [PENDING; IN_PROGRESS; RESOLVED].

(** The pie chart's series: [{ name, value }] per status, the empty ones
    left out. *)
Definition statusData (filteredComplaints : list Complaint.t) : list (Status * nat) :=
  filter (fun item => (0 <? snd item)%nat)
    (map (fun status =>
            (status,
             List.length
               (filter (fun c => Status_eqb (Complaint.status c) status)
                  filteredComplaints)))
       statusValues).

(** [acc[month] = (acc[month] || 0) + 1] on the object that collects the
    counts.  The object is kept as the list of its entries in insertion
    order, which is the order [Object.keys] lists keys that are not array
    indices; a month label is neither an index nor the name of a member of
    [Object.prototype]. *)
Fixpoint increment (month : string) (acc : list (string * nat)) : list (string * nat) :=
  match acc with
  | [] => [(month, 1%nat)]
  | (k, v) :: acc' =>
      if (k =? month)%string then (k, S v) :: acc'
      else (k, v) :: increment month acc'
  end.

Section Locale.

(** [date.toLocaleString('default', { month: 'short' })] on a time value. *)
Variable monthLabel : Z -> string.

(** The bar chart's series: [{ month, Complaints }] per month label. *)
Definition barChartData (filteredComplaints : list Complaint.t) : list (string * nat) :=
  fold_left (fun acc c => increment (monthLabel (Complaint.createdAt c)) acc)
    filteredComplaints [].

End Locale.

End Charts.

(* ================================================================== *)
(** ** components/Dashboard.tsx: the other buttons of ComplaintCard *)

Module CardActions.

(** The upvote button; [onVote] says whether the card was given the
    handler. *)
Definition showsVoteButton (p : ComplaintCard.Props) (onVote : bool) : bool :=
  negb (ComplaintCard.isBinCard p)
  && Complaint.isPublic (ComplaintCard.complaint p)
  && onVote
  && Role_eqb (User.role (ComplaintCard.currentUser p)) USER
  && negb (Status_eqb (Complaint.status (ComplaintCard.complaint p)) RESOLVED).

(** A click on the upvote button, when there is one. *)
Definition handleVoteClick
    (p : ComplaintCard.Props) (onVote : bool) (prev : list Complaint.t) :=
  if showsVoteButton p onVote
  then App.handleVote (Complaint.id (ComplaintCard.complaint p)) prev
  else prev.

(** The administrator's status buttons: "Start Progress" on a Pending
    complaint, "Mark as Resolved" on one that is not Resolved. *)
Definition showsStatusButton (p : ComplaintCard.Props) (target : Status) : bool :=
  negb (ComplaintCard.isBinCard p)
  && Role_eqb (User.role (ComplaintCard.currentUser p)) ADMIN
  && match target with
     | IN_PROGRESS => Status_eqb (Complaint.status (ComplaintCard.complaint p)) PENDING
     | RESOLVED => negb (Status_eqb (Complaint.status (ComplaintCard.complaint p)) RESOLVED)
     | PENDING => false
     end.

(** A click on the status button for [target], when there is one. *)
Definition handleUpdateStatusClick
    (p : ComplaintCard.Props) (target : Status) (now : Z)
    (prev : list Complaint.t) :=
  if showsStatusButton p target
  then App.handleUpdateComplaintStatus
         (Complaint.id (ComplaintCard.complaint p)) target now prev
  else prev.

(** The order in which a complaint moves through its statuses. *)
Definition statusRank (s : Status) : nat :=
  match s with
  | PENDING => 0
  | IN_PROGRESS => 1
  | RESOLVED => 2
  end.

End CardActions.

(* ================================================================== *)
(** ** What is filed with a complaint *)

Module Filed.

(** [c'] is [c] as far as what was filed goes (who, where, what, when,
    the image and the visibility), with no vote lost. *)
Definition keeps (c c' : Complaint.t) : Prop :=
  Complaint.id c' = Complaint.id c
  /\ Complaint.userId c' = Complaint.userId c
  /\ Complaint.userName c' = Complaint.userName c
  /\ Complaint.location c' = Complaint.location c
  /\ Complaint.description c' = Complaint.description c
  /\ Complaint.createdAt c' = Complaint.createdAt c
  /\ Complaint.imageUrl c' = Complaint.imageUrl c
  /\ Complaint.isPublic c' = Complaint.isPublic c
  /\ Complaint.votes c <= Complaint.votes c'.

End Filed.

(* ================================================================== *)
(** ** App.tsx: the session *)

Module Session.

Inductive UserView := home | history | gamification | fileComplaint | community | help.

Inductive AdminView := recent | adminHistory | reports.

(** The state hooks of [App] that login and sign-up touch. *)
Record State := mk {
  users : list User.t;
  currentUser : option User.t;
  userView : UserView;
  adminView : AdminView
}.

Definition initial : State := mk App.initialUsers None home recent.

Definition handleLogin (user : User.t) (st : State) : State :=
  mk (users st) (Some user)
     (if Role_eqb (User.role user) USER then home else userView st)
     (if Role_eqb (User.role user) ADMIN then recent else adminView st).

Definition handleSignUp (newUser : User.t) (st : State) : State :=
  handleLogin newUser
    (mk (users st ++ [newUser]) (currentUser st) (userView st) (adminView st)).

Definition handleLogout (st : State) : State :=
  mk (users st) None (userView st) (adminView st).

End Session.

(* ================================================================== *)
(** ** components/Login.tsx *)

Module Login.

(** A message put in the [error] hook: a literal of the source, or the
    entry of the translation table for a key. *)
Inductive Message :=
| Literal (text : string)
| Translated (key : string).

(** The state hooks of the component. *)
Record State := mk {
  selectedRole : option Role;
  isSignUp : bool;
  email : string;
  password : string;
  confirmPassword : string;
  name : string;
  error : option Message
}.

(** The hooks' initial values; the empty [error] string is [None]. *)
Definition initial : State := mk None false "" "" "" "" None.

(** [resetForm]. *)
Definition resetForm (st : State) : State :=
  mk (selectedRole st) false "" "" "" "" None.

Definition handleRoleSelect (role : Role) (st : State) : State :=
  resetForm (mk (Some role) (isSignUp st) (email st) (password st)
               (confirmPassword st) (name st) (error st)).

Definition handleBack (st : State) : State :=
  resetForm (mk None (isSignUp st) (email st) (password st)
               (confirmPassword st) (name st) (error st)).

(** The link under the form:
    [setIsSignUp(!isSignUp); setError(''); resetForm()].  The setters take
    values, so for each hook the last value set during the click is the one
    that holds afterwards. *)
Definition toggleMode (st : State) : State :=
  resetForm (mk (selectedRole st) (negb (isSignUp st)) (email st) (password st)
               (confirmPassword st) (name st) None).

(** The character classes of [checkPasswordStrength], on the bytes of the
    text: [A-Z], [a-z] and [0-9] hold ASCII characters, which are one byte
    and one code unit each, and every byte of a character outside ASCII is
    outside the three classes, as its code units are. *)
Definition isUpper (c : ascii) : bool :=
  (Nat.leb 65 (nat_of_ascii c) && Nat.leb (nat_of_ascii c) 90)%bool.

Definition isLower (c : ascii) : bool :=
  (Nat.leb 97 (nat_of_ascii c) && Nat.leb (nat_of_ascii c) 122)%bool.

Definition isDigit (c : ascii) : bool :=
  (Nat.leb 48 (nat_of_ascii c) && Nat.leb (nat_of_ascii c) 57)%bool.

(** [/class/.test(pass)]: some byte of [pass] is in the class. *)
Fixpoint test (class : ascii -> bool) (pass : string) : bool :=
  match pass with
  | EmptyString => false
  | String c pass' => class c || test class pass'
  end.

Definition checkPasswordStrength (pass : string) : nat :=
  if negb (truthy_string pass) then 0%nat
  else
    ((if Nat.leb 8 (JsString.length pass) then 1 else 0)
     + (if test isUpper pass then 1 else 0)
     + (if test isDigit pass then 1 else 0)
     + (if test (fun c => negb (isUpper c || isLower c || isDigit c)) pass
        then 1 else 0))%nat.

Definition getStrengthColor (score : nat) : string :=
  if Nat.eqb score 0 then "bg-gray-200 dark:bg-gray-600"
  else if Nat.ltb score 2 then "bg-red-500"
  else if Nat.ltb score 3 then "bg-yellow-500"
  else if Nat.ltb score 4 then "bg-blue-500"
  else "bg-green-500".

(** [getStrengthText]: the key it looks up, or [None] for the empty text. *)
Definition getStrengthText (score : nat) : option string :=
  if Nat.eqb score 0 then None
  else if Nat.ltb score 2 then Some "weak"
  else if Nat.ltb score 3 then Some "fair"
  else if Nat.ltb score 4 then Some "good"
  else Some "strong".

(** The string a template literal makes of [selectedRole]. *)
Definition roleText (r : option Role) : string :=
  match r with
  | Some USER => "User"
  | Some ADMIN => "Administrator"
  | None => "null"
  end.

Definition setError (m : Message) (st : State) : State :=
  mk (selectedRole st) (isSignUp st) (email st) (password st)
     (confirmPassword st) (name st) (Some m).

Definition Role_opt_eqb (a : Role) (b : option Role) : bool :=
  match b with
  | Some b' => Role_eqb a b'
  | None => false
  end.

(** [u.password === password] on the optional stored password. *)
Definition passwordMatches (u : User.t) (password : string) : bool :=
  match User.password u with
  | Some p => (p =? password)%string
  | None => false
  end.

(** [handleSignIn]: the component's next state and the call of [onLogin],
    applied to the session. *)
Definition handleSignIn (st : State) (app : Session.State) : State * Session.State :=
  match find (fun u => (User.email u =? email st)%string
                       && passwordMatches u (password st))
             (Session.users app) with
  | Some user =>
      if negb (Role_opt_eqb (User.role user) (selectedRole st)) then
        (setError
           (Literal ("This account is not registered as a "
                     ++ roleText (selectedRole st) ++ "."))
           st,
         app)
      else (st, Session.handleLogin user app)
  | None => (setError (Translated "loginError") st, app)
  end.

(** [handleSignUp]; [now] is the value of [Date.now()]. *)
Definition handleSignUp (now : Z) (st : State) (app : Session.State)
    : State * Session.State :=
  if is_some (find (fun u => (User.email u =? email st)%string) (Session.users app))
  then (setError (Literal "User already exists with this email") st, app)
  else if negb (password st =? confirmPassword st)%string
  then (setError (Translated "passwordMismatch") st, app)
  else
    match selectedRole st with
    | None => (st, app)
    | Some role =>
        (st,
         Session.handleSignUp
           (User.mk now (name st) (email st) (Some (password st)) role 0 [])
           app)
    end.

(** What a visitor can do on the login screen, and logging out.  The form
    and its fields exist once a role is selected; the role buttons exist
    before.  The screen is mounted while nobody is logged in and starts
    from its initial state each time. *)
Inductive Event :=
| SelectRole (role : Role)
| Back
| ToggleMode
| TypeEmail (text : string)
| TypePassword (text : string)
| TypeConfirmPassword (text : string)
| TypeName (text : string)
| Submit (now : Z)
| Logout.

Definition onForm (st : State) (next : State) : State :=
  if is_some (selectedRole st) then next else st.

(** The name and confirmation fields are rendered in sign-up mode only. *)
Definition onSignUpForm (st : State) (next : State) : State :=
  if is_some (selectedRole st) && isSignUp st then next else st.

Definition step (e : Event) (w : State * Session.State) : State * Session.State :=
  let (st, app) := w in
  match Session.currentUser app with
  | Some _ =>
      match e with
      | Logout => (initial, Session.handleLogout app)
      | _ => w
      end
  | None =>
      match e with
      | SelectRole role =>
          if is_some (selectedRole st) then w else (handleRoleSelect role st, app)
      | Back => (onForm st (handleBack st), app)
      | ToggleMode => (onForm st (toggleMode st), app)
      | TypeEmail text =>
          (onForm st (mk (selectedRole st) (isSignUp st) text (password st)
                        (confirmPassword st) (name st) (error st)), app)
      | TypePassword text =>
          (onForm st (mk (selectedRole st) (isSignUp st) (email st) text
                        (confirmPassword st) (name st) (error st)), app)
      | TypeConfirmPassword text =>
          (onSignUpForm st
             (mk (selectedRole st) (isSignUp st) (email st) (password st)
                text (name st) (error st)), app)
      | TypeName text =>
          (onSignUpForm st
             (mk (selectedRole st) (isSignUp st) (email st) (password st)
                (confirmPassword st) text (error st)), app)
      | Submit now =>
          if is_some (selectedRole st) then
            if isSignUp st then handleSignUp now st app else handleSignIn st app
          else w
      | Logout => w
      end
  end.

Definition run (events : list Event) (w : State * Session.State) :=
  fold_left (fun w e => step e w) events w.

End Login.

(* ================================================================== *)
(** ** services/geminiService.ts: the other calls *)

Module GeminiCalls.

Import GeminiService.

(** [response.text || fallback]. *)
Definition textOr (text : option string) (fallback : string) : string :=
  if truthy_opt_string text
  then match text with Some t => t | None => fallback end
  else fallback.

(** [generateChartAnalysis(chartType, data, filters)]; [dataLength] is
    [data.length].  A failed request is thrown on to the caller. *)
Definition generateChartAnalysis
    (apiKey : bool) (dataLength : nat) (remote : GenerateContent)
    : Completion string :=
  if negb apiKey then Returns "API Key not configured."
  else if Nat.eqb dataLength 0 then Returns "No data available to analyze."
  else
    match remote with
    | Responds text => Returns (textOr text "No response generated.")
    | Fails => Throws
    end.

(** [generateComprehensiveReport(metrics, statusData, volumeData, filters)]. *)
Definition generateComprehensiveReport
    (apiKey : bool) (remote : GenerateContent) : Completion string :=
  if negb apiKey then Returns "API Key not configured."
  else
    match remote with
    | Responds text => Returns (textOr text "No report generated.")
    | Fails => Returns "Failed to generate report due to an error."
    end.

(** [analyzeWasteImage(imageDataUrl)]; [isDataUrl] says whether the
    argument matches [/^data:(.+);base64,(.+)$/]. *)
Definition analyzeWasteImage
    (apiKey : bool) (isDataUrl : bool) (remote : GenerateContent)
    : Completion string :=
  if negb apiKey then Returns "API Key not configured."
  else if negb isDataUrl then Returns "Invalid image format."
  else
    match remote with
    | Responds text => Returns (textOr text "Could not analyze image.")
    | Fails => Returns "Failed to analyze image. Please try again."
    end.

(** The answer of the request [getLocationFromCoordinates] sends: the text
    and, per grounding chunk, its [maps.uri] when it has one. *)
Inductive Grounded :=
| GroundedResponds (text : option string) (chunks : list (option string))
| GroundedFails.

Record Located := mkLocated {
  address : string;
  mapLink : option string
}.

(** The first chunk with a truthy [maps.uri]. *)
Fixpoint firstUri (chunks : list (option string)) : option string :=
  match chunks with
  | [] => None
  | chunk :: chunks' =>
      if truthy_opt_string chunk then chunk else firstUri chunks'
  end.

Definition getLocationFromCoordinates
    (apiKey : bool) (remote : Grounded) : Completion Located :=
  if negb apiKey then Returns (mkLocated "" None)
  else
    match remote with
    | GroundedResponds text chunks =>
        Returns (mkLocated (textOr (option_map JsString.trim text) "") (firstUri chunks))
    | GroundedFails => Returns (mkLocated "" None)
    end.

(** What [chat.sendMessage] resolves to: the text and the function calls of
    the model's turn, or a failure. *)
Inductive SendMessage :=
| Replies (text : option string) (functionCalls : list (string * ChatAssistant.ToolArgs))
| SendFails.

(** [getChatResponse(history, message, language, userComplaints, onToolCall)]
    with [onToolCall] bound to [ChatAssistant.handleToolCall]: the reply
    text and the complaints afterwards.  [first] answers the user's
    message, [followUp] the function response sent after a tool call. *)
Definition getChatResponse
    (apiKey : bool) (first followUp : SendMessage)
    (currentUser : option User.t) (idNow createdNow : Z)
    (prev : list Complaint.t) : string * list Complaint.t :=
  if negb apiKey then ("Chat unavailable (API Key missing).", prev)
  else
    match first with
    | SendFails => ("Sorry, I'm having trouble connecting right now.", prev)
    | Replies text functionCalls =>
        match functionCalls with
        | (name, args) :: _ =>
            let (_, complaints) :=
              ChatAssistant.handleToolCall currentUser idNow createdNow
                name args prev in
            match followUp with
            | Replies followUpText _ =>
                (textOr followUpText "Action completed.", complaints)
            | SendFails =>
                ("Sorry, I'm having trouble connecting right now.", complaints)
            end
        | [] => (textOr text "I'm sorry, I didn't catch that.", prev)
        end
    end.

End GeminiCalls.

(* ================================================================== *)
(** ** components/ChatAssistant.tsx: sending a message *)

Module ChatTurn.

Inductive Author := user | model.

Record Message := mkMessage {
  id : Z;
  role : Author;
  text : string
}.

Definition welcome : list Message :=
  [ mkMessage 1 model
      "Hi! I'm ZeroBot. I can help you check your reports or file a new one." ].

(** [handleSend]: the messages and the complaints after the turn.  [sentAt]
    and [repliedAt] are the two reads of [Date.now()]. *)
Definition handleSend
    (input : string) (sentAt repliedAt : Z)
    (apiKey : bool) (first followUp : GeminiCalls.SendMessage)
    (currentUser : option User.t) (idNow createdNow : Z)
    (messages : list Message) (prev : list Complaint.t)
    : list Message * list Complaint.t :=
  if negb (truthy_string (JsString.trim input)) then (messages, prev)
  else
    let userMessage := mkMessage sentAt user input in
    let (responseText, complaints) :=
      GeminiCalls.getChatResponse apiKey first followUp currentUser
        idNow createdNow prev in
    (messages ++ [userMessage] ++ [mkMessage (repliedAt + 1) model responseText],
     complaints).

End ChatTurn.

(* ================================================================== *)
(** ** components/ComplaintForm.tsx: the helpers of the form *)

Module FormHelpers.

(** The line feed of the ["\n\nAI Analysis: "] literal. *)
Definition LF : string := String (ascii_of_nat 10) EmptyString.

(** [handleAnalyzeImage]: the description afterwards.  With no image the
    handler returns at once. *)
Definition handleAnalyzeImage
    (apiKey : bool) (isDataUrl : bool) (remote : GeminiService.GenerateContent)
    (st : ComplaintForm.State) : ComplaintForm.State :=
  if negb (truthy_opt_string (ComplaintForm.image st)) then st
  else
    match GeminiCalls.analyzeWasteImage apiKey isDataUrl remote with
    | Returns analysis =>
        let prefix :=
          if truthy_string (ComplaintForm.description st)
          then (ComplaintForm.description st ++ LF ++ LF ++ "AI Analysis: ")%string
          else "AI Analysis: " in
        ComplaintForm.mkState (ComplaintForm.location st) (prefix ++ analysis)%string
          (ComplaintForm.image st) (ComplaintForm.isPublic st)
          (ComplaintForm.verificationResult st)
    | Throws => st
    end.

(** [handleManualVerification]: the verification result afterwards. *)
Definition handleManualVerification
    (apiKey : bool) (remote : GeminiService.GenerateContent)
    (st : ComplaintForm.State) : ComplaintForm.State :=
  if negb (truthy_string (ComplaintForm.description st))
     && negb (truthy_opt_string (ComplaintForm.image st))
  then st
  else
    ComplaintForm.mkState (ComplaintForm.location st) (ComplaintForm.description st)
      (ComplaintForm.image st) (ComplaintForm.isPublic st)
      (match GeminiService.verifyComplaintAuthenticity apiKey remote with
       | Returns AiLikelyAuthentic => Some "Likely Authentic"
       | Returns AiPotentialSpam => Some "Potential Spam"
       | Throws => None
       end).

(** What the browser answers to [handleSubmit] when the position fix is
    [coordinates] and the address is looked up with
    [getLocationFromCoordinates]. *)
Definition browserWith
    (confirmAutoDetect confirmProceed : bool) (coordinates : option string)
    (apiKey : bool) (remote : GeminiCalls.Grounded) : ComplaintForm.Browser :=
  ComplaintForm.mkBrowser true confirmAutoDetect coordinates
    (match GeminiCalls.getLocationFromCoordinates apiKey remote with
     | Returns located => GeminiCalls.address located
     | Throws => ""
     end)
    confirmProceed.

End FormHelpers.

(* ================================================================== *)
(** ** components/Dashboard.tsx: the report buttons of AdminReportsView *)

Module Reports.

Inductive ChartType := statusChart | volumeChart.

Record Summaries := mkSummaries {
  status : string;
  volume : string
}.

Definition setSummary (chartType : ChartType) (text : string) (prev : Summaries) :=
  match chartType with
  | statusChart => mkSummaries text (volume prev)
  | volumeChart => mkSummaries (status prev) text
  end.

(** [handleGenerateReportSummary(chartType, data)]: the summaries once the
    call has settled. *)
Definition handleGenerateReportSummary
    (chartType : ChartType) (dataLength : nat)
    (apiKey : bool) (remote : GeminiService.GenerateContent)
    (prev : Summaries) : Summaries :=
  let generating := setSummary chartType "Generating summary..." prev in
  match GeminiCalls.generateChartAnalysis apiKey dataLength remote with
  | Returns analysisText => setSummary chartType analysisText generating
  | Throws => setSummary chartType "Error: Could not generate summary." generating
  end.

(** [handleGenerateFullReport]: the report afterwards and whether the
    ["Failed to generate report."] alert was raised. *)
Definition handleGenerateFullReport
    (apiKey : bool) (remote : GeminiService.GenerateContent)
    (fullReport : string) : string * bool :=
  match GeminiCalls.generateComprehensiveReport apiKey remote with
  | Returns report => (report, false)
  | Throws => (fullReport, true)
  end.

End Reports.

(* ================================================================== *)
(** * Properties *)

(** ** JavaScript strings *)

(** On ASCII text the length is the number of bytes. *)
Lemma length_ascii s :
  (forall c, In c (list_ascii_of_string s) -> (nat_of_ascii c < 128)%nat) ->
  JsString.length s = String.length s.
Proof.
  induction s as [|c s IH]; intros H; [reflexivity|].
  cbn [JsString.length String.length]. rewrite IH.
  - assert (Hc : (nat_of_ascii c < 128)%nat) by (apply H; now left).
    unfold JsString.units.
    destruct (Nat.leb_spec 128 (nat_of_ascii c)); [lia|].
    destruct (Nat.leb_spec 240 (nat_of_ascii c)); [lia|reflexivity].
  - intros c' Hc'. apply H. now right.
Qed.

(** A white space character in front of a text is stripped, whichever of
    the twenty-five it is. *)
Lemma trimStart_white_space w s :
  In w JsString.white_space ->
  JsString.trimStart (w ++ s) = JsString.trimStart s.
Proof.
  intros H. unfold JsString.white_space in H. simpl in H.
  repeat (destruct H as [<-|H]; [reflexivity|]). contradiction.
Qed.

(** A text of white space only trims to the empty text. *)
Lemma trim_white_space_only ws :
  Forall (fun w => In w JsString.white_space) ws ->
  JsString.trim (fold_right append "" ws) = "".
Proof.
  intros H. unfold JsString.trim.
  assert (E : forall s, JsString.trimStart (fold_right append s ws)
                        = JsString.trimStart s).
  { intros s. induction H as [|w ws Hw _ IH]; [reflexivity|].
    cbn [fold_right]. now rewrite trimStart_white_space. }
  rewrite E. reflexivity.
Qed.

(** White space around the verdict is stripped, before and behind. *)
Lemma trim_padded_verdict w1 w2 :
  In w1 JsString.white_space -> In w2 JsString.white_space ->
  JsString.trim (w1 ++ "Potential Spam" ++ w2) = "Potential Spam".
Proof.
  intros H1 H2.
  assert (H : forallb
                (fun a =>
                   forallb
                     (fun b =>
                        (JsString.trim (a ++ "Potential Spam" ++ b)
                         =? "Potential Spam")%string)
                     JsString.white_space)
                JsString.white_space = true)
    by (vm_compute; reflexivity).
  rewrite forallb_forall in H. specialize (H w1 H1).
  rewrite forallb_forall in H. specialize (H w2 H2).
  now apply String.eqb_eq.
Qed.

(** ** Updating the complaints that carry an id *)

Section UpdateById.

Variable complaintId : Z.
Variable update : Complaint.t -> Complaint.t.

Local Abbreviation updateById := (Lifecycle.updateById complaintId update).

Lemma updateById_length prev : List.length (updateById prev) = List.length prev.
Proof. apply length_map. Qed.

Lemma updateById_nth_error prev i :
  nth_error (updateById prev) i =
  option_map (fun c => if Complaint.id c =? complaintId then update c else c)
             (nth_error prev i).
Proof. apply nth_error_map. Qed.

Lemma updateById_absent prev :
  (forall c, In c prev -> Complaint.id c <> complaintId) ->
  updateById prev = prev.
Proof.
  induction prev as [|c prev IH]; intros Habs; simpl; [reflexivity|].
  rewrite IH by (intros; apply Habs; now right).
  destruct (Z.eqb_spec (Complaint.id c) complaintId) as [E|_];
    [exfalso; apply (Habs c); [now left | exact E] | reflexivity].
Qed.

Hypothesis update_id : forall c, Complaint.id (update c) = Complaint.id c.

Lemma updateById_others prev :
  Lifecycle.others complaintId (updateById prev) = Lifecycle.others complaintId prev.
Proof.
  induction prev as [|c prev IH]; simpl; [reflexivity|].
  unfold Lifecycle.others in *; simpl.
  destruct (Z.eqb_spec (Complaint.id c) complaintId) as [E|N].
  - rewrite update_id. rewrite (proj2 (Z.eqb_eq _ _) E). simpl. exact IH.
  - rewrite (proj2 (Z.eqb_neq _ _) N). simpl. now rewrite IH.
Qed.

Lemma updateById_In c prev :
  In c (updateById prev) -> Complaint.id c = complaintId ->
  exists c0, In c0 prev /\ Complaint.id c0 = complaintId /\ c = update c0.
Proof.
  unfold Lifecycle.updateById. rewrite in_map_iff. intros [c0 [E Hin]] Hid.
  destruct (Z.eqb_spec (Complaint.id c0) complaintId) as [E0|N0].
  - exists c0. now repeat split.
  - subst c. contradiction.
Qed.

Lemma updateById_Forall (P : Complaint.t -> Prop) prev :
  (forall c, P c -> P (update c)) -> Forall P prev -> Forall P (updateById prev).
Proof.
  intros Hup H. unfold Lifecycle.updateById. rewrite Forall_map.
  eapply Forall_impl; [|exact H]. intros c Pc. simpl.
  destruct (Complaint.id c =? complaintId); auto.
Qed.

End UpdateById.

Import Lifecycle (updateById).

Lemma handleVote_updateById cid prev :
  App.handleVote cid prev =
  updateById cid (fun c => Complaint.with_votes (Complaint.votes c + 1) c) prev.
Proof. reflexivity. Qed.

Lemma handleUpdateComplaintStatus_updateById cid status now prev :
  App.handleUpdateComplaintStatus cid status now prev =
  updateById cid
    (Complaint.with_status status
       (if Status_eqb status RESOLVED then Some now else None)) prev.
Proof. reflexivity. Qed.

Lemma handleDeleteComplaint_updateById cid now prev :
  App.handleDeleteComplaint cid now prev =
  updateById cid (Complaint.with_deletedAt (Some now)) prev.
Proof. reflexivity. Qed.

Lemma handleRestoreComplaint_updateById cid prev :
  App.handleRestoreComplaint cid prev =
  updateById cid (Complaint.with_deletedAt None) prev.
Proof. reflexivity. Qed.

Lemma handleAdminVerify_updateById cid status prev :
  App.handleAdminVerify cid status prev =
  updateById cid
    (Complaint.with_authenticityStatus (Some (Authenticity_of_admin status))) prev.
Proof. reflexivity. Qed.

(** [verifyComplaintAuthenticity] has no path that rejects. *)
Lemma verifyComplaintAuthenticity_returns apiKey remote :
  exists result,
    GeminiService.verifyComplaintAuthenticity apiKey remote = Returns result.
Proof.
  unfold GeminiService.verifyComplaintAuthenticity.
  destruct apiKey; simpl; [|eauto].
  destruct remote as [[t|]|]; simpl; eauto.
  destruct (JsString.trim t =? "Likely Authentic")%string; eauto.
  destruct (JsString.trim t =? "Potential Spam")%string; eauto.
Qed.

Lemma handleVerifyAuthenticity_found complaints cid apiKey remote prev :
  find (fun c => Complaint.id c =? cid) complaints <> None ->
  exists result,
    GeminiService.verifyComplaintAuthenticity apiKey remote = Returns result
    /\ App.handleVerifyAuthenticity complaints cid apiKey remote prev =
       updateById cid
         (Complaint.with_authenticityStatus (Some (Authenticity_of_ai result)))
         prev.
Proof.
  unfold App.handleVerifyAuthenticity. intros Hfound.
  destruct (find _ complaints) as [c0|]; [|congruence].
  destruct (verifyComplaintAuthenticity_returns apiKey remote) as [r Hr].
  rewrite Hr. now exists r.
Qed.

Lemma handleVerifyAuthenticity_cases complaints cid apiKey remote prev :
  App.handleVerifyAuthenticity complaints cid apiKey remote prev = prev
  \/ exists result,
       App.handleVerifyAuthenticity complaints cid apiKey remote prev =
       updateById cid
         (Complaint.with_authenticityStatus (Some (Authenticity_of_ai result)))
         prev.
Proof.
  destruct (find (fun c => Complaint.id c =? cid) complaints) eqn:Ef.
  - right.
    destruct (handleVerifyAuthenticity_found complaints cid apiKey remote prev)
      as [r [_ E]]; [congruence|eauto].
  - left. unfold App.handleVerifyAuthenticity. now rewrite Ef.
Qed.

Ltac as_updateById :=
  rewrite ?handleVote_updateById, ?handleUpdateComplaintStatus_updateById,
    ?handleDeleteComplaint_updateById, ?handleRestoreComplaint_updateById,
    ?handleAdminVerify_updateById.

Lemma Forall_filter_keeps {A : Type} (P : A -> Prop) (f : A -> bool) l :
  Forall P l -> Forall P (filter f l).
Proof.
  rewrite !Forall_forall. intros H x Hx.
  apply filter_In in Hx. now apply H.
Qed.

(** ** The invariant on [resolvedAt] *)

Lemma resolvedAt_iff_resolved_with_status status now c :
  Lifecycle.resolvedAt_iff_resolved
    (Complaint.with_status status
       (if Status_eqb status RESOLVED then Some now else None) c).
Proof.
  unfold Lifecycle.resolvedAt_iff_resolved; simpl.
  destruct status; simpl; split; congruence.
Qed.

Lemma handleAddComplaint_cases currentUser idNow createdNow location description
    imageUrl isPublic authenticityStatus prev :
  App.handleAddComplaint currentUser idNow createdNow location description
    imageUrl isPublic authenticityStatus prev = prev
  \/ exists c,
       App.handleAddComplaint currentUser idNow createdNow location description
         imageUrl isPublic authenticityStatus prev = c :: prev
       /\ Complaint.status c = PENDING /\ Complaint.resolvedAt c = None.
Proof.
  destruct currentUser as [u|]; simpl; [right|now left].
  eexists. split; [reflexivity|]. now split.
Qed.

Lemma step_preserves_invariant a prev :
  Forall Lifecycle.resolvedAt_iff_resolved prev ->
  Forall Lifecycle.resolvedAt_iff_resolved (Lifecycle.step a prev).
Proof.
  intros H.
  assert (Hadd : forall cu i n l d im p au,
             Forall Lifecycle.resolvedAt_iff_resolved
               (App.handleAddComplaint cu i n l d im p au prev)).
  { intros. destruct (handleAddComplaint_cases cu i n l d im p au prev)
      as [E|[c [E [Hs Hr]]]]; rewrite E; [exact H|].
    constructor; [|exact H].
    unfold Lifecycle.resolvedAt_iff_resolved. rewrite Hs, Hr.
    split; [congruence|discriminate]. }
  destruct a as [cu i n env k r st|cu i n name args|op cid]; simpl.
  - unfold Filing.submitForm, Filing.handleComplaintSubmit.
    destruct (ComplaintForm.handleSubmit env st); auto.
  - unfold ChatAssistant.handleToolCall.
    destruct (name =? "create_complaint")%string; simpl; auto.
  - destruct op as [|status now|now| | |complaints k r|status]; simpl;
      as_updateById.
    + apply updateById_Forall; auto.
    + apply updateById_Forall; auto.
      intros c _. apply resolvedAt_iff_resolved_with_status.
    + apply updateById_Forall; auto.
    + apply updateById_Forall; auto.
    + unfold App.handlePermanentDelete. now apply Forall_filter_keeps.
    + destruct (handleVerifyAuthenticity_cases complaints cid k r prev)
        as [E|[res E]]; rewrite E; auto.
      apply updateById_Forall; auto.
    + apply updateById_Forall; auto.
Qed.

Lemma run_preserves_invariant actions start :
  Forall Lifecycle.resolvedAt_iff_resolved start ->
  Forall Lifecycle.resolvedAt_iff_resolved (Lifecycle.run actions start).
Proof.
  revert start. unfold Lifecycle.run.
  induction actions as [|a actions IH]; intros start H; simpl; [exact H|].
  apply IH. now apply step_preserves_invariant.
Qed.

Lemma initialComplaints_invariant now :
  Forall Lifecycle.resolvedAt_iff_resolved (App.initialComplaints now).
Proof.
  unfold App.initialComplaints, Lifecycle.resolvedAt_iff_resolved.
  repeat constructor; simpl; intros; congruence.
Qed.

(** C1.  In every state of the collection reached from the initial
    complaints by filing and per-complaint operations, [resolvedAt] is set
    if and only if the status is Resolved.  [handleUpdateComplaintStatus]
    keeps this on any collection where it holds, and on every complaint it
    addresses it stores the new status together with [resolvedAt = now] for
    Resolved and no [resolvedAt] for any other status. *)
Theorem C1_resolvedAt_set_iff_resolved :
  (forall t0 actions c,
      In c (Lifecycle.run actions (App.initialComplaints t0)) ->
      Lifecycle.resolvedAt_iff_resolved c)
  /\ (forall complaintId status now prev,
         Forall Lifecycle.resolvedAt_iff_resolved prev ->
         Forall Lifecycle.resolvedAt_iff_resolved
           (App.handleUpdateComplaintStatus complaintId status now prev))
  /\ (forall complaintId status now prev c,
         In c (App.handleUpdateComplaintStatus complaintId status now prev) ->
         Complaint.id c = complaintId ->
         Complaint.status c = status
         /\ Complaint.resolvedAt c =
            (if Status_eqb status RESOLVED then Some now else None)
         /\ Lifecycle.resolvedAt_iff_resolved c).
Proof.
  split; [|split].
  - intros t0 actions c Hin.
    pose proof (run_preserves_invariant actions _ (initialComplaints_invariant t0)) as H.
    rewrite Forall_forall in H. now apply H.
  - intros cid status now prev H.
    apply (step_preserves_invariant
             (Lifecycle.OnComplaint (Lifecycle.SetStatus status now) cid) prev H).
  - intros cid status now prev c Hin Hid.
    rewrite handleUpdateComplaintStatus_updateById in Hin.
    destruct (updateById_In _ _ _ _ Hin Hid) as [c0 [_ [_ ->]]].
    repeat split; try apply resolvedAt_iff_resolved_with_status.
Qed.

Lemma C1_witness :
  Forall Lifecycle.resolvedAt_iff_resolved
    (App.handleUpdateComplaintStatus 2 RESOLVED 1700000500000
       (App.initialComplaints 1700000000000)).
Proof.
  apply (proj1 (proj2 C1_resolvedAt_set_iff_resolved)).
  unfold App.initialComplaints, Lifecycle.resolvedAt_iff_resolved.
  repeat constructor; simpl; intros; congruence.
Defined.

(** ** Soft delete and restore *)

Lemma with_deletedAt_round_trip now c :
  Complaint.deletedAt c = None ->
  Complaint.with_deletedAt None (Complaint.with_deletedAt (Some now) c) = c.
Proof. destruct c; simpl; intros ->; reflexivity. Qed.

(** C9.  A complaint of the collection with no [deletedAt], soft-deleted
    and then restored through its id, is at the same position and equal to
    the original in every field; in between it carries [deletedAt = now] and
    is otherwise the original.  When no complaint with that id was already
    deleted, the whole collection is back to what it was. *)
Theorem C9_restore_after_softDelete :
  forall complaintId now prev,
    (forall i c,
        nth_error prev i = Some c ->
        Complaint.id c = complaintId ->
        Complaint.deletedAt c = None ->
        nth_error (App.handleDeleteComplaint complaintId now prev) i
          = Some (Complaint.with_deletedAt (Some now) c)
        /\ nth_error
             (App.handleRestoreComplaint complaintId
                (App.handleDeleteComplaint complaintId now prev)) i
           = Some c)
    /\ ((forall c, In c prev -> Complaint.id c = complaintId ->
                   Complaint.deletedAt c = None) ->
        App.handleRestoreComplaint complaintId
          (App.handleDeleteComplaint complaintId now prev) = prev).
Proof.
  intros cid now prev. split.
  - intros i c Hnth Hid Hdel. as_updateById.
    rewrite !updateById_nth_error, Hnth. simpl.
    rewrite (proj2 (Z.eqb_eq _ _) Hid). simpl.
    rewrite (proj2 (Z.eqb_eq _ _) Hid).
    now rewrite with_deletedAt_round_trip.
  - intros Hall. as_updateById. unfold updateById.
    rewrite map_map. rewrite <- (map_id prev) at 2.
    apply map_ext_in. intros c Hin.
    destruct (Z.eqb_spec (Complaint.id c) cid) as [E|N]; simpl.
    + rewrite (proj2 (Z.eqb_eq _ _) E).
      apply with_deletedAt_round_trip. now apply Hall.
    + now rewrite (proj2 (Z.eqb_neq _ _) N).
Qed.

Lemma C9_witness :
  nth_error
    (App.handleRestoreComplaint 4
       (App.handleDeleteComplaint 4 1700000500000
          (App.initialComplaints 1700000000000))) 3%nat
  = nth_error (App.initialComplaints 1700000000000) 3%nat.
Proof.
  apply (proj1 (C9_restore_after_softDelete 4 1700000500000
                  (App.initialComplaints 1700000000000)) 3%nat);
    reflexivity.
Defined.

(** ** Frame *)

Lemma others_idempotent cid prev :
  Lifecycle.others cid (Lifecycle.others cid prev) = Lifecycle.others cid prev.
Proof.
  unfold Lifecycle.others. induction prev as [|c prev IH]; simpl; [reflexivity|].
  destruct (negb (Complaint.id c =? cid)) eqn:E; simpl; [rewrite E|]; congruence.
Qed.

Lemma others_absent cid prev :
  (forall c, In c prev -> Complaint.id c <> cid) ->
  Lifecycle.others cid prev = prev.
Proof.
  unfold Lifecycle.others. induction prev as [|c prev IH]; intros H; simpl;
    [reflexivity|].
  rewrite (proj2 (Z.eqb_neq _ _) (H c (or_introl eq_refl))). simpl.
  rewrite IH; [reflexivity|]. intros; apply H; now right.
Qed.

(** C10.  An operation applied with a complaint id leaves the complaints
    with any other id unchanged and in their order: filtering the addressed
    id out of the result gives what it gives on the collection before.  When
    no complaint has the id, the result is the collection itself.  Every
    operation is a total function of the collection, so there is no error
    to raise. *)
Theorem C10_operations_frame :
  forall (op : Lifecycle.Operation) complaintId prev,
    Lifecycle.others complaintId (Lifecycle.apply op complaintId prev)
      = Lifecycle.others complaintId prev
    /\ ((forall c, In c prev -> Complaint.id c <> complaintId) ->
        Lifecycle.apply op complaintId prev = prev).
Proof.
  intros op cid prev.
  destruct op as [|status now|now| | |complaints k r|status]; simpl;
    as_updateById;
    try (split; [apply updateById_others; intros c; now destruct c
                |apply updateById_absent]).
  - split; [apply others_idempotent | apply others_absent].
  - destruct (handleVerifyAuthenticity_cases complaints cid k r prev)
      as [E|[res E]]; rewrite E.
    + split; [reflexivity | intros; reflexivity].
    + split; [apply updateById_others; intros c; now destruct c
             |apply updateById_absent].
Qed.

Lemma C10_witness :
  Lifecycle.apply Lifecycle.Purge 99 (App.initialComplaints 1700000000000)
  = App.initialComplaints 1700000000000.
Proof.
  apply (proj2 (C10_operations_frame Lifecycle.Purge 99
                  (App.initialComplaints 1700000000000))).
  intros c Hin. simpl in Hin.
  repeat (destruct Hin as [<-|Hin]; [simpl; lia|]). destruct Hin.
Defined.

(** ** Authenticity: the AI check and the administrator's decision *)

Lemma authStatus_terminal_hides_controls p :
  ComplaintCard.authStatus p = Verified \/ ComplaintCard.authStatus p = Spam ->
  ComplaintCard.showsAuthenticityControls p = false.
Proof.
  unfold ComplaintCard.showsAuthenticityControls, ComplaintCard.isVerified,
    ComplaintCard.isSpam.
  intros [-> | ->]; simpl; now rewrite ?andb_false_r.
Qed.

(** C2, as the code has it.  [handleVerifyAuthenticity] does not look at the
    current [authenticityStatus]: when the id is found, every complaint that
    carries it ends with the AI verdict, Likely Authentic or Potential Spam,
    whatever it held before.  The guard is in [ComplaintCard]: it renders
    the button that starts the check only for an administrator, on a card
    that is not in the bin and whose complaint is Unverified; for a card
    whose complaint is Verified or Spam there is no such button and a check
    through the card leaves the collection as it is. *)
Theorem C2_ai_check_guarded_by_card :
  (forall complaints complaintId apiKey remote prev c,
      find (fun c => Complaint.id c =? complaintId) complaints <> None ->
      In c (App.handleVerifyAuthenticity complaints complaintId apiKey remote prev) ->
      Complaint.id c = complaintId ->
      Complaint.authenticityStatus c = Some LikelyAuthentic
      \/ Complaint.authenticityStatus c = Some PotentialSpam)
  /\ (forall p,
         ComplaintCard.showsVerifyButton p = true ->
         ComplaintCard.authStatus p = Unverified
         /\ User.role (ComplaintCard.currentUser p) = ADMIN
         /\ Complaint.deletedAt (ComplaintCard.complaint p) = None)
  /\ (forall p complaints apiKey remote prev,
         ComplaintCard.authStatus p = Verified \/ ComplaintCard.authStatus p = Spam ->
         ComplaintCard.showsVerifyButton p = false
         /\ ComplaintCard.handleVerifyClick p complaints apiKey remote prev = prev).
Proof.
  split; [|split].
  - intros complaints cid k r prev c Hfound Hin Hid.
    destruct (handleVerifyAuthenticity_found complaints cid k r prev Hfound)
      as [res [_ E]].
    rewrite E in Hin.
    destruct (updateById_In _ _ _ _ Hin Hid) as [c0 [_ [_ ->]]].
    simpl. destruct res; auto.
  - intros p H. unfold ComplaintCard.showsVerifyButton,
      ComplaintCard.showsAuthenticityControls, ComplaintCard.isBinCard,
      ComplaintCard.isAiChecked, ComplaintCard.isVerified, ComplaintCard.isSpam in H.
    destruct (User.role (ComplaintCard.currentUser p)) eqn:Er;
      destruct (Complaint.deletedAt (ComplaintCard.complaint p)) eqn:Ed;
      destruct (ComplaintCard.authStatus p) eqn:Ea;
      simpl in H; rewrite ?andb_false_r in H; simpl in H;
      try discriminate; auto.
  - intros p complaints k r prev Hterm.
    assert (Hno : ComplaintCard.showsVerifyButton p = false).
    { unfold ComplaintCard.showsVerifyButton.
      now rewrite (authStatus_terminal_hides_controls p Hterm). }
    split; [exact Hno|].
    unfold ComplaintCard.handleVerifyClick. now rewrite Hno.
Qed.

Lemma C2_witness :
  ComplaintCard.handleVerifyClick
    (ComplaintCard.mkProps
       (Complaint.mk 1 1 "Alice" "Library, 2nd Floor" "Overflowing recycling bin."
          RESOLVED 1699827200000 (Some 1699913600000) None 12 true
          (Some Verified) None)
       (User.mk 2 "Admin Bob" "admin@example.com" (Some "admin") ADMIN 0 [])
       true true)
    (App.initialComplaints 1700000000000) true
    (GeminiService.Responds (Some "Potential Spam"))
    (App.initialComplaints 1700000000000)
  = App.initialComplaints 1700000000000.
Proof.
  apply (proj2 (proj2 C2_ai_check_guarded_by_card)).
  left. reflexivity.
Defined.

(** C2 fails on the handler: the first mock complaint is Verified, and an
    AI check on its id that answers Potential Spam replaces the
    administrator's decision. *)
Lemma C2_counterexample :
  option_map Complaint.authenticityStatus
    (nth_error (App.initialComplaints 1700000000000) 0)
  = Some (Some Verified)
  /\ option_map Complaint.authenticityStatus
       (nth_error
          (App.handleVerifyAuthenticity
             (App.initialComplaints 1700000000000) 1 true
             (GeminiService.Responds (Some "Potential Spam"))
             (App.initialComplaints 1700000000000)) 0)
     = Some (Some PotentialSpam).
Proof. split; reflexivity. Qed.

(** ** Filing a complaint *)

Lemma handleSubmit_alerts env st :
  ComplaintForm.description st = ""
  \/ truthy_opt_string (ComplaintForm.image st) = false ->
  exists message, ComplaintForm.handleSubmit env st = ComplaintForm.Alert message.
Proof.
  unfold ComplaintForm.handleSubmit. intros [-> | ->]; simpl; [eauto|].
  destruct (truthy_string (ComplaintForm.description st)); simpl; eauto.
Qed.

(** C3, at the chat assistant.  The [create_complaint] tool call files a
    complaint for any location and description the model sends, the empty
    description included, and the complaint it adds has no image; the form,
    given the same location and description and no image, raises its alert
    and files nothing. *)
Theorem C3_chat_tool_call_files_without_image :
  forall u idNow createdNow args prev,
    snd (ChatAssistant.handleToolCall (Some u) idNow createdNow
           "create_complaint" args prev)
    = Complaint.mk idNow (User.id u) (User.name u)
        (ChatAssistant.location args) (ChatAssistant.description args)
        PENDING createdNow None None 0 true (Some Unverified) None
      :: prev
    /\ forall env apiKey remote isPublic verificationResult,
         Filing.submitForm (Some u) idNow createdNow env apiKey remote
           (ComplaintForm.mkState
              (ChatAssistant.location args) (ChatAssistant.description args)
              None isPublic verificationResult)
           prev
         = prev.
Proof.
  intros u idNow createdNow args prev. split; [reflexivity|].
  intros env apiKey remote isPublic verificationResult.
  unfold Filing.submitForm.
  destruct (handleSubmit_alerts env
              (ComplaintForm.mkState
                 (ChatAssistant.location args) (ChatAssistant.description args)
                 None isPublic verificationResult)) as [message ->];
    [right|]; reflexivity.
Qed.

Lemma submitForm_proceed u idNow createdNow env apiKey remote st loc prev :
  ComplaintForm.handleSubmit env st = ComplaintForm.Proceed loc ->
  Filing.submitForm (Some u) idNow createdNow env apiKey remote st prev
  = (let s := ComplaintForm.processSubmission st loc
                (GeminiService.verifyComplaintAuthenticity apiKey remote) in
     Complaint.mk idNow (User.id u) (User.name u) loc
       (ComplaintForm.description st) PENDING createdNow None
       (or_undefined (ComplaintForm.image st)) 0
       (ComplaintForm.finalIsPublic s) (Some (ComplaintForm.finalAuthStatus s))
       None :: prev).
Proof. unfold Filing.submitForm. intros ->. reflexivity. Qed.

(** C4, on the code.  A submission requested public, not verified by hand,
    whose gateway request fails: [verifyComplaintAuthenticity] catches the
    failure and answers Likely Authentic, so the [catch] of
    [processSubmission] that would make the complaint private does not run,
    and the complaint is stored public. *)
Theorem C4_gateway_failure_stored_public :
  forall u idNow createdNow env st loc prev,
    ComplaintForm.handleSubmit env st = ComplaintForm.Proceed loc ->
    ComplaintForm.isPublic st = true ->
    ComplaintForm.verificationResult st = None ->
    Filing.submitForm (Some u) idNow createdNow env true GeminiService.Fails st prev
    = Complaint.mk idNow (User.id u) (User.name u) loc
        (ComplaintForm.description st) PENDING createdNow None
        (or_undefined (ComplaintForm.image st)) 0 true (Some LikelyAuthentic) None
      :: prev.
Proof.
  intros u idNow createdNow env st loc prev Hp Hpub Hman.
  rewrite (submitForm_proceed _ _ _ _ _ _ _ _ _ Hp).
  unfold ComplaintForm.processSubmission. rewrite Hpub, Hman. reflexivity.
Qed.

Lemma C4_witness :
  Filing.submitForm
    (Some (User.mk 5 "Eve" "eve@example.com" (Some "password") USER 80 []))
    1700000000123 1700000000124
    (ComplaintForm.mkBrowser false false None "" false)
    true GeminiService.Fails
    (ComplaintForm.mkState "Gym" "Bin is overflowing"
       (Some "data:image/png;base64,iVBORw0KGgo=") true None)
    []
  = [ Complaint.mk 1700000000123 5 "Eve" "Gym" "Bin is overflowing" PENDING
        1700000000124 None (Some "data:image/png;base64,iVBORw0KGgo=") 0
        true (Some LikelyAuthentic) None ].
Proof.
  apply (C4_gateway_failure_stored_public
           (User.mk 5 "Eve" "eve@example.com" (Some "password") USER 80 [])
           1700000000123 1700000000124
           (ComplaintForm.mkBrowser false false None "" false)
           (ComplaintForm.mkState "Gym" "Bin is overflowing"
              (Some "data:image/png;base64,iVBORw0KGgo=") true None)
           "Gym" []);
    reflexivity.
Defined.

(** C5.  A submission that passes the form's validation with [isPublic]
    set, whose authenticity check says Potential Spam (the check made by
    hand before submitting, or else the one the submission makes itself),
    stores at the head of the collection a complaint that is private and
    whose [authenticityStatus] is Potential Spam. *)
Theorem C5_spam_flagged_public_request_stored_private :
  forall u idNow createdNow env apiKey remote st loc prev,
    ComplaintForm.handleSubmit env st = ComplaintForm.Proceed loc ->
    ComplaintForm.isPublic st = true ->
    (ComplaintForm.verificationResult st = Some "Potential Spam"
     \/ (ComplaintForm.verificationResult st <> Some "Likely Authentic"
         /\ GeminiService.verifyComplaintAuthenticity apiKey remote
            = Returns AiPotentialSpam)) ->
    exists c,
      Filing.submitForm (Some u) idNow createdNow env apiKey remote st prev
        = c :: prev
      /\ Complaint.isPublic c = false
      /\ Complaint.authenticityStatus c = Some PotentialSpam.
Proof.
  intros u idNow createdNow env apiKey remote st loc prev Hp Hpub Hcheck.
  rewrite (submitForm_proceed _ _ _ _ _ _ _ _ _ Hp).
  eexists; split; [reflexivity|]. simpl.
  unfold ComplaintForm.processSubmission. rewrite Hpub.
  destruct Hcheck as [-> | [Hne ->]]; [now split|].
  destruct (ComplaintForm.verificationResult st) as [r|]; [|now split].
  destruct (String.eqb_spec r "Likely Authentic") as [->|_]; [congruence|].
  destruct (r =? "Potential Spam")%string; now split.
Qed.

Lemma C5_witness :
  exists c,
    Filing.submitForm
      (Some (User.mk 5 "Eve" "eve@example.com" (Some "password") USER 80 []))
      1700000000123 1700000000124
      (ComplaintForm.mkBrowser false false None "" false)
      true (GeminiService.Responds (Some "  Potential Spam "))
      (ComplaintForm.mkState "Gym" "asdf qwerty"
         (Some "data:image/png;base64,iVBORw0KGgo=") true None)
      (App.initialComplaints 1700000000000)
    = c :: App.initialComplaints 1700000000000
    /\ Complaint.isPublic c = false
    /\ Complaint.authenticityStatus c = Some PotentialSpam.
Proof.
  apply (C5_spam_flagged_public_request_stored_private
           (User.mk 5 "Eve" "eve@example.com" (Some "password") USER 80 [])
           1700000000123 1700000000124
           (ComplaintForm.mkBrowser false false None "" false)
           true (GeminiService.Responds (Some "  Potential Spam "))
           (ComplaintForm.mkState "Gym" "asdf qwerty"
              (Some "data:image/png;base64,iVBORw0KGgo=") true None)
           "Gym").
  - reflexivity.
  - reflexivity.
  - right. split; [discriminate | reflexivity].
Defined.

(** C8, on the code.  The id of a new complaint is the clock value
    [Date.now()], whatever the collection holds: two submissions within the
    same millisecond get the same id, and so does one made when the clock
    reads the id of a stored complaint. *)
Theorem C8_new_id_is_clock_value :
  (forall u idNow createdNow location description imageUrl isPublic auth prev,
      map Complaint.id
        (App.handleAddComplaint (Some u) idNow createdNow location description
           imageUrl isPublic auth prev)
      = idNow :: map Complaint.id prev)
  /\ ~ NoDup
       (map Complaint.id
          (Lifecycle.run
             [ Lifecycle.ChatToolCall (Some (User.mk 5 "Eve" "eve@example.com"
                                               (Some "password") USER 80 []))
                 1700000000123 1700000000123 "create_complaint"
                 (ChatAssistant.mkArgs "Gym" "Bin is overflowing");
               Lifecycle.ChatToolCall (Some (User.mk 5 "Eve" "eve@example.com"
                                               (Some "password") USER 80 []))
                 1700000000123 1700000000123 "create_complaint"
                 (ChatAssistant.mkArgs "Library" "Litter on the stairs") ]
             (App.initialComplaints 1700000000000))).
Proof.
  split; [reflexivity|].
  intros H. simpl in H. inversion H as [|x l Hnotin _]; subst.
  apply Hnotin. now left.
Qed.

(** ** Gamification *)

Section GamificationFacts.

Import Gamification.

Lemma reduce_votes_from (l : list Complaint.t) (k a : Z) :
  fold_left (fun sum c => sum + Complaint.votes c * k) l a
  = a + k * Gamification.sum (map Complaint.votes l).
Proof.
  revert a. induction l as [|c l IH]; intros a; simpl; [lia|].
  rewrite IH. unfold Gamification.sum. simpl. lia.
Qed.

Lemma totalVotes_sum complaints u :
  totalVotes complaints u
  = Gamification.sum (map Complaint.votes (userActivePublicComplaints complaints u)).
Proof.
  unfold totalVotes, reduce.
  generalize (userActivePublicComplaints complaints u) as l.
  assert (H : forall (l : list Complaint.t) a,
             fold_left (fun sum c => sum + Complaint.votes c) l a
             = a + Gamification.sum (map Complaint.votes l)).
  { induction l as [|c l IH]; intros a; simpl; [lia|].
    rewrite IH. unfold Gamification.sum. simpl. lia. }
  intros l. now rewrite H.
Qed.

Lemma totalPoints_sum complaints u :
  totalPoints complaints u
  = User.points u
    + 5 * Gamification.sum
            (map Complaint.votes (userActivePublicComplaints complaints u)).
Proof. unfold totalPoints, reduce. rewrite reduce_votes_from. lia. Qed.

Lemma Badge_eqb_eq a b : Badge_eqb a b = true <-> a = b.
Proof. destruct a, b; simpl; split; congruence. Qed.

Lemma includes_In b l : includes b l = true <-> In b l.
Proof.
  unfold includes. rewrite existsb_exists. split.
  - intros [x [Hin E]]. apply Badge_eqb_eq in E. now subst.
  - intros Hin. exists b. split; [exact Hin | now apply Badge_eqb_eq].
Qed.

Lemma includes_false b l : includes b l = false <-> ~ In b l.
Proof.
  rewrite <- includes_In. destruct (includes b l); split; congruence.
Qed.

Lemma dynamicBadges_community complaints u :
  In COMMUNITY_VOICE (dynamicBadges complaints u)
  <-> 5 <= totalVotes complaints u \/ In COMMUNITY_VOICE (User.badges u).
Proof.
  unfold dynamicBadges.
  set (b1 := if ((totalVotes complaints u >=? 5)
                  && negb (includes COMMUNITY_VOICE (User.badges u)))%bool
             then User.badges u ++ [COMMUNITY_VOICE] else User.badges u).
  assert (Hb1 : In COMMUNITY_VOICE b1
                <-> 5 <= totalVotes complaints u
                    \/ In COMMUNITY_VOICE (User.badges u)).
  { subst b1.
    pose proof (includes_In COMMUNITY_VOICE (User.badges u)) as Hi.
    destruct (Z.geb_spec (totalVotes complaints u) 5) as [H5|H5];
      destruct (includes COMMUNITY_VOICE (User.badges u)); simpl;
      rewrite ?in_app_iff; simpl;
      intuition (try lia; try reflexivity; try discriminate). }
  destruct ((totalVotes complaints u >=? 10) && negb (includes INFLUENCER b1))%bool;
    [|exact Hb1].
  rewrite in_app_iff, Hb1. simpl. intuition discriminate.
Qed.

Lemma dynamicBadges_influencer complaints u :
  In INFLUENCER (dynamicBadges complaints u)
  <-> 10 <= totalVotes complaints u \/ In INFLUENCER (User.badges u).
Proof.
  unfold dynamicBadges.
  set (b1 := if ((totalVotes complaints u >=? 5)
                  && negb (includes COMMUNITY_VOICE (User.badges u)))%bool
             then User.badges u ++ [COMMUNITY_VOICE] else User.badges u).
  assert (Hb1 : In INFLUENCER b1 <-> In INFLUENCER (User.badges u)).
  { subst b1.
    destruct ((totalVotes complaints u >=? 5)
              && negb (includes COMMUNITY_VOICE (User.badges u)))%bool; [|tauto].
    rewrite in_app_iff. simpl. intuition discriminate. }
  pose proof (includes_In INFLUENCER b1) as Hi.
  destruct (Z.geb_spec (totalVotes complaints u) 10) as [H10|H10];
    destruct (includes INFLUENCER b1); simpl;
    rewrite ?in_app_iff; simpl;
    intuition (try lia; try reflexivity; try discriminate).
Qed.

Lemma insert_In x a l : In x (insert a l) <-> x = a \/ In x l.
Proof.
  induction l as [|b l IH]; simpl; [intuition|].
  destruct (User.points b - User.points a <=? 0); simpl; [intuition|].
  rewrite IH. intuition.
Qed.

Lemma sort_In x l : In x (sort l) <-> In x l.
Proof.
  unfold sort. induction l as [|a l IH]; simpl; [tauto|].
  rewrite insert_In, IH. intuition.
Qed.

Lemma Role_eqb_eq a b : Role_eqb a b = true <-> a = b.
Proof. destruct a, b; simpl; split; congruence. Qed.

Lemma sortedUsers_In users complaints e :
  In e (sortedUsers users complaints)
  <-> exists u, In u users /\ User.role u = USER /\ e = withStats complaints u.
Proof.
  unfold sortedUsers. rewrite sort_In, filter_In, in_map_iff, Role_eqb_eq.
  split.
  - intros [[u [<- Hin]] Hr]. exists u. now repeat split.
  - intros [u [Hin [Hr ->]]]. split; [now exists u | exact Hr].
Qed.

Lemma NoDup_map_injective {A B : Type} (f : A -> B) l a b :
  NoDup (map f l) -> In a l -> In b l -> f a = f b -> a = b.
Proof.
  induction l as [|x l IH]; simpl; [tauto|].
  intros Hnd Ha Hb E. inversion Hnd as [|y l' Hnotin Hnd']; subst.
  destruct Ha as [->|Ha], Hb as [->|Hb]; auto.
  - exfalso. apply Hnotin. rewrite E. now apply in_map.
  - exfalso. apply Hnotin. rewrite <- E. now apply in_map.
Qed.

Lemma currentUserStats_unique users complaints u :
  NoDup (map User.id users) -> In u users -> User.role u = USER ->
  currentUserStats users complaints u = withStats complaints u.
Proof.
  intros Hnd Hin Hr. unfold currentUserStats.
  destruct (find _ (sortedUsers users complaints)) as [e|] eqn:Ef.
  - apply find_some in Ef. destruct Ef as [He Hid].
    apply sortedUsers_In in He. destruct He as [u' [Hin' [_ ->]]].
    simpl in Hid. apply Z.eqb_eq in Hid.
    now rewrite (NoDup_map_injective User.id users u' u Hnd Hin' Hin Hid).
  - exfalso.
    assert (Hw : In (withStats complaints u) (sortedUsers users complaints))
      by (apply sortedUsers_In; now exists u).
    pose proof (find_none _ _ Ef _ Hw) as Hn. simpl in Hn.
    now rewrite Z.eqb_refl in Hn.
Qed.

Lemma Status_eqb_eq a b : Status_eqb a b = true <-> a = b.
Proof. destruct a, b; simpl; split; congruence. Qed.

Lemma userActivePublicComplaints_In complaints u c :
  In c (userActivePublicComplaints complaints u)
  <-> In c complaints
      /\ Complaint.userId c = User.id u
      /\ Complaint.isPublic c = true
      /\ Complaint.status c <> RESOLVED
      /\ Complaint.deletedAt c = None
      /\ Complaint.authenticityStatus c <> Some Spam.
Proof.
  unfold userActivePublicComplaints. rewrite filter_In.
  rewrite !andb_true_iff, !negb_true_iff, Z.eqb_eq.
  assert (Hs : Status_eqb (Complaint.status c) RESOLVED = false
               <-> Complaint.status c <> RESOLVED).
  { rewrite <- Status_eqb_eq.
    destruct (Status_eqb (Complaint.status c) RESOLVED); split; congruence. }
  assert (Hd : is_some (Complaint.deletedAt c) = false
               <-> Complaint.deletedAt c = None).
  { destruct (Complaint.deletedAt c); simpl; split; congruence. }
  assert (Ha : isSpamStatus (Complaint.authenticityStatus c) = false
               <-> Complaint.authenticityStatus c <> Some Spam).
  { destruct (Complaint.authenticityStatus c) as [[]|]; simpl; split; congruence. }
  rewrite Hs, Hd, Ha. tauto.
Qed.

End GamificationFacts.

(** C6.  For a user [u] of the list whose role is User, the gamification
    view holds the entry [withStats complaints u]; it is the entry whose
    points and badges are displayed for [u] when ids are unique.  Its points
    are the stored points plus 5 times the sum of the votes over the
    complaints of [u] that are public, not Resolved, not deleted and not
    Spam; with no such complaint they are the stored points.  Community
    Voice is among its badges exactly when that sum is at least 5 or the
    badge was stored, Influencer exactly when the sum is at least 10 or the
    badge was stored.  With 0 stored points and one qualifying complaint of
    6 votes: 30 points, Community Voice, and Influencer only if it was
    stored. *)
Theorem C6_displayed_points_and_badges :
  forall users complaints u,
    In u users -> User.role u = USER ->
    (forall c,
        In c (Gamification.userActivePublicComplaints complaints u)
        <-> In c complaints
            /\ Complaint.userId c = User.id u
            /\ Complaint.isPublic c = true
            /\ Complaint.status c <> RESOLVED
            /\ Complaint.deletedAt c = None
            /\ Complaint.authenticityStatus c <> Some Spam)
    /\ In (Gamification.withStats complaints u)
          (Gamification.sortedUsers users complaints)
    /\ (NoDup (map User.id users) ->
        Gamification.currentUserStats users complaints u
        = Gamification.withStats complaints u)
    /\ User.points (Gamification.withStats complaints u)
       = User.points u
         + 5 * Gamification.sum
                 (map Complaint.votes
                    (Gamification.userActivePublicComplaints complaints u))
    /\ (Gamification.userActivePublicComplaints complaints u = [] ->
        User.points (Gamification.withStats complaints u) = User.points u)
    /\ (In COMMUNITY_VOICE (User.badges (Gamification.withStats complaints u))
        <-> 5 <= Gamification.sum
                   (map Complaint.votes
                      (Gamification.userActivePublicComplaints complaints u))
            \/ In COMMUNITY_VOICE (User.badges u))
    /\ (In INFLUENCER (User.badges (Gamification.withStats complaints u))
        <-> 10 <= Gamification.sum
                    (map Complaint.votes
                       (Gamification.userActivePublicComplaints complaints u))
            \/ In INFLUENCER (User.badges u))
    /\ (forall c,
           User.points u = 0 ->
           Gamification.userActivePublicComplaints complaints u = [c] ->
           Complaint.votes c = 6 ->
           User.points (Gamification.withStats complaints u) = 30
           /\ In COMMUNITY_VOICE (User.badges (Gamification.withStats complaints u))
           /\ (In INFLUENCER (User.badges (Gamification.withStats complaints u))
               <-> In INFLUENCER (User.badges u))).
Proof.
  intros users complaints u Hin Hrole.
  pose proof (totalPoints_sum complaints u) as Hp.
  pose proof (dynamicBadges_community complaints u) as Hc.
  pose proof (dynamicBadges_influencer complaints u) as Hi.
  rewrite totalVotes_sum in Hc, Hi.
  refine (conj _ (conj _ (conj _ (conj Hp (conj _ (conj Hc (conj Hi _))))))).
  - intros c. apply userActivePublicComplaints_In.
  - apply sortedUsers_In. now exists u.
  - intros Hnd. now apply currentUserStats_unique.
  - intros E. simpl. rewrite Hp, E. simpl. lia.
  - intros c H0 E H6. rewrite E in Hp, Hc, Hi.
    unfold Gamification.sum in Hp, Hc, Hi.
    cbn [map fold_right] in Hp, Hc, Hi.
    rewrite H6 in Hp, Hc, Hi. cbn [Gamification.withStats User.points User.badges].
    split; [lia|]. split.
    + apply Hc. left. lia.
    + rewrite Hi. split; [intros [?|?]; [lia|assumption] | now right].
Qed.

Lemma C6_witness :
  User.points
    (Gamification.withStats
       [ Complaint.mk 1700000000123 8 "Hari" "Gym" "Bin is overflowing"
           IN_PROGRESS 1700000000124 None None 6 true (Some LikelyAuthentic) None ]
       (User.mk 8 "Hari" "hari@example.com" (Some "password") USER 0 []))
  = 30
  /\ In COMMUNITY_VOICE
       (User.badges
          (Gamification.withStats
             [ Complaint.mk 1700000000123 8 "Hari" "Gym" "Bin is overflowing"
                 IN_PROGRESS 1700000000124 None None 6 true
                 (Some LikelyAuthentic) None ]
             (User.mk 8 "Hari" "hari@example.com" (Some "password") USER 0 [])))
  /\ (In INFLUENCER
        (User.badges
           (Gamification.withStats
              [ Complaint.mk 1700000000123 8 "Hari" "Gym" "Bin is overflowing"
                  IN_PROGRESS 1700000000124 None None 6 true
                  (Some LikelyAuthentic) None ]
              (User.mk 8 "Hari" "hari@example.com" (Some "password") USER 0 [])))
      <-> In INFLUENCER []).
Proof.
  assert (Hin : In (User.mk 8 "Hari" "hari@example.com" (Some "password") USER 0 [])
                  (App.initialUsers
                     ++ [User.mk 8 "Hari" "hari@example.com" (Some "password")
                           USER 0 []]))
    by (simpl; tauto).
  destruct (C6_displayed_points_and_badges _
              [ Complaint.mk 1700000000123 8 "Hari" "Gym" "Bin is overflowing"
                  IN_PROGRESS 1700000000124 None None 6 true
                  (Some LikelyAuthentic) None ]
              _ Hin eq_refl)
    as (_ & _ & _ & _ & _ & _ & _ & H).
  apply (H (Complaint.mk 1700000000123 8 "Hari" "Gym" "Bin is overflowing"
              IN_PROGRESS 1700000000124 None None 6 true
              (Some LikelyAuthentic) None));
    reflexivity.
Defined.

(** ** Analytics *)

Section AnalyticsFacts.

Import Analytics.

Variable Number_toString : float -> string.
Variable getFullYear getMonth : Z -> Z.

Lemma filteredComplaints_In filters complaints c :
  In c (filteredComplaints getFullYear getMonth filters complaints)
  <-> In c complaints
      /\ (forall y, year filters = Some y -> getFullYear (Complaint.createdAt c) = y)
      /\ (forall m, month filters = Some m -> getMonth (Complaint.createdAt c) = m)
      /\ Complaint.deletedAt c = None.
Proof.
  unfold filteredComplaints. rewrite filter_In, !andb_true_iff, negb_true_iff.
  destruct (year filters) as [y|], (month filters) as [m|];
    destruct (Complaint.deletedAt c); simpl; rewrite ?Z.eqb_eq;
    intuition (try congruence; try discriminate; eauto).
Qed.

Lemma agrees_below_sound bound :
  agrees_below bound = true ->
  forall resolved total,
    (total < bound)%nat -> (resolved <= total)%nat ->
    percentage resolved total = Number_of_Z (spec_resolutionRate resolved total).
Proof.
  unfold agrees_below. intros H resolved total Ht Hr.
  rewrite forallb_forall in H.
  specialize (H total). rewrite in_seq in H.
  assert (Hin : (0 <= total < 0 + bound)%nat) by lia.
  specialize (H Hin). rewrite forallb_forall in H.
  specialize (H resolved). rewrite in_seq in H.
  apply Leibniz.eqb_spec. apply H. lia.
Qed.

Lemma agrees_below_40 : agrees_below 40 = true.
Proof. vm_compute. reflexivity. Qed.

Lemma resolvedComplaints_length filtered :
  (List.length (resolvedComplaints filtered) <= List.length filtered)%nat.
Proof. apply filter_length_le. Qed.

Lemma toFixed1_zero : toFixed1 Number_toString (0 / 24)%float = "0.0".
Proof. vm_compute. reflexivity. Qed.

Lemma resolvedComplaints_times filtered :
  List.length (resolvedComplaints filtered)
  = List.length (spec_resolutionTimes filtered).
Proof.
  unfold resolvedComplaints.
  induction filtered as [|c filtered IH]; simpl; [reflexivity|].
  destruct (Complaint.status c), (Complaint.resolvedAt c); simpl;
    now rewrite ?IH.
Qed.

Lemma totalResolutionTime_times filtered :
  totalResolutionTime (resolvedComplaints filtered)
  = fold_left (fun total d => (total + Number_of_Z d)%float)
      (spec_resolutionTimes filtered) 0%float.
Proof.
  unfold totalResolutionTime, resolvedComplaints.
  generalize 0%float as total.
  induction filtered as [|c filtered IH]; intros total; simpl; [reflexivity|].
  destruct (Complaint.status c) eqn:Es;
    destruct (Complaint.resolvedAt c) as [r|] eqn:Er; simpl;
    rewrite ?Er; apply IH.
Qed.

End AnalyticsFacts.

Lemma resolvedComplaints_In filtered c :
  In c (Analytics.resolvedComplaints filtered)
  <-> In c filtered
      /\ Complaint.status c = RESOLVED
      /\ Complaint.resolvedAt c <> None.
Proof.
  unfold Analytics.resolvedComplaints. rewrite filter_In, andb_true_iff. split.
  - intros [Hin [Hs Hr]]. split; [exact Hin|].
    destruct (Complaint.status c); try discriminate Hs.
    split; [reflexivity|].
    destruct (Complaint.resolvedAt c); [discriminate|discriminate Hr].
  - intros [Hin [Hs Hr]]. split; [exact Hin|]. rewrite Hs.
    split; [reflexivity|].
    destruct (Complaint.resolvedAt c); [reflexivity|congruence].
Qed.

Lemma spec_resolutionTimes_In filtered d :
  In d (Analytics.spec_resolutionTimes filtered)
  <-> exists c r,
        In c filtered
        /\ Complaint.status c = RESOLVED
        /\ Complaint.resolvedAt c = Some r
        /\ d = r - Complaint.createdAt c.
Proof.
  induction filtered as [|c0 filtered IH]; simpl.
  - split; [tauto|]. intros (c & r & H & _). exact H.
  - split.
    + intros H.
      destruct (Complaint.status c0) eqn:Es;
        destruct (Complaint.resolvedAt c0) as [r0|] eqn:Er;
        try (apply IH in H; destruct H as (c & r & Hin & H);
             exists c, r; split; [now right|exact H]).
      destruct H as [<-|H].
      * exists c0, r0. repeat split; auto.
      * apply IH in H. destruct H as (c & r & Hin & H).
        exists c, r. split; [now right|exact H].
    + intros (c & r & [<-|Hin] & Hs & Hr & ->).
      * rewrite Hs, Hr. now left.
      * assert (H : In (r - Complaint.createdAt c) (Analytics.spec_resolutionTimes filtered))
          by (apply IH; exists c, r; auto).
        destruct (Complaint.status c0); try exact H.
        destruct (Complaint.resolvedAt c0); [now right|exact H].
Qed.

(** C7, as the code computes it.  Over the complaints that pass the period
    filter and are not deleted, the resolved ones being those with status
    Resolved and [resolvedAt] set, and the times being their
    [resolvedAt - createdAt]: [total] is the number of complaints;
    [resolutionRate] is 0 for none and otherwise [Math.round] of the float
    product [(resolvedCount / totalCount) * 100], which is
    [100 * resolvedCount / totalCount] rounded half up whenever
    [totalCount] is below 40; [avgResolutionTimeDays] is ["0.0"] when no
    complaint is resolved and otherwise [toFixed(1)] of the float quotient
    [((sum of the times) / resolvedCount) / 3600000 / 24], the sum being
    accumulated in the order of the collection.  For two complaints, the
    first resolved two days after its creation and the second without
    [resolvedAt], the rate is 50 and the average ["2.0"]. *)
Theorem C7_resolution_metrics :
  forall (Number_toString : float -> string) (getFullYear getMonth : Z -> Z)
         filters complaints,
    let filtered :=
      Analytics.filteredComplaints getFullYear getMonth filters complaints in
    let times := Analytics.spec_resolutionTimes filtered in
    let resolvedCount := List.length times in
    let totalCount := List.length filtered in
    let metrics := Analytics.analyticsMetrics Number_toString filtered in
    (forall c,
        In c filtered
        <-> In c complaints
            /\ (forall y, Analytics.year filters = Some y ->
                          getFullYear (Complaint.createdAt c) = y)
            /\ (forall m, Analytics.month filters = Some m ->
                          getMonth (Complaint.createdAt c) = m)
            /\ Complaint.deletedAt c = None)
    /\ (forall c,
           In c (Analytics.resolvedComplaints filtered)
           <-> In c filtered
               /\ Complaint.status c = RESOLVED
               /\ Complaint.resolvedAt c <> None)
    /\ (forall d,
           In d times
           <-> exists c r,
                 In c filtered
                 /\ Complaint.status c = RESOLVED
                 /\ Complaint.resolvedAt c = Some r
                 /\ d = r - Complaint.createdAt c)
    /\ List.length (Analytics.resolvedComplaints filtered) = resolvedCount
    /\ (resolvedCount <= totalCount)%nat
    /\ Analytics.total metrics = totalCount
    /\ (totalCount = 0%nat -> Analytics.resolutionRate metrics = 0%float)
    /\ (totalCount <> 0%nat ->
        Analytics.resolutionRate metrics
        = Analytics.Math_round
            ((Analytics.Number_of_nat resolvedCount
              / Analytics.Number_of_nat totalCount) * 100)%float)
    /\ ((totalCount < 40)%nat ->
        Analytics.resolutionRate metrics
        = Analytics.Number_of_Z
            (Analytics.spec_resolutionRate resolvedCount totalCount))
    /\ (resolvedCount = 0%nat ->
        Analytics.avgResolutionTimeDays metrics = "0.0")
    /\ (resolvedCount <> 0%nat ->
        Analytics.avgResolutionTimeDays metrics
        = Analytics.toFixed1 Number_toString
            (((fold_left
                 (fun total d => (total + Analytics.Number_of_Z d)%float)
                 times 0%float
               / Analytics.Number_of_nat resolvedCount)
              / 3600000) / 24)%float)
    /\ (forall c1 c2,
           filtered = [c1; c2] ->
           Complaint.status c1 = RESOLVED ->
           Complaint.resolvedAt c1
             = Some (Complaint.createdAt c1 + Analytics.twoDays) ->
           Complaint.resolvedAt c2 = None ->
           Analytics.resolutionRate metrics = 50%float
           /\ Analytics.avgResolutionTimeDays metrics = "2.0").
Proof.
  intros ts gy gm filters complaints filtered times resolvedCount totalCount
    metrics.
  split; [intros c; apply filteredComplaints_In|].
  subst metrics resolvedCount times totalCount. clearbody filtered.
  pose proof (resolvedComplaints_times filtered) as Hlen.
  pose proof (totalResolutionTime_times filtered) as Hsum.
  split; [intros c; apply resolvedComplaints_In|].
  split; [intros d; apply spec_resolutionTimes_In|].
  split; [exact Hlen|].
  split; [rewrite <- Hlen; apply resolvedComplaints_length|].
  split; [reflexivity|].
  assert (Hscenario :
            forall c1 c2,
              filtered = [c1; c2] ->
              Complaint.status c1 = RESOLVED ->
              Complaint.resolvedAt c1
                = Some (Complaint.createdAt c1 + Analytics.twoDays) ->
              Complaint.resolvedAt c2 = None ->
              Analytics.resolutionRate (Analytics.analyticsMetrics ts filtered)
                = 50%float
              /\ Analytics.avgResolutionTimeDays
                   (Analytics.analyticsMetrics ts filtered) = "2.0").
  { intros c1 c2 -> Hs Hr1 Hr2.
    assert (E : Analytics.resolvedComplaints [c1; c2] = [c1]).
    { unfold Analytics.resolvedComplaints. cbn [filter].
      rewrite Hs, Hr1, Hr2. cbn. rewrite andb_false_r. reflexivity. }
    unfold Analytics.analyticsMetrics. rewrite E. simpl.
    unfold Analytics.totalResolutionTime. simpl. rewrite Hr1.
    replace (Complaint.createdAt c1 + Analytics.twoDays - Complaint.createdAt c1)
      with 172800000 by (unfold Analytics.twoDays; lia).
    split; vm_compute; reflexivity. }
  unfold Analytics.analyticsMetrics in *.
  cbn [Analytics.resolutionRate Analytics.avgResolutionTimeDays] in *.
  rewrite Hsum, Hlen in *.
  refine (conj _ (conj _ (conj _ (conj _ (conj _ Hscenario))))).
  - intros E. unfold Analytics.percentage. rewrite E. reflexivity.
  - intros Hne. unfold Analytics.percentage.
    destruct (List.length filtered); [congruence|reflexivity].
  - intros Hlt.
    apply (agrees_below_sound 40 agrees_below_40); [exact Hlt|].
    rewrite <- Hlen. apply resolvedComplaints_length.
  - intros E. rewrite E. simpl. apply toFixed1_zero.
  - intros Hne.
    destruct (List.length (Analytics.spec_resolutionTimes filtered));
      [congruence|reflexivity].
Qed.

Lemma C7_witness :
  Analytics.resolutionRate
    (Analytics.analyticsMetrics (fun _ => "")
       [ Complaint.mk 1 1 "Alice" "Library, 2nd Floor" "Overflowing recycling bin."
           RESOLVED 1699827200000 (Some (1699827200000 + Analytics.twoDays))
           None 12 true (Some Verified) None;
         Complaint.mk 3 1 "Alice" "Dorm Block A" "Broken glass bottle on the pavement."
           PENDING 1700000000000 None None 0 false (Some Unverified) None ])
  = 50%float
  /\ Analytics.avgResolutionTimeDays
       (Analytics.analyticsMetrics (fun _ => "")
          [ Complaint.mk 1 1 "Alice" "Library, 2nd Floor" "Overflowing recycling bin."
              RESOLVED 1699827200000 (Some (1699827200000 + Analytics.twoDays))
              None 12 true (Some Verified) None;
            Complaint.mk 3 1 "Alice" "Dorm Block A" "Broken glass bottle on the pavement."
              PENDING 1700000000000 None None 0 false (Some Unverified) None ])
     = "2.0".
Proof.
  destruct (C7_resolution_metrics (fun _ => "") (fun _ => 2023) (fun _ => 10)
              (Analytics.mkFilters None None)
              [ Complaint.mk 1 1 "Alice" "Library, 2nd Floor" "Overflowing recycling bin."
                  RESOLVED 1699827200000 (Some (1699827200000 + Analytics.twoDays))
                  None 12 true (Some Verified) None;
                Complaint.mk 3 1 "Alice" "Dorm Block A"
                  "Broken glass bottle on the pavement."
                  PENDING 1700000000000 None None 0 false (Some Unverified) None ])
    as (_ & _ & _ & _ & _ & _ & _ & _ & _ & _ & _ & Hscenario).
  apply (Hscenario _ _ eq_refl); reflexivity.
Defined.

(** C7 fails on the rate at 23 resolved complaints out of 40: the float
    quotient [23 / 40] times 100 is 57.49999999999999, which [Math.round]
    takes to 57, while [100 * 23 / 40] is 57.5 and rounds to 58. *)
Lemma C7_counterexample :
  Analytics.resolutionRate
    (Analytics.analyticsMetrics (fun _ => "")
       (Analytics.filteredComplaints (fun _ => 2023) (fun _ => 10)
          (Analytics.mkFilters None None)
          (map (fun i =>
                  Complaint.mk (Z.of_nat i) 1 "Alice" "Library, 2nd Floor"
                    "Overflowing recycling bin." RESOLVED 1699827200000
                    (Some 1699913600000) None 12 true (Some Verified) None)
               (seq 1 23)
           ++ map (fun i =>
                     Complaint.mk (Z.of_nat i) 4 "Diana" "Gym"
                       "Paper towels all over the floor." PENDING 1700000000000
                       None None 0 false (Some Unverified) None)
                  (seq 24 17))))
  = 57%float
  /\ Analytics.spec_resolutionRate 23 40 = 58
  /\ Analytics.Number_of_Z 58 <> 57%float.
Proof.
  split; [vm_compute; reflexivity|]. split; [reflexivity|].
  vm_compute. intros H.
  assert (E : PrimFloat.eqb 58 57 = true) by (rewrite H; reflexivity).
  vm_compute in E. discriminate E.
Qed.

(** ** Further properties of the handlers *)

(** A submission by a logged-in user puts one new complaint in front of the
    collection, built from the arguments, Pending, with no votes and no
    [resolvedAt] or [deletedAt]; its id is new to a collection that does
    not hold the clock value as an id.  Without a user nothing is added. *)
Theorem handleAddComplaint_inserts_at_head :
  forall u idNow createdNow location description imageUrl isPublic auth prev,
    App.handleAddComplaint (Some u) idNow createdNow location description
      imageUrl isPublic auth prev
    = Complaint.mk idNow (User.id u) (User.name u) location description PENDING
        createdNow None imageUrl 0
        (match isPublic with Some b => b | None => true end)
        (Some (match auth with Some a => a | None => Unverified end))
        None
      :: prev
    /\ (NoDup (map Complaint.id prev) /\ ~ In idNow (map Complaint.id prev)
        <-> NoDup
              (map Complaint.id
                 (App.handleAddComplaint (Some u) idNow createdNow location
                    description imageUrl isPublic auth prev)))
    /\ App.handleAddComplaint None idNow createdNow location description
         imageUrl isPublic auth prev
       = prev.
Proof.
  intros. split; [reflexivity|]. split; [|reflexivity].
  simpl. split.
  - intros [Hnd Hnotin]. now constructor.
  - intros H. inversion H; subst. now split.
Qed.

(** The form files nothing when the description is empty or no image is
    attached: the collection is left as it is. *)
Theorem submitForm_requires_description_and_image :
  forall currentUser idNow createdNow env apiKey remote st prev,
    ComplaintForm.description st = ""
    \/ truthy_opt_string (ComplaintForm.image st) = false ->
    Filing.submitForm currentUser idNow createdNow env apiKey remote st prev = prev.
Proof.
  intros cu idNow createdNow env k r st prev H.
  unfold Filing.submitForm.
  destruct (handleSubmit_alerts env st H) as [message ->]. reflexivity.
Qed.

Lemma submitForm_requires_description_and_image_witness :
  Filing.submitForm
    (Some (User.mk 5 "Eve" "eve@example.com" (Some "password") USER 80 []))
    1700000000123 1700000000124
    (ComplaintForm.mkBrowser true true (Some "28.61390, 77.20900") "" true)
    true (GeminiService.Responds (Some "Likely Authentic"))
    (ComplaintForm.mkState "Gym" "Bin is overflowing" None true None)
    (App.initialComplaints 1700000000000)
  = App.initialComplaints 1700000000000.
Proof.
  apply submitForm_requires_description_and_image. right. reflexivity.
Defined.

(** [verifyComplaintAuthenticity] always resolves: without an API key, on a
    failed request and on an answer that is neither of the two expected
    strings it resolves to Likely Authentic.  It resolves to Potential Spam
    exactly for an answer that trims to that text, so with any white space
    character, ASCII or not, before and behind it. *)
Theorem verifyComplaintAuthenticity_never_rejects :
  forall apiKey remote,
    GeminiService.verifyComplaintAuthenticity apiKey remote <> Throws
    /\ GeminiService.verifyComplaintAuthenticity apiKey GeminiService.Fails
       = Returns AiLikelyAuthentic
    /\ GeminiService.verifyComplaintAuthenticity false remote
       = Returns AiLikelyAuthentic
    /\ (GeminiService.verifyComplaintAuthenticity apiKey remote
        = Returns AiPotentialSpam
        <-> apiKey = true
            /\ exists text,
                 remote = GeminiService.Responds (Some text)
                 /\ JsString.trim text = "Potential Spam")
    /\ (forall w1 w2,
           In w1 JsString.white_space ->
           In w2 JsString.white_space ->
           GeminiService.verifyComplaintAuthenticity true
             (GeminiService.Responds
                (Some (w1 ++ "Potential Spam" ++ w2)%string))
           = Returns AiPotentialSpam).
Proof.
  intros apiKey remote. split; [|split; [|split; [|split]]];
    [| | | |intros w1 w2 H1 H2; unfold GeminiService.verifyComplaintAuthenticity;
            cbn [negb option_map]; rewrite (trim_padded_verdict w1 w2 H1 H2);
            reflexivity].
  - destruct (verifyComplaintAuthenticity_returns apiKey remote) as [r ->].
    discriminate.
  - destruct apiKey; reflexivity.
  - reflexivity.
  - unfold GeminiService.verifyComplaintAuthenticity.
    destruct apiKey; simpl; [|split; [discriminate|intros [? _]; discriminate]].
    destruct remote as [[t|]|]; simpl;
      try (split; [discriminate|intros [_ [t' [E _]]]; discriminate]).
    destruct (String.eqb_spec (JsString.trim t) "Likely Authentic") as [E1|N1].
    + split; [discriminate|].
      intros [_ [t' [E E2]]]. inversion E; subst t'. congruence.
    + destruct (String.eqb_spec (JsString.trim t) "Potential Spam") as [E2|N2].
      * split; [intros _; split; [reflexivity|now exists t] | reflexivity].
      * split; [discriminate|].
        intros [_ [t' [E E2]]]. inversion E; subst t'. congruence.
Qed.

(** The fallback written in [processSubmission]: were the awaited call to
    reject during a public submission with no manual verification, the
    complaint would be submitted private and Unverified. *)
Theorem processSubmission_catch_makes_private :
  forall st loc,
    ComplaintForm.verificationResult st = None ->
    ComplaintForm.finalIsPublic (ComplaintForm.processSubmission st loc Throws)
      = false
    /\ ComplaintForm.finalAuthStatus (ComplaintForm.processSubmission st loc Throws)
       = Unverified.
Proof.
  intros st loc H. unfold ComplaintForm.processSubmission. rewrite H.
  destruct (ComplaintForm.isPublic st) eqn:E; simpl; rewrite ?E; now split.
Qed.

Lemma processSubmission_catch_makes_private_witness :
  ComplaintForm.finalIsPublic
    (ComplaintForm.processSubmission
       (ComplaintForm.mkState "Gym" "Bin is overflowing"
          (Some "data:image/png;base64,iVBORw0KGgo=") true None)
       "Gym" Throws)
  = false
  /\ ComplaintForm.finalAuthStatus
       (ComplaintForm.processSubmission
          (ComplaintForm.mkState "Gym" "Bin is overflowing"
             (Some "data:image/png;base64,iVBORw0KGgo=") true None)
          "Gym" Throws)
     = Unverified.
Proof.
  apply processSubmission_catch_makes_private. reflexivity.
Defined.

(** After a purge no complaint of the collection carries the id, and the
    complaints that remain are those that carried another one. *)
Theorem handlePermanentDelete_removes_id :
  forall complaintId prev c,
    In c (App.handlePermanentDelete complaintId prev)
    <-> In c prev /\ Complaint.id c <> complaintId.
Proof.
  intros cid prev c. unfold App.handlePermanentDelete.
  rewrite filter_In, negb_true_iff, Z.eqb_neq. tauto.
Qed.

(** [handleVote] adds one vote to the complaint it addresses, whatever its
    status or visibility: three votes add three, on a Resolved complaint
    too. *)
Theorem handleVote_counts_every_vote :
  forall complaintId prev i c,
    nth_error prev i = Some c ->
    Complaint.id c = complaintId ->
    nth_error (App.handleVote complaintId prev) i
      = Some (Complaint.with_votes (Complaint.votes c + 1) c)
    /\ nth_error
         (App.handleVote complaintId
            (App.handleVote complaintId (App.handleVote complaintId prev))) i
       = Some (Complaint.with_votes (Complaint.votes c + 3) c).
Proof.
  intros cid prev i c Hnth <-. as_updateById.
  rewrite !updateById_nth_error, Hnth.
  unfold Complaint.with_votes.
  repeat (cbn [option_map Complaint.id Complaint.votes]; rewrite Z.eqb_refl).
  split; [reflexivity|].
  replace (Complaint.votes c + 1 + 1 + 1) with (Complaint.votes c + 3) by lia.
  reflexivity.
Qed.

Lemma handleVote_counts_every_vote_witness :
  option_map Complaint.votes
    (nth_error
       (App.handleVote 1
          (App.handleVote 1
             (App.handleVote 1 (App.initialComplaints 1700000000000)))) 0)
  = Some 15.
Proof.
  rewrite (proj2 (handleVote_counts_every_vote 1
                    (App.initialComplaints 1700000000000) 0%nat _
                    eq_refl eq_refl)).
  reflexivity.
Defined.

(** [handleAdminVerify] stores the administrator's decision on every
    complaint it addresses, whatever the status was. *)
Theorem handleAdminVerify_unconditional :
  forall complaintId status prev c,
    In c (App.handleAdminVerify complaintId status prev) ->
    Complaint.id c = complaintId ->
    Complaint.authenticityStatus c = Some (Authenticity_of_admin status).
Proof.
  intros cid status prev c Hin Hid. rewrite handleAdminVerify_updateById in Hin.
  destruct (updateById_In _ _ _ _ Hin Hid) as [c0 [_ [_ ->]]]. reflexivity.
Qed.

Lemma handleAdminVerify_unconditional_witness :
  Complaint.authenticityStatus
    (Complaint.mk 4 4 "Diana" "Gym" "Paper towels all over the floor." PENDING
       (1700000000000 - 3 * 60 * 60 * 1000) None None 8 true (Some Spam) None)
  = Some (Authenticity_of_admin AdminSpam).
Proof.
  apply (handleAdminVerify_unconditional 4 AdminSpam
           (App.initialComplaints 1700000000000)).
  - simpl. tauto.
  - reflexivity.
Defined.

(** ** The leaderboard order *)

Section Leaderboard.

Import Gamification.

(** [a] may stand before [b] on the leaderboard. *)
Local Abbreviation ahead :=
  (fun a b : User.t => User.points b <= User.points a).

Lemma insert_Permutation a l : Permutation (insert a l) (a :: l).
Proof.
  induction l as [|b l IH]; simpl; [reflexivity|].
  destruct (User.points b - User.points a <=? 0); [reflexivity|].
  rewrite IH. apply perm_swap.
Qed.

Lemma insert_HdRel x a l :
  ahead x a -> HdRel ahead x l -> HdRel ahead x (insert a l).
Proof.
  intros Hxa H. destruct l as [|b l]; simpl; [now constructor|].
  destruct (User.points b - User.points a <=? 0); constructor; auto.
  now inversion H.
Qed.

Lemma insert_Sorted a l : Sorted ahead l -> Sorted ahead (insert a l).
Proof.
  induction l as [|b l IH]; intros Hs; simpl; [repeat constructor|].
  destruct (Z.leb_spec (User.points b - User.points a) 0) as [Hle|Hgt].
  - constructor; [exact Hs|]. constructor. lia.
  - inversion Hs as [|? ? Hs' Hhd]; subst.
    constructor; [now apply IH|].
    apply insert_HdRel; [cbv beta; lia | exact Hhd].
Qed.

(** The leaderboard lists the users of role User, each once per occurrence
    in the list, by displayed points in descending order. *)
Theorem sortedUsers_descending_permutation :
  forall users complaints,
    Permutation (sortedUsers users complaints)
      (filter (fun u => Role_eqb (User.role u) USER)
         (map (withStats complaints) users))
    /\ Sorted (fun a b => User.points b <= User.points a)
         (sortedUsers users complaints).
Proof.
  intros users complaints. unfold sortedUsers.
  generalize (filter (fun u => Role_eqb (User.role u) USER)
                (map (withStats complaints) users)) as l.
  intros l. split.
  - unfold sort. induction l as [|a l IH]; simpl; [reflexivity|].
    rewrite insert_Permutation. now constructor.
  - unfold sort. induction l as [|a l IH]; simpl; [constructor|].
    now apply insert_Sorted.
Qed.

End Leaderboard.

(* ================================================================== *)
(** * Further properties: views, charts, login, chat and reports *)

(** ** Sorting *)

Section SortDescending.

Context {A : Type} (key : A -> Z).

Lemma insertBy_Permutation a l : Permutation (Views.insertBy key a l) (a :: l).
Proof.
  induction l as [|b l IH]; simpl; [reflexivity|].
  destruct (key b - key a <=? 0); [reflexivity|].
  rewrite IH. apply perm_swap.
Qed.

Lemma insertBy_In x a l : In x (Views.insertBy key a l) <-> x = a \/ In x l.
Proof.
  split; intros H.
  - apply (Permutation_in _ (insertBy_Permutation a l)) in H.
    simpl in H. intuition.
  - apply (Permutation_in _ (Permutation_sym (insertBy_Permutation a l))).
    simpl. intuition.
Qed.

Lemma insertBy_StronglySorted a l :
  StronglySorted (fun a b => key b <= key a) l ->
  StronglySorted (fun a b => key b <= key a) (Views.insertBy key a l).
Proof.
  induction l as [|b l IH]; intros Hs; simpl; [repeat constructor|].
  inversion Hs as [|? ? Hs' Hall]; subst.
  destruct (Z.leb_spec (key b - key a) 0) as [Hle|Hgt].
  - constructor; [exact Hs|]. constructor; [lia|].
    eapply Forall_impl; [|exact Hall]. cbv beta. intros; lia.
  - constructor; [now apply IH|].
    rewrite Forall_forall. intros x Hx. apply insertBy_In in Hx.
    destruct Hx as [->|Hx]; [lia|].
    rewrite Forall_forall in Hall. now apply Hall.
Qed.

Lemma insertBy_filter a l k :
  filter (fun x => key x =? k) (Views.insertBy key a l)
  = filter (fun x => key x =? k) (a :: l).
Proof.
  induction l as [|b l IH]; simpl; [reflexivity|].
  destruct (Z.leb_spec (key b - key a) 0) as [Hle|Hgt]; [reflexivity|].
  simpl. rewrite IH. simpl.
  destruct (Z.eqb_spec (key a) k) as [Ea|Na];
    destruct (Z.eqb_spec (key b) k) as [Eb|Nb]; try reflexivity.
  lia.
Qed.

Lemma sortDescending_stable l :
  Views.stableDescending key (Views.sortDescending key l) l.
Proof.
  unfold Views.stableDescending, Views.sortDescending.
  induction l as [|a l (IHp & IHs & IHf)]; simpl.
  - repeat split; constructor.
  - repeat split.
    + rewrite insertBy_Permutation. now constructor.
    + now apply insertBy_StronglySorted.
    + intros k. rewrite insertBy_filter. simpl. now rewrite IHf.
Qed.

Lemma sortDescending_In x l : In x (Views.sortDescending key l) <-> In x l.
Proof.
  destruct (sortDescending_stable l) as (Hp & _ & _).
  split; apply Permutation_in; [exact Hp | now apply Permutation_sym].
Qed.

Lemma sortDescending_length l :
  List.length (Views.sortDescending key l) = List.length l.
Proof.
  apply Permutation_length. apply sortDescending_stable.
Qed.

Lemma StronglySorted_firstn_skipn n l x y :
  StronglySorted (fun a b => key b <= key a) l ->
  In x (firstn n l) -> In y (skipn n l) -> key y <= key x.
Proof.
  revert n. induction l as [|a l IH]; intros n Hs Hx Hy.
  - destruct n; simpl in Hx; contradiction.
  - inversion Hs as [|? ? Hs' Hall]; subst.
    destruct n as [|n]; simpl in Hx, Hy; [contradiction|].
    destruct Hx as [->|Hx].
    + rewrite Forall_forall in Hall. apply Hall.
      rewrite <- (firstn_skipn n l). apply in_or_app. now right.
    + now apply (IH n).
Qed.

End SortDescending.

Lemma In_slice {A : Type} (n : nat) (l : list A) x :
  In x (Views.slice n l) -> In x l.
Proof.
  unfold Views.slice. intros H. rewrite <- (firstn_skipn n l).
  apply in_or_app. now left.
Qed.

(** ** The lists of the views *)

Lemma is_some_false {A : Type} (o : option A) : is_some o = false <-> o = None.
Proof. destruct o; simpl; split; congruence. Qed.

Lemma is_some_true {A : Type} (o : option A) : is_some o = true <-> o <> None.
Proof. destruct o; simpl; split; congruence. Qed.

Lemma publicComplaintsBase_In complaints c :
  In c (Views.publicComplaintsBase complaints)
  <-> In c complaints
      /\ Complaint.isPublic c = true
      /\ Complaint.status c <> RESOLVED
      /\ Complaint.deletedAt c = None.
Proof.
  unfold Views.publicComplaintsBase.
  rewrite filter_In, !andb_true_iff, !negb_true_iff, is_some_false.
  assert (Hs : Status_eqb (Complaint.status c) RESOLVED = false
               <-> Complaint.status c <> RESOLVED)
    by (destruct (Complaint.status c); simpl; split; congruence).
  rewrite Hs. tauto.
Qed.

Lemma userComplaints_In currentUser complaints c :
  In c (Views.userComplaints currentUser complaints)
  <-> In c complaints
      /\ Complaint.userId c = User.id currentUser
      /\ Complaint.deletedAt c = None.
Proof.
  unfold Views.userComplaints.
  rewrite filter_In, andb_true_iff, negb_true_iff, is_some_false, Z.eqb_eq.
  tauto.
Qed.

Lemma recentComplaints_In complaints c :
  In c (Views.recentComplaints complaints)
  <-> In c complaints
      /\ Complaint.deletedAt c = None
      /\ Complaint.status c <> RESOLVED.
Proof.
  unfold Views.recentComplaints.
  rewrite sortDescending_In, filter_In, andb_true_iff, negb_true_iff,
    is_some_false.
  assert (Hs : (Status_eqb (Complaint.status c) PENDING
                || Status_eqb (Complaint.status c) IN_PROGRESS)%bool = true
               <-> Complaint.status c <> RESOLVED)
    by (destruct (Complaint.status c); simpl; split; congruence).
  rewrite Hs. tauto.
Qed.

Lemma binComplaints_In complaints c :
  In c (Views.binComplaints complaints)
  <-> In c complaints /\ Complaint.deletedAt c <> None.
Proof.
  unfold Views.binComplaints.
  rewrite sortDescending_In, filter_In, is_some_true. tauto.
Qed.

(** A complaint is in the recycle bin exactly when it has [deletedAt]; the
    chat context, the user's lists, the trending strip, the community and
    recent views, the gamification points and the analytics take only
    complaints without it.  After [handleDeleteComplaint] the complaints
    with the id are in the bin, stamped with the time of the deletion, and
    in none of the other lists. *)
Theorem deleted_complaints_only_in_bin :
  forall complaints,
    (forall c,
        In c (Views.binComplaints complaints)
        <-> In c complaints /\ Complaint.deletedAt c <> None)
    /\ (forall currentUser u getFullYear getMonth filters c,
           In c (Views.userComplaints currentUser complaints)
           \/ In c (Views.myComplaintsHome currentUser complaints)
           \/ In c (Views.publicComplaintsHome complaints)
           \/ In c (Views.publicComplaints complaints)
           \/ In c (Views.recentComplaints complaints)
           \/ In c (Gamification.userActivePublicComplaints complaints u)
           \/ In c (Analytics.filteredComplaints getFullYear getMonth filters
                      complaints) ->
           Complaint.deletedAt c = None)
    /\ (forall complaintId now c,
           In c (App.handleDeleteComplaint complaintId now complaints) ->
           Complaint.id c = complaintId ->
           Complaint.deletedAt c = Some now
           /\ In c (Views.binComplaints
                      (App.handleDeleteComplaint complaintId now complaints))).
Proof.
  intros complaints. split; [|split].
  - intros c. apply binComplaints_In.
  - intros cu u gy gm filters c H.
    destruct H as [H|[H|[H|[H|[H|[H|H]]]]]].
    + now apply userComplaints_In in H.
    + apply In_slice, sortDescending_In, userComplaints_In in H. tauto.
    + apply In_slice, sortDescending_In, publicComplaintsBase_In in H. tauto.
    + apply sortDescending_In, publicComplaintsBase_In in H. tauto.
    + apply recentComplaints_In in H. tauto.
    + apply userActivePublicComplaints_In in H. tauto.
    + apply filteredComplaints_In in H. tauto.
  - intros cid now c Hin Hid.
    assert (Hd : Complaint.deletedAt c = Some now).
    { rewrite handleDeleteComplaint_updateById in Hin.
      destruct (updateById_In _ _ _ _ Hin Hid) as [c0 [_ [_ ->]]]. reflexivity. }
    split; [exact Hd|]. apply binComplaints_In. split; [exact Hin|congruence].
Qed.

Lemma deleted_complaints_only_in_bin_witness :
  Complaint.deletedAt
    (Complaint.mk 4 4 "Diana" "Gym" "Paper towels all over the floor." PENDING
       (1700000000000 - 3 * 60 * 60 * 1000) None None 8 true (Some Unverified)
       (Some 1700000500000))
  = Some 1700000500000
  /\ In (Complaint.mk 4 4 "Diana" "Gym" "Paper towels all over the floor." PENDING
           (1700000000000 - 3 * 60 * 60 * 1000) None None 8 true
           (Some Unverified) (Some 1700000500000))
        (Views.binComplaints
           (App.handleDeleteComplaint 4 1700000500000
              (App.initialComplaints 1700000000000))).
Proof.
  destruct (deleted_complaints_only_in_bin (App.initialComplaints 1700000000000))
    as (_ & _ & H).
  apply (H 4 1700000500000).
  - simpl. tauto.
  - reflexivity.
Defined.

(** The trending strip shows at most five complaints, all of them public,
    open and not deleted, by votes in descending order; it is the head of
    the community list, and no complaint left out of it has more votes than
    one it shows. *)
Theorem publicComplaintsHome_top_five :
  forall complaints,
    List.length (Views.publicComplaintsHome complaints)
      = Nat.min 5 (List.length (Views.publicComplaintsBase complaints))
    /\ StronglySorted (fun a b => Complaint.votes b <= Complaint.votes a)
         (Views.publicComplaintsHome complaints)
    /\ Views.publicComplaints complaints
       = Views.publicComplaintsHome complaints
         ++ skipn 5 (Views.publicComplaints complaints)
    /\ (forall shown hidden,
           In shown (Views.publicComplaintsHome complaints) ->
           In hidden (skipn 5 (Views.publicComplaints complaints)) ->
           Complaint.votes hidden <= Complaint.votes shown)
    /\ (forall c,
           In c (Views.publicComplaintsHome complaints) ->
           In c complaints
           /\ Complaint.isPublic c = true
           /\ Complaint.status c <> RESOLVED
           /\ Complaint.deletedAt c = None).
Proof.
  intros complaints.
  unfold Views.publicComplaintsHome, Views.publicComplaints, Views.slice.
  destruct (sortDescending_stable Complaint.votes
              (Views.publicComplaintsBase complaints)) as (Hp & Hs & _).
  split; [|split; [|split; [|split]]].
  - rewrite length_firstn, sortDescending_length. reflexivity.
  - clear Hp. revert Hs.
    generalize (Views.sortDescending Complaint.votes
                  (Views.publicComplaintsBase complaints)) as l.
    intros l. generalize 5%nat as n. intros n. revert l.
    induction n as [|n IH]; intros l Hs; simpl; [constructor|].
    destruct l as [|a l]; [constructor|].
    inversion Hs as [|? ? Hs' Hall]; subst.
    constructor; [now apply IH|].
    rewrite Forall_forall in *. intros x Hx. apply Hall.
    rewrite <- (firstn_skipn n l). apply in_or_app. now left.
  - symmetry. apply firstn_skipn.
  - intros shown hidden Hshown Hhidden.
    now apply (StronglySorted_firstn_skipn Complaint.votes 5 _ shown hidden Hs).
  - intros c Hc.
    apply (In_slice 5), sortDescending_In, publicComplaintsBase_In in Hc.
    exact Hc.
Qed.

Lemma publicComplaintsHome_top_five_witness :
  Complaint.votes
    (Complaint.mk 3 1 "Alice" "Dorm Block A" "Broken glass bottle on the pavement."
       PENDING 1700000000000 None None 0 true (Some Unverified) None)
  <= Complaint.votes
       (Complaint.mk 2 1 "Alice" "Cafeteria" "General waste bin is full and smelly."
          IN_PROGRESS 1699913600000 None None 5 true (Some LikelyAuthentic) None).
Proof.
  destruct (publicComplaintsHome_top_five
              (map (fun n =>
                      Complaint.mk n 1 "Alice" "Dorm Block A"
                        "Broken glass bottle on the pavement."
                        PENDING 1700000000000 None None (n - 3) true
                        (Some Unverified) None)
                 [3; 4; 5; 6; 7; 8]
               ++ [Complaint.mk 2 1 "Alice" "Cafeteria"
                     "General waste bin is full and smelly."
                     IN_PROGRESS 1699913600000 None None 5 true
                     (Some LikelyAuthentic) None]))
    as (_ & _ & _ & H & _).
  apply H; vm_compute; tauto.
Defined.

(** The community list, the administrator's recent list and the recycle
    bin are stable sorts of what they filter: the complaints that are
    public, open and not deleted by descending votes, the open ones that
    are not deleted by descending creation time, the deleted ones by
    descending deletion time, complaints that tie keeping the order of the
    collection. *)
Theorem sorted_views_stable :
  forall complaints,
    Views.stableDescending Complaint.votes
      (Views.publicComplaints complaints)
      (Views.publicComplaintsBase complaints)
    /\ Views.stableDescending Complaint.createdAt
         (Views.recentComplaints complaints)
         (filter (fun c =>
                    negb (is_some (Complaint.deletedAt c))
                    && negb (Status_eqb (Complaint.status c) RESOLVED))
            complaints)
    /\ Views.stableDescending Views.deletedTime
         (Views.binComplaints complaints)
         (filter (fun c => is_some (Complaint.deletedAt c)) complaints).
Proof.
  intros complaints. split; [|split].
  - apply sortDescending_stable.
  - unfold Views.recentComplaints.
    rewrite (filter_ext
               (fun c => negb (is_some (Complaint.deletedAt c))
                         && negb (Status_eqb (Complaint.status c) RESOLVED))
               (fun c => negb (is_some (Complaint.deletedAt c))
                         && (Status_eqb (Complaint.status c) PENDING
                             || Status_eqb (Complaint.status c) IN_PROGRESS))).
    + apply sortDescending_stable.
    + intros c. destruct (Complaint.status c); reflexivity.
  - apply sortDescending_stable.
Qed.

Lemma Gamification_sort_sortDescending l :
  Gamification.sort l = Views.sortDescending User.points l.
Proof.
  unfold Gamification.sort, Views.sortDescending.
  induction l as [|a l IH]; simpl; [reflexivity|]. rewrite IH.
  generalize (fold_right (Views.insertBy User.points) [] l) as s.
  induction s as [|b s IHs]; simpl; [reflexivity|]. now rewrite IHs.
Qed.

(** On the leaderboard, users whose displayed points tie stand in the
    order of the user list. *)
Theorem sortedUsers_ties_keep_list_order :
  forall users complaints points,
    filter (fun u => User.points u =? points)
      (Gamification.sortedUsers users complaints)
    = filter (fun u => User.points u =? points)
        (filter (fun u => Role_eqb (User.role u) USER)
           (map (Gamification.withStats complaints) users)).
Proof.
  intros users complaints points. unfold Gamification.sortedUsers.
  rewrite Gamification_sort_sortDescending.
  apply sortDescending_stable.
Qed.

Lemma handleUpdateComplaintStatus_In complaintId status now prev c :
  In c (App.handleUpdateComplaintStatus complaintId status now prev) ->
  Complaint.id c = complaintId ->
  Complaint.status c = status
  /\ Complaint.resolvedAt c = (if Status_eqb status RESOLVED then Some now else None).
Proof.
  intros Hin Hid. rewrite handleUpdateComplaintStatus_updateById in Hin.
  destruct (updateById_In _ _ _ _ Hin Hid) as [c0 [_ [_ ->]]]. now split.
Qed.

(** Once a complaint is marked Resolved it is gone from the administrator's
    recent list, from the community list and the trending strip, and its
    votes no longer count towards anybody's displayed points; if it is not
    deleted the analytics count it among the resolved ones of its period. *)
Theorem resolved_complaint_leaves_open_lists :
  forall complaintId now complaints c,
    In c (App.handleUpdateComplaintStatus complaintId RESOLVED now complaints) ->
    Complaint.id c = complaintId ->
    let after :=
      App.handleUpdateComplaintStatus complaintId RESOLVED now complaints in
    ~ In c (Views.recentComplaints after)
    /\ ~ In c (Views.publicComplaints after)
    /\ ~ In c (Views.publicComplaintsHome after)
    /\ (forall u, ~ In c (Gamification.userActivePublicComplaints after u))
    /\ (Complaint.deletedAt c = None ->
        forall getFullYear getMonth,
          In c (Analytics.resolvedComplaints
                  (Analytics.filteredComplaints getFullYear getMonth
                     (Analytics.mkFilters None None) after))).
Proof.
  intros cid now complaints c Hin Hid after.
  destruct (handleUpdateComplaintStatus_In cid RESOLVED now complaints c Hin Hid)
    as (Hs & Hr). simpl in Hr.
  split; [|split; [|split; [|split]]].
  - intros H. apply recentComplaints_In in H. tauto.
  - intros H. apply sortDescending_In, publicComplaintsBase_In in H. tauto.
  - intros H. apply In_slice, sortDescending_In, publicComplaintsBase_In in H.
    tauto.
  - intros u H. apply userActivePublicComplaints_In in H. tauto.
  - intros Hd gy gm. unfold Analytics.resolvedComplaints.
    apply filter_In. split.
    + apply filteredComplaints_In. simpl.
      repeat split; try discriminate; assumption.
    + rewrite Hs, Hr. reflexivity.
Qed.

Lemma resolved_complaint_leaves_open_lists_witness :
  ~ In (Complaint.mk 4 4 "Diana" "Gym" "Paper towels all over the floor." RESOLVED
          (1700000000000 - 3 * 60 * 60 * 1000) (Some 1700000500000) None 8 true
          (Some Unverified) None)
       (Views.recentComplaints
          (App.handleUpdateComplaintStatus 4 RESOLVED 1700000500000
             (App.initialComplaints 1700000000000))).
Proof.
  apply (resolved_complaint_leaves_open_lists 4 1700000500000
           (App.initialComplaints 1700000000000)).
  - simpl. tauto.
  - reflexivity.
Defined.

(** ** What the operations leave alone *)

Lemma keeps_refl c : Filed.keeps c c.
Proof. unfold Filed.keeps. repeat split; lia. Qed.

Lemma updateById_keeps cid update prev c' :
  (forall c, Filed.keeps c (update c)) ->
  In c' (updateById cid update prev) ->
  exists c, In c prev /\ Filed.keeps c c'.
Proof.
  intros Hup Hin. unfold updateById in Hin.
  apply in_map_iff in Hin. destruct Hin as [c [<- Hc]]. exists c.
  split; [exact Hc|].
  destruct (Complaint.id c =? cid); [apply Hup | apply keeps_refl].
Qed.

Ltac keeps_by_fields :=
  let c := fresh "c" in
  intros c; unfold Filed.keeps; cbn;
  repeat (split; [reflexivity|]); lia.

(** No operation on a complaint changes who filed it, its location, its
    description, its image, its visibility or its creation time, none makes
    a complaint out of nothing, and none takes votes away: every complaint
    of the result is one of the collection before, with those fields as
    they were and at least as many votes. *)
Theorem operations_keep_what_was_filed :
  forall (op : Lifecycle.Operation) complaintId prev c',
    In c' (Lifecycle.apply op complaintId prev) ->
    exists c, In c prev /\ Filed.keeps c c'.
Proof.
  intros op cid prev c' Hin.
  destruct op as [|status now|now| | |complaints k r|status]; simpl in Hin;
    rewrite ?handleVote_updateById, ?handleUpdateComplaintStatus_updateById,
      ?handleDeleteComplaint_updateById, ?handleRestoreComplaint_updateById,
      ?handleAdminVerify_updateById in Hin;
    try (eapply updateById_keeps; [|exact Hin]; keeps_by_fields).
  - exists c'. split; [|apply keeps_refl].
    unfold App.handlePermanentDelete in Hin. apply filter_In in Hin. tauto.
  - destruct (handleVerifyAuthenticity_cases complaints cid k r prev)
      as [E|[res E]]; rewrite E in Hin.
    + exists c'. split; [exact Hin | apply keeps_refl].
    + eapply updateById_keeps; [|exact Hin]. keeps_by_fields.
Qed.

Lemma operations_keep_what_was_filed_witness :
  exists c,
    In c (App.initialComplaints 1700000000000)
    /\ Filed.keeps c
         (Complaint.mk 4 4 "Diana" "Gym" "Paper towels all over the floor." PENDING
            (1700000000000 - 3 * 60 * 60 * 1000) None None 9 true
            (Some Unverified) None).
Proof.
  apply (operations_keep_what_was_filed Lifecycle.CastVote 4
           (App.initialComplaints 1700000000000)).
  simpl. tauto.
Defined.

(** ** The buttons of a card *)

(** A card offers a status button only to an administrator and only for a
    status later than the one its complaint has: a Resolved complaint has
    none, and no button leads back to Pending.  A click puts the complaints
    with the card's id in the target status, Resolved with the time of the
    click as [resolvedAt]. *)
Theorem status_buttons_only_move_forward :
  forall p target,
    (CardActions.showsStatusButton p target = true ->
     User.role (ComplaintCard.currentUser p) = ADMIN
     /\ (CardActions.statusRank (Complaint.status (ComplaintCard.complaint p))
         < CardActions.statusRank target)%nat)
    /\ (Complaint.status (ComplaintCard.complaint p) = RESOLVED \/ target = PENDING ->
        forall now prev, CardActions.handleUpdateStatusClick p target now prev = prev)
    /\ (CardActions.showsStatusButton p target = true ->
        forall now prev c,
          In c (CardActions.handleUpdateStatusClick p target now prev) ->
          Complaint.id c = Complaint.id (ComplaintCard.complaint p) ->
          Complaint.status c = target
          /\ Complaint.resolvedAt c
             = (if Status_eqb target RESOLVED then Some now else None)).
Proof.
  intros p target. unfold CardActions.handleUpdateStatusClick.
  split; [|split].
  - unfold CardActions.showsStatusButton. intros H.
    apply andb_true_iff in H. destruct H as [H Ht].
    apply andb_true_iff in H. destruct H as [_ Hr].
    apply Role_eqb_eq in Hr. split; [exact Hr|].
    destruct target, (Complaint.status (ComplaintCard.complaint p));
      simpl in *; try discriminate; lia.
  - intros H now prev.
    assert (E : CardActions.showsStatusButton p target = false).
    { unfold CardActions.showsStatusButton.
      destruct H as [Hs | Ht]; [rewrite Hs; destruct target | subst target];
        simpl; now rewrite ?andb_false_r. }
    now rewrite E.
  - intros H now prev c. rewrite H. apply handleUpdateComplaintStatus_In.
Qed.

Lemma status_buttons_only_move_forward_witness :
  CardActions.handleUpdateStatusClick
    (ComplaintCard.mkProps
       (Complaint.mk 1 1 "Alice" "Library, 2nd Floor" "Overflowing recycling bin."
          RESOLVED 1699827200000 (Some 1699913600000) None 12 true
          (Some Verified) None)
       (User.mk 2 "Admin Bob" "admin@example.com" (Some "admin") ADMIN 0 [])
       true true)
    IN_PROGRESS 1700000500000 (App.initialComplaints 1700000000000)
  = App.initialComplaints 1700000000000.
Proof.
  apply (proj1 (proj2 (status_buttons_only_move_forward _ IN_PROGRESS))).
  left. reflexivity.
Defined.

(** The upvote button is there exactly for a user (not an administrator)
    on a card that received the vote handler and whose complaint is public
    and not Resolved; who filed the complaint plays no part, so the owner
    may vote for it.  A click through a card whose complaint is Resolved or
    private changes nothing; a click on the button adds one vote to the
    complaints with the card's id. *)
Theorem vote_button_for_public_open_complaints :
  forall p onVote,
    (CardActions.showsVoteButton p onVote = true
     <-> onVote = true
         /\ User.role (ComplaintCard.currentUser p) = USER
         /\ Complaint.isPublic (ComplaintCard.complaint p) = true
         /\ Complaint.status (ComplaintCard.complaint p) <> RESOLVED)
    /\ (Complaint.status (ComplaintCard.complaint p) = RESOLVED
        \/ Complaint.isPublic (ComplaintCard.complaint p) = false ->
        forall prev, CardActions.handleVoteClick p onVote prev = prev)
    /\ (CardActions.showsVoteButton p onVote = true ->
        forall prev i c,
          nth_error prev i = Some c ->
          Complaint.id c = Complaint.id (ComplaintCard.complaint p) ->
          nth_error (CardActions.handleVoteClick p onVote prev) i
          = Some (Complaint.with_votes (Complaint.votes c + 1) c)).
Proof.
  intros p onVote.
  assert (Hiff : CardActions.showsVoteButton p onVote = true
                 <-> onVote = true
                     /\ User.role (ComplaintCard.currentUser p) = USER
                     /\ Complaint.isPublic (ComplaintCard.complaint p) = true
                     /\ Complaint.status (ComplaintCard.complaint p) <> RESOLVED).
  { unfold CardActions.showsVoteButton, ComplaintCard.isBinCard.
    destruct onVote, (User.role (ComplaintCard.currentUser p)),
      (Complaint.isPublic (ComplaintCard.complaint p)),
      (Complaint.status (ComplaintCard.complaint p)),
      (Complaint.deletedAt (ComplaintCard.complaint p));
      simpl; split; intros H; try discriminate; try reflexivity;
      try (repeat split; congruence);
      try (destruct H as (H1 & H2 & H3 & H4); congruence). }
  split; [exact Hiff|]. split.
  - intros H prev. unfold CardActions.handleVoteClick.
    destruct (CardActions.showsVoteButton p onVote) eqn:E; [|reflexivity].
    destruct (proj1 Hiff eq_refl) as (_ & _ & Hpub & Hst).
    destruct H; congruence.
  - intros H prev i c Hnth Hid. unfold CardActions.handleVoteClick. rewrite H.
    rewrite handleVote_updateById, updateById_nth_error, Hnth. simpl.
    now rewrite (proj2 (Z.eqb_eq _ _) Hid).
Qed.

Lemma vote_button_for_public_open_complaints_witness :
  nth_error
    (CardActions.handleVoteClick
       (ComplaintCard.mkProps
          (Complaint.mk 2 1 "Alice" "Cafeteria" "General waste bin is full and smelly."
             IN_PROGRESS (1700000000000 - 1 * (24 * 60 * 60 * 1000)) None None 5
             true (Some LikelyAuthentic) None)
          (User.mk 1 "Alice" "alice@example.com" (Some "password") USER 150
             [RECYCLING_ROOKIE])
          false false)
       true (App.initialComplaints 1700000000000)) 1
  = Some
      (Complaint.mk 2 1 "Alice" "Cafeteria" "General waste bin is full and smelly."
         IN_PROGRESS (1700000000000 - 1 * (24 * 60 * 60 * 1000)) None None 6
         true (Some LikelyAuthentic) None).
Proof.
  apply (proj2 (proj2 (vote_button_for_public_open_complaints
                         (ComplaintCard.mkProps
                            (Complaint.mk 2 1 "Alice" "Cafeteria"
                               "General waste bin is full and smelly."
                               IN_PROGRESS
                               (1700000000000 - 1 * (24 * 60 * 60 * 1000))
                               None None 5 true (Some LikelyAuthentic) None)
                            (User.mk 1 "Alice" "alice@example.com"
                               (Some "password") USER 150 [RECYCLING_ROOKIE])
                            false false)
                         true))
           eq_refl (App.initialComplaints 1700000000000) 1%nat
           (Complaint.mk 2 1 "Alice" "Cafeteria"
              "General waste bin is full and smelly."
              IN_PROGRESS (1700000000000 - 1 * (24 * 60 * 60 * 1000))
              None None 5 true (Some LikelyAuthentic) None));
    reflexivity.
Defined.

(** ** The charts *)

Section ChartFacts.

Import Charts.

Local Abbreviation countStatus s l :=
  (List.length (filter (fun c => Status_eqb (Complaint.status c) s) l)).

Lemma countStatus_total (l : list Complaint.t) :
  (countStatus PENDING l + countStatus IN_PROGRESS l + countStatus RESOLVED l
   = List.length l)%nat.
Proof.
  induction l as [|c l IH]; simpl; [reflexivity|].
  destruct (Complaint.status c); simpl; lia.
Qed.

Lemma statusData_cases (l : list Complaint.t) :
  statusData l
  = (if (0 <? countStatus PENDING l)%nat
     then [(PENDING, countStatus PENDING l)] else [])
    ++ (if (0 <? countStatus IN_PROGRESS l)%nat
        then [(IN_PROGRESS, countStatus IN_PROGRESS l)] else [])
    ++ (if (0 <? countStatus RESOLVED l)%nat
        then [(RESOLVED, countStatus RESOLVED l)] else []).
Proof.
  unfold statusData, statusValues. cbn [map filter snd].
  destruct (0 <? countStatus PENDING l)%nat,
    (0 <? countStatus IN_PROGRESS l)%nat,
    (0 <? countStatus RESOLVED l)%nat; reflexivity.
Qed.

Lemma resolved_count_agrees (l : list Complaint.t) :
  Forall Lifecycle.resolvedAt_iff_resolved l ->
  countStatus RESOLVED l = List.length (Analytics.resolvedComplaints l).
Proof.
  unfold Analytics.resolvedComplaints.
  induction l as [|c l IH]; intros H; simpl; [reflexivity|].
  inversion H as [|? ? Hc Hl]; subst. specialize (IH Hl).
  unfold Lifecycle.resolvedAt_iff_resolved in Hc.
  destruct (Complaint.status c) eqn:Es; simpl; try exact IH.
  destruct (Complaint.resolvedAt c) eqn:Er; simpl; [now rewrite IH|].
  exfalso. apply (proj2 Hc); reflexivity.
Qed.

End ChartFacts.

(** The slices of the status chart add up to the number of complaints of
    the period: each status that occurs has one slice with its count, a
    status that does not occur has none, and there is no slice at all
    exactly when the period has no complaint.  When [resolvedAt] is set on
    the resolved complaints, the Resolved slice is the number of complaints
    the resolution rate counts as resolved. *)
Theorem statusData_slices_add_up :
  forall filtered,
    list_sum (map snd (Charts.statusData filtered)) = List.length filtered
    /\ (forall status n,
           In (status, n) (Charts.statusData filtered)
           <-> n = List.length
                     (filter (fun c => Status_eqb (Complaint.status c) status)
                        filtered)
               /\ (0 < n)%nat)
    /\ (Charts.statusData filtered = [] <-> filtered = [])
    /\ (Forall Lifecycle.resolvedAt_iff_resolved filtered ->
        forall n, In (RESOLVED, n) (Charts.statusData filtered) ->
                  n = List.length (Analytics.resolvedComplaints filtered)).
Proof.
  intros l. pose proof (countStatus_total l) as Htot.
  pose proof (statusData_cases l) as Hcases.
  assert (Hin : forall status n,
             In (status, n) (Charts.statusData l)
             <-> n = List.length
                       (filter (fun c => Status_eqb (Complaint.status c) status) l)
                 /\ (0 < n)%nat).
  { intros status n. rewrite Hcases.
    destruct (Nat.ltb_spec 0
                (List.length
                   (filter (fun c => Status_eqb (Complaint.status c) PENDING) l)));
      destruct (Nat.ltb_spec 0
                  (List.length
                     (filter (fun c => Status_eqb (Complaint.status c) IN_PROGRESS) l)));
      destruct (Nat.ltb_spec 0
                  (List.length
                     (filter (fun c => Status_eqb (Complaint.status c) RESOLVED) l)));
      simpl; destruct status;
      intuition (try congruence; try lia;
                 try match goal with
                   | H : (_, _) = (_, _) |- _ => inversion H; subst; lia
                   end);
      subst; auto. }
  split; [|split; [exact Hin|split]].
  - rewrite Hcases.
    destruct (Nat.ltb_spec 0
                (List.length
                   (filter (fun c => Status_eqb (Complaint.status c) PENDING) l)));
      destruct (Nat.ltb_spec 0
                  (List.length
                     (filter (fun c => Status_eqb (Complaint.status c) IN_PROGRESS) l)));
      destruct (Nat.ltb_spec 0
                  (List.length
                     (filter (fun c => Status_eqb (Complaint.status c) RESOLVED) l)));
      simpl; lia.
  - split.
    + intros E. destruct l as [|c l']; [reflexivity|]. exfalso.
      assert (Hc : In (Complaint.status c,
                       List.length
                         (filter (fun c' => Status_eqb (Complaint.status c')
                                              (Complaint.status c)) (c :: l')))
                      (Charts.statusData (c :: l'))).
      { apply Hin. split; [reflexivity|]. simpl.
        assert (Er : Status_eqb (Complaint.status c) (Complaint.status c) = true)
          by (destruct (Complaint.status c); reflexivity).
        rewrite Er. simpl. lia. }
      rewrite E in Hc. contradiction.
    + intros ->. reflexivity.
  - intros Hinv n Hn. apply Hin in Hn. destruct Hn as [-> _].
    now apply resolved_count_agrees.
Qed.

Lemma statusData_slices_add_up_witness :
  1%nat = List.length
            (Analytics.resolvedComplaints (App.initialComplaints 1700000000000)).
Proof.
  destruct (statusData_slices_add_up (App.initialComplaints 1700000000000))
    as (_ & _ & _ & H).
  apply H.
  - unfold App.initialComplaints, Lifecycle.resolvedAt_iff_resolved.
    repeat constructor; simpl; intros; congruence.
  - vm_compute. tauto.
Defined.

Section BarChartFacts.

Import Charts.

Variable monthLabel : Z -> string.

Local Abbreviation inMonth m l :=
  (List.length
     (filter (fun c => (monthLabel (Complaint.createdAt c) =? m)%string) l)).

Lemma increment_sum m acc :
  list_sum (map snd (increment m acc)) = S (list_sum (map snd acc)).
Proof.
  induction acc as [|[k v] acc IH]; simpl; [reflexivity|].
  destruct (k =? m)%string; simpl; lia.
Qed.

Lemma increment_keys m acc k :
  In k (map fst (increment m acc)) <-> k = m \/ In k (map fst acc).
Proof.
  induction acc as [|[k' v] acc IH]; simpl; [intuition|].
  destruct (String.eqb_spec k' m) as [->|N]; simpl; [intuition|].
  rewrite IH. intuition.
Qed.

Lemma increment_NoDup m acc :
  NoDup (map fst acc) -> NoDup (map fst (increment m acc)).
Proof.
  induction acc as [|[k v] acc IH]; simpl; intros H.
  - constructor; [intros []|constructor].
  - inversion H as [|? ? Hnotin Hnd]; subst.
    destruct (String.eqb_spec k m) as [->|N]; simpl; [now constructor|].
    constructor; [|now apply IH].
    rewrite increment_keys. intros [E|Hin]; [now apply N|now apply Hnotin].
Qed.

(** The count recorded for a label, 0 when the label has no entry. *)
Local Abbreviation recorded m acc :=
  (match find (fun e : string * nat => (fst e =? m)%string) acc with
   | Some e => snd e
   | None => 0%nat
   end).

Lemma increment_recorded m acc k :
  recorded k (increment m acc)
  = (recorded k acc + (if (m =? k)%string then 1 else 0))%nat.
Proof.
  induction acc as [|[k' v] acc IH]; simpl.
  - destruct (m =? k)%string; reflexivity.
  - destruct (String.eqb_spec k' m) as [->|N]; simpl.
    + destruct (m =? k)%string; simpl; lia.
    + destruct (String.eqb_spec k' k) as [->|N']; simpl.
      * destruct (String.eqb_spec m k) as [->|_]; [congruence|lia].
      * exact IH.
Qed.

Lemma increment_positive m acc :
  Forall (fun e : string * nat => (0 < snd e)%nat) acc ->
  Forall (fun e : string * nat => (0 < snd e)%nat) (increment m acc).
Proof.
  induction acc as [|[k v] acc IH]; simpl; intros H.
  - repeat constructor.
  - inversion H; subst. destruct (k =? m)%string; constructor; simpl in *;
      auto; lia.
Qed.

Lemma barChartData_snoc l c :
  barChartData monthLabel (l ++ [c])
  = increment (monthLabel (Complaint.createdAt c)) (barChartData monthLabel l).
Proof. unfold barChartData. now rewrite fold_left_app. Qed.

Lemma barChartData_invariant l :
  list_sum (map snd (barChartData monthLabel l)) = List.length l
  /\ NoDup (map fst (barChartData monthLabel l))
  /\ Forall (fun e : string * nat => (0 < snd e)%nat) (barChartData monthLabel l)
  /\ forall m, recorded m (barChartData monthLabel l) = inMonth m l.
Proof.
  induction l as [|c l (Hsum & Hnd & Hpos & Hrec)] using rev_ind.
  - repeat split; try constructor.
  - rewrite barChartData_snoc. repeat split.
    + rewrite increment_sum, Hsum, length_app. simpl. lia.
    + now apply increment_NoDup.
    + now apply increment_positive.
    + intros m. rewrite increment_recorded, Hrec, filter_app, length_app.
      simpl. destruct (monthLabel (Complaint.createdAt c) =? m)%string;
        reflexivity.
Qed.

Lemma recorded_In acc m n :
  NoDup (map fst acc) ->
  (In (m, n) acc <-> recorded m acc = n /\ In m (map fst acc)).
Proof.
  induction acc as [|[k v] acc IH]; simpl; intros H; [intuition|].
  inversion H as [|? ? Hnotin Hnd]; subst. specialize (IH Hnd).
  destruct (String.eqb_spec k m) as [->|N]; simpl.
  - split.
    + intros [E|Hin]; [inversion E; subst; auto|].
      exfalso. apply Hnotin. apply in_map_iff. now exists (m, n).
    + intros [-> _]. now left.
  - rewrite IH. split.
    + intros [E|[E Hin]]; [congruence|auto].
    + intros [E [E'|Hin]]; [congruence|]. right. auto.
Qed.

End BarChartFacts.

(** The bars of the volume chart add up to the number of complaints of the
    period; no month label has two bars; and a label has a bar exactly when
    some complaint of the period carries it, the bar counting those
    complaints, whatever their year. *)
Theorem barChartData_bars_add_up :
  forall (monthLabel : Z -> string) filtered,
    list_sum (map snd (Charts.barChartData monthLabel filtered))
      = List.length filtered
    /\ NoDup (map fst (Charts.barChartData monthLabel filtered))
    /\ (forall month n,
           In (month, n) (Charts.barChartData monthLabel filtered)
           <-> n = List.length
                     (filter (fun c =>
                                (monthLabel (Complaint.createdAt c) =? month)%string)
                        filtered)
               /\ (0 < n)%nat).
Proof.
  intros monthLabel l.
  destruct (barChartData_invariant monthLabel l) as (Hsum & Hnd & Hpos & Hrec).
  split; [exact Hsum|]. split; [exact Hnd|].
  intros m n. rewrite (recorded_In _ m n Hnd), Hrec. split.
  - intros [<- Hin]. split; [reflexivity|].
    apply in_map_iff in Hin. destruct Hin as [[k v] [Ek Hin]]. simpl in Ek. subst k.
    assert (Hmv : In (m, v) (Charts.barChartData monthLabel l)) by exact Hin.
    apply (recorded_In _ m v Hnd) in Hmv. destruct Hmv as [Ev _].
    rewrite Hrec in Ev. rewrite Ev.
    rewrite Forall_forall in Hpos. apply (Hpos (m, v) Hin).
  - intros [-> Hn]. split; [reflexivity|].
    rewrite <- Hrec in Hn.
    destruct (find (fun e : string * nat => (fst e =? m)%string)
                (Charts.barChartData monthLabel l)) as [[k v]|] eqn:Ef; [|lia].
    apply find_some in Ef. destruct Ef as [Hin Ek]. simpl in Ek.
    apply String.eqb_eq in Ek. subst k.
    apply in_map_iff. now exists (m, v).
Qed.

(** ** Login *)

Section LoginFacts.

Import Login.

Lemma test_app class p q : test class (p ++ q) = (test class p || test class q)%bool.
Proof.
  induction p as [|c p IH]; simpl; [reflexivity|].
  rewrite IH. now rewrite orb_assoc.
Qed.

Lemma length_app_string p q :
  JsString.length (p ++ q) = (JsString.length p + JsString.length q)%nat.
Proof.
  induction p as [|c p IH]; cbn [append JsString.length]; [reflexivity|].
  rewrite IH. lia.
Qed.

Lemma find_email_In e (users : list User.t) :
  is_some (find (fun u => (User.email u =? e)%string) users) = true
  <-> In e (map User.email users).
Proof.
  induction users as [|u users IH]; simpl; [split; [discriminate|tauto]|].
  destruct (String.eqb_spec (User.email u) e) as [E|N]; simpl.
  - split; auto.
  - rewrite IH. split; [auto|]. intros [E|H]; [contradiction|exact H].
Qed.

Lemma find_app {A : Type} (f : A -> bool) l1 l2 :
  find f (l1 ++ l2)
  = match find f l1 with Some x => Some x | None => find f l2 end.
Proof.
  induction l1 as [|a l1 IH]; simpl; [reflexivity|].
  destruct (f a); [reflexivity|exact IH].
Qed.

Lemma find_credentials_absent e pw (users : list User.t) :
  ~ In e (map User.email users) ->
  find (fun u => (User.email u =? e)%string && passwordMatches u pw) users = None.
Proof.
  induction users as [|u users IH]; simpl; intros H; [reflexivity|].
  destruct (String.eqb_spec (User.email u) e) as [E|N]; simpl.
  - exfalso. apply H. now left.
  - apply IH. intros Hin. apply H. now right.
Qed.

End LoginFacts.

(** The password meter gives a score from 0 to 4, one point each for a
    length of at least 8 code units, an upper-case letter, a digit and a
    character that is neither letter nor digit; typing further characters
    never lowers it; the text shown is "strong" exactly at 4 and empty
    exactly at 0. *)
Theorem checkPasswordStrength_criteria :
  forall pass,
    (Login.checkPasswordStrength pass <= 4)%nat
    /\ (Login.checkPasswordStrength pass = 4%nat
        <-> (8 <= JsString.length pass)%nat
            /\ Login.test Login.isUpper pass = true
            /\ Login.test Login.isDigit pass = true
            /\ Login.test
                 (fun c => negb (Login.isUpper c || Login.isLower c || Login.isDigit c))
                 pass = true)
    /\ (forall more,
           (Login.checkPasswordStrength pass
            <= Login.checkPasswordStrength (pass ++ more))%nat)
    /\ (Login.getStrengthText (Login.checkPasswordStrength pass) = Some "strong"
        <-> Login.checkPasswordStrength pass = 4%nat)
    /\ (Login.getStrengthText (Login.checkPasswordStrength pass) = None
        <-> Login.checkPasswordStrength pass = 0%nat).
Proof.
  intros pass.
  assert (Hle : (Login.checkPasswordStrength pass <= 4)%nat).
  { unfold Login.checkPasswordStrength.
    destruct (truthy_string pass); simpl; [|lia].
    repeat match goal with |- context [if ?b then _ else _] => destruct b end;
      simpl; lia. }
  split; [exact Hle|]. split; [|split; [|split]].
  - unfold Login.checkPasswordStrength.
    destruct pass as [|c pass]; [simpl; split; [discriminate|lia]|].
    cbn [truthy_string negb].
    rewrite <- Nat.leb_le.
    destruct (Nat.leb 8 (JsString.length (String c pass)));
      destruct (Login.test Login.isUpper (String c pass));
      destruct (Login.test Login.isDigit (String c pass));
      destruct (Login.test
                  (fun c0 => negb (Login.isUpper c0 || Login.isLower c0
                                   || Login.isDigit c0))
                  (String c pass));
      simpl; split;
      solve [ intros H; discriminate H
            | intros _; repeat split; reflexivity
            | intros (H1 & H2 & H3 & H4); discriminate
            | intros; reflexivity ].
  - intros more. unfold Login.checkPasswordStrength.
    destruct pass as [|c pass]; [simpl; lia|].
    cbn [truthy_string negb append].
    change (String c (pass ++ more)) with (String c pass ++ more)%string.
    rewrite !test_app, length_app_string.
    destruct (Nat.leb_spec 8 (JsString.length (String c pass)));
      destruct (Nat.leb_spec 8 (JsString.length (String c pass)
                                + JsString.length more));
      try lia;
      destruct (Login.test Login.isUpper (String c pass));
      destruct (Login.test Login.isDigit (String c pass));
      destruct (Login.test
                  (fun c0 => negb (Login.isUpper c0 || Login.isLower c0
                                   || Login.isDigit c0))
                  (String c pass));
      simpl;
      repeat match goal with |- context [if ?b then _ else _] => destruct b end;
      simpl; lia.
  - revert Hle. generalize (Login.checkPasswordStrength pass) as n. intros n Hn.
    do 5 (destruct n as [|n]; [simpl; split; intros; (discriminate || reflexivity || lia)|]).
    lia.
  - revert Hle. generalize (Login.checkPasswordStrength pass) as n. intros n Hn.
    do 5 (destruct n as [|n]; [simpl; split; intros; (discriminate || reflexivity || lia)|]).
    lia.
Qed.

Lemma handleSignIn_cases st app :
  (fst (Login.handleSignIn st app) = Login.setError
         (match find (fun u => (User.email u =? Login.email st)%string
                               && Login.passwordMatches u (Login.password st))
                  (Session.users app) with
          | Some _ => Login.Literal
                        ("This account is not registered as a "
                         ++ Login.roleText (Login.selectedRole st) ++ ".")
          | None => Login.Translated "loginError"
          end) st
   /\ snd (Login.handleSignIn st app) = app)
  \/ exists u,
       In u (Session.users app)
       /\ fst (Login.handleSignIn st app) = st
       /\ snd (Login.handleSignIn st app) = Session.handleLogin u app.
Proof.
  unfold Login.handleSignIn.
  destruct (find _ (Session.users app)) as [u|] eqn:Ef; [|now left].
  destruct (Login.Role_opt_eqb (User.role u) (Login.selectedRole st)); simpl.
  - right. exists u. apply find_some in Ef. now repeat split.
  - now left.
Qed.

(** [handleSignIn] logs in only a user of the list whose email and
    password are the ones typed and whose role is the one selected, and
    leaves the user list as it is; in every other case it sets an error
    message and the session is unchanged. *)
Theorem handleSignIn_needs_matching_credentials :
  forall st app,
    (snd (Login.handleSignIn st app) = app
     /\ Login.error (fst (Login.handleSignIn st app)) <> None)
    \/ exists u,
         In u (Session.users app)
         /\ User.email u = Login.email st
         /\ User.password u = Some (Login.password st)
         /\ Login.selectedRole st = Some (User.role u)
         /\ fst (Login.handleSignIn st app) = st
         /\ snd (Login.handleSignIn st app) = Session.handleLogin u app
         /\ Session.currentUser (snd (Login.handleSignIn st app)) = Some u
         /\ Session.users (snd (Login.handleSignIn st app)) = Session.users app.
Proof.
  intros st app. unfold Login.handleSignIn.
  destruct (find _ (Session.users app)) as [u|] eqn:Ef;
    [|left; split; [reflexivity|discriminate]].
  apply find_some in Ef. destruct Ef as [Hin Hm].
  apply andb_true_iff in Hm. destruct Hm as [He Hp].
  apply String.eqb_eq in He. unfold Login.passwordMatches in Hp.
  destruct (User.password u) as [pw|] eqn:Epw; [|discriminate].
  apply String.eqb_eq in Hp. subst pw.
  destruct (Login.Role_opt_eqb (User.role u) (Login.selectedRole st)) eqn:Er; simpl.
  - right. exists u. repeat split; try assumption.
    unfold Login.Role_opt_eqb in Er.
    destruct (Login.selectedRole st) as [r|]; [|discriminate].
    apply Role_eqb_eq in Er. now subst r.
  - left. split; [reflexivity|discriminate].
Qed.

Lemma handleSignUp_users now st app role :
  ~ In (Login.email st) (map User.email (Session.users app)) ->
  Login.password st = Login.confirmPassword st ->
  Login.selectedRole st = Some role ->
  Session.users (snd (Login.handleSignUp now st app))
  = Session.users app
    ++ [User.mk now (Login.name st) (Login.email st)
          (Some (Login.password st)) role 0 []]
  /\ Session.currentUser (snd (Login.handleSignUp now st app))
     = Some (User.mk now (Login.name st) (Login.email st)
               (Some (Login.password st)) role 0 []).
Proof.
  intros Hnot Hpw Hrole. unfold Login.handleSignUp.
  destruct (is_some (find _ (Session.users app))) eqn:Ee.
  - exfalso. apply Hnot. now apply find_email_In.
  - rewrite Hpw, String.eqb_refl, Hrole. simpl. now split.
Qed.

(** [handleSignUp] keeps the emails of the user list pairwise distinct: an
    email already in the list is refused with "User already exists with
    this email", a password that differs from its confirmation is refused
    too, both leaving the session as it is; otherwise the list grows by
    one user with the typed name, email and password, the selected role,
    no points and no badges, who is logged in. *)
Theorem handleSignUp_keeps_emails_unique :
  forall now st app,
    (NoDup (map User.email (Session.users app)) ->
     NoDup (map User.email (Session.users (snd (Login.handleSignUp now st app)))))
    /\ (In (Login.email st) (map User.email (Session.users app)) ->
        snd (Login.handleSignUp now st app) = app
        /\ Login.error (fst (Login.handleSignUp now st app))
           = Some (Login.Literal "User already exists with this email"))
    /\ (Login.password st <> Login.confirmPassword st ->
        snd (Login.handleSignUp now st app) = app
        /\ Login.error (fst (Login.handleSignUp now st app)) <> None)
    /\ (forall role,
           ~ In (Login.email st) (map User.email (Session.users app)) ->
           Login.password st = Login.confirmPassword st ->
           Login.selectedRole st = Some role ->
           Session.users (snd (Login.handleSignUp now st app))
           = Session.users app
             ++ [User.mk now (Login.name st) (Login.email st)
                   (Some (Login.password st)) role 0 []]
           /\ Session.currentUser (snd (Login.handleSignUp now st app))
              = Some (User.mk now (Login.name st) (Login.email st)
                        (Some (Login.password st)) role 0 [])).
Proof.
  intros now st app. unfold Login.handleSignUp.
  pose proof (find_email_In (Login.email st) (Session.users app)) as Hfind.
  destruct (is_some (find _ (Session.users app))) eqn:Ee.
  - assert (Hin : In (Login.email st) (map User.email (Session.users app)))
      by (now apply Hfind).
    simpl. split; [auto|]. split; [intros _; split; reflexivity|].
    split; [intros _; split; [reflexivity|discriminate]|].
    intros role' Hnot'. contradiction.
  - assert (Hnot : ~ In (Login.email st) (map User.email (Session.users app))).
    { intros Hin. apply Hfind in Hin. discriminate. }
    destruct (String.eqb_spec (Login.password st) (Login.confirmPassword st))
      as [Ep|Np]; simpl.
    + destruct (Login.selectedRole st) as [role|]; simpl.
      * split; [|split; [|split]].
        -- intros Hnd. rewrite map_app. simpl.
           apply NoDup_app_remove_l with (l := []). simpl.
           apply Permutation_NoDup with (l := Login.email st :: map User.email (Session.users app)).
           ++ apply Permutation_cons_append.
           ++ now constructor.
        -- intros Hin. contradiction.
        -- intros Hne. contradiction.
        -- intros role' _ _ E. inversion E; subst. now split.
      * split; [auto|]. split; [intros; contradiction|].
        split; [intros; contradiction|]. intros role' _ _ E. discriminate.
    + split; [auto|]. split; [intros; contradiction|].
      split; [intros _; split; [reflexivity|discriminate]|].
      intros role' _ E. contradiction.
Qed.

Lemma handleSignUp_keeps_emails_unique_witness :
  snd (Login.handleSignUp 1700000000123
         (Login.mk (Some USER) true "alice@example.com" "s3cret" "s3cret"
            "Another Alice" None)
         Session.initial)
  = Session.initial.
Proof.
  apply (proj1 (proj2 (handleSignUp_keeps_emails_unique 1700000000123
                         (Login.mk (Some USER) true "alice@example.com" "s3cret"
                            "s3cret" "Another Alice" None)
                         Session.initial))).
  simpl. tauto.
Defined.

(** A visitor who has signed up and logged out can sign in again with the
    same email, password and role, and is then the current user; with the
    other role selected the sign-in is refused. *)
Theorem signIn_after_signUp :
  forall now st app role,
    ~ In (Login.email st) (map User.email (Session.users app)) ->
    Login.password st = Login.confirmPassword st ->
    Login.selectedRole st = Some role ->
    forall st',
      Login.email st' = Login.email st ->
      Login.password st' = Login.password st ->
      (Login.selectedRole st' = Some role ->
       Session.currentUser
         (snd (Login.handleSignIn st'
                 (Session.handleLogout (snd (Login.handleSignUp now st app)))))
       = Some (User.mk now (Login.name st) (Login.email st)
                 (Some (Login.password st)) role 0 []))
      /\ (Login.selectedRole st' <> Some role ->
          Session.currentUser
            (snd (Login.handleSignIn st'
                    (Session.handleLogout (snd (Login.handleSignUp now st app)))))
          = None).
Proof.
  intros now st app role Hnot Hpw Hrole st' He Hp.
  destruct (handleSignUp_users now st app role Hnot Hpw Hrole) as [Hu _].
  unfold Login.handleSignIn. cbn [Session.handleLogout Session.users].
  rewrite Hu, find_app, He, Hp.
  rewrite (find_credentials_absent _ _ _ Hnot).
  cbn [find User.email User.password Login.passwordMatches].
  rewrite !String.eqb_refl. cbn [andb User.role].
  split.
  - intros ->. simpl. now rewrite (proj2 (Role_eqb_eq role role) eq_refl).
  - intros Hne.
    destruct (Login.Role_opt_eqb role (Login.selectedRole st')) eqn:Er;
      [|reflexivity].
    exfalso. apply Hne. unfold Login.Role_opt_eqb in Er.
    destruct (Login.selectedRole st') as [r|]; [|discriminate].
    apply Role_eqb_eq in Er. now subst r.
Qed.

Lemma signIn_after_signUp_witness :
  Session.currentUser
    (snd (Login.handleSignIn
            (Login.mk (Some USER) false "hari@example.com" "s3cret" "" "" None)
            (Session.handleLogout
               (snd (Login.handleSignUp 1700000000123
                       (Login.mk (Some USER) true "hari@example.com" "s3cret"
                          "s3cret" "Hari" None)
                       Session.initial)))))
  = Some (User.mk 1700000000123 "Hari" "hari@example.com" (Some "s3cret") USER 0 []).
Proof.
  apply (signIn_after_signUp 1700000000123
           (Login.mk (Some USER) true "hari@example.com" "s3cret" "s3cret"
              "Hari" None)
           Session.initial USER);
    try reflexivity.
  simpl. intros H.
  repeat (destruct H as [H|H]; [discriminate H|]). exact H.
Defined.

Lemma login_step_invariant e st app :
  Login.isSignUp st = false ->
  Session.users app = App.initialUsers ->
  (forall u, Session.currentUser app = Some u -> In u App.initialUsers) ->
  Login.isSignUp (fst (Login.step e (st, app))) = false
  /\ Session.users (snd (Login.step e (st, app))) = App.initialUsers
  /\ (forall u, Session.currentUser (snd (Login.step e (st, app))) = Some u ->
                In u App.initialUsers).
Proof.
  intros Hmode Husers Hcur. unfold Login.step.
  destruct (Session.currentUser app) as [cu|] eqn:Ecu.
  - destruct e; simpl; rewrite ?Ecu; repeat split; auto; try discriminate.
  - destruct e; simpl; unfold Login.onForm, Login.onSignUpForm;
      try (destruct (is_some (Login.selectedRole st)); simpl;
           rewrite ?Hmode, ?Ecu; simpl; repeat split; auto; discriminate).
    + (* Submit *)
      destruct (is_some (Login.selectedRole st));
        [|simpl; rewrite Ecu; repeat split; auto; discriminate].
      rewrite Hmode.
      destruct (handleSignIn_cases st app) as [[E1 E2]|[u (Hin & E1 & E2)]].
      * rewrite E1, E2, Ecu. repeat split; auto; discriminate.
      * rewrite E1, E2. rewrite Husers in Hin.
        cbn [Session.handleLogin Session.users Session.currentUser].
        repeat split; auto.
        intros u' E. inversion E; subst. exact Hin.
Qed.

(** The login screen never gets into sign-up mode: the link under the form
    sets the mode and then resets the form, which sets the mode back to
    sign-in, so whatever a visitor does on the screen [isSignUp] is false,
    the submit button runs [handleSignIn], no user is ever added to the
    list, and the current user, if there is one, is one of the initial
    users. *)
Theorem login_screen_never_signs_up :
  forall events,
    Login.isSignUp (fst (Login.run events (Login.initial, Session.initial))) = false
    /\ Session.users (snd (Login.run events (Login.initial, Session.initial)))
       = App.initialUsers
    /\ (forall u,
           Session.currentUser
             (snd (Login.run events (Login.initial, Session.initial))) = Some u ->
           In u App.initialUsers).
Proof.
  intros events. unfold Login.run.
  assert (H : forall w,
             Login.isSignUp (fst w) = false ->
             Session.users (snd w) = App.initialUsers ->
             (forall u, Session.currentUser (snd w) = Some u ->
                        In u App.initialUsers) ->
             Login.isSignUp (fst (fold_left (fun w e => Login.step e w) events w))
               = false
             /\ Session.users (snd (fold_left (fun w e => Login.step e w) events w))
                = App.initialUsers
             /\ (forall u,
                    Session.currentUser
                      (snd (fold_left (fun w e => Login.step e w) events w))
                    = Some u ->
                    In u App.initialUsers)).
  { induction events as [|e events IH]; intros [st app] H1 H2 H3; simpl;
      [auto|].
    destruct (login_step_invariant e st app H1 H2 H3) as (G1 & G2 & G3).
    apply IH; assumption. }
  apply H; simpl; [reflexivity|reflexivity|discriminate].
Qed.

(** ** The chat assistant *)

Lemma handleToolCall_cases currentUser idNow createdNow name args prev :
  snd (ChatAssistant.handleToolCall currentUser idNow createdNow name args prev)
  = (if (name =? "create_complaint")%string
     then App.handleAddComplaint currentUser idNow createdNow
            (ChatAssistant.location args) (ChatAssistant.description args)
            None (Some true) None prev
     else prev).
Proof.
  unfold ChatAssistant.handleToolCall.
  destruct (name =? "create_complaint")%string; reflexivity.
Qed.

Lemma getChatResponse_complaints apiKey first followUp currentUser idNow createdNow prev :
  snd (GeminiCalls.getChatResponse apiKey first followUp currentUser
         idNow createdNow prev)
  = match apiKey, first with
    | true, GeminiCalls.Replies _ ((name, args) :: _) =>
        snd (ChatAssistant.handleToolCall currentUser idNow createdNow
               name args prev)
    | _, _ => prev
    end.
Proof.
  unfold GeminiCalls.getChatResponse.
  destruct apiKey; simpl; [|reflexivity].
  destruct first as [text [|[name args] calls]|]; simpl; try reflexivity.
  destruct (ChatAssistant.handleToolCall currentUser idNow createdNow name args prev).
  destruct followUp; reflexivity.
Qed.

(** One chat turn files at most one complaint, and it files one exactly
    when the API key is set, the model's answer to the message starts its
    function calls with [create_complaint] and a user is logged in; further
    function calls of the answer are not run.  The complaint is filed even
    when the follow-up request then fails and the reply is the connection
    apology. *)
Theorem chat_turn_files_at_most_one_complaint :
  forall apiKey first followUp currentUser idNow createdNow prev,
    (snd (GeminiCalls.getChatResponse apiKey first followUp currentUser
            idNow createdNow prev) = prev
     \/ exists u text args calls,
          apiKey = true
          /\ currentUser = Some u
          /\ first = GeminiCalls.Replies text (("create_complaint", args) :: calls)
          /\ snd (GeminiCalls.getChatResponse apiKey first followUp currentUser
                    idNow createdNow prev)
             = Complaint.mk idNow (User.id u) (User.name u)
                 (ChatAssistant.location args) (ChatAssistant.description args)
                 PENDING createdNow None None 0 true (Some Unverified) None
               :: prev)
    /\ (forall u text args calls,
           fst (GeminiCalls.getChatResponse true
                  (GeminiCalls.Replies text (("create_complaint", args) :: calls))
                  GeminiCalls.SendFails (Some u) idNow createdNow prev)
           = "Sorry, I'm having trouble connecting right now."
           /\ forall followUp',
                snd (GeminiCalls.getChatResponse true
                       (GeminiCalls.Replies text
                          (("create_complaint", args) :: calls))
                       followUp' (Some u) idNow createdNow prev)
                = Complaint.mk idNow (User.id u) (User.name u)
                    (ChatAssistant.location args)
                    (ChatAssistant.description args)
                    PENDING createdNow None None 0 true (Some Unverified) None
                  :: prev).
Proof.
  intros apiKey first followUp cu idNow createdNow prev. split.
  - rewrite getChatResponse_complaints.
    destruct apiKey; [|now left].
    destruct first as [text [|[name args] calls]|]; try (now left).
    rewrite handleToolCall_cases.
    destruct (String.eqb_spec name "create_complaint") as [->|N]; [|now left].
    destruct cu as [u|]; [|now left].
    right. exists u, text, args, calls. now repeat split.
  - intros u text args calls. split; [reflexivity|].
    intros followUp'. rewrite getChatResponse_complaints. reflexivity.
Qed.

(** A message that is empty or blank is not sent, the blank being any run
    of white space characters, ASCII or not.  Any other message adds
    exactly two entries to the conversation, the user's text as typed and
    then one reply of the model, after the entries that were there; the
    reply is never missing, whatever the gateway does. *)
Theorem handleSend_appends_message_and_reply :
  forall input sentAt repliedAt apiKey first followUp currentUser idNow
         createdNow messages prev,
    (JsString.trim input = "" ->
     ChatTurn.handleSend input sentAt repliedAt apiKey first followUp
       currentUser idNow createdNow messages prev
     = (messages, prev))
    /\ (JsString.trim input <> "" ->
        exists reply,
          fst (ChatTurn.handleSend input sentAt repliedAt apiKey first followUp
                 currentUser idNow createdNow messages prev)
          = messages
            ++ [ChatTurn.mkMessage sentAt ChatTurn.user input;
                ChatTurn.mkMessage (repliedAt + 1) ChatTurn.model reply]
          /\ reply <> ""
          /\ snd (ChatTurn.handleSend input sentAt repliedAt apiKey first
                    followUp currentUser idNow createdNow messages prev)
             = snd (GeminiCalls.getChatResponse apiKey first followUp
                      currentUser idNow createdNow prev))
    /\ (forall blanks,
           Forall (fun w => In w JsString.white_space) blanks ->
           ChatTurn.handleSend (fold_right append "" blanks) sentAt repliedAt
             apiKey first followUp currentUser idNow createdNow messages prev
           = (messages, prev)).
Proof.
  intros input sentAt repliedAt apiKey first followUp cu idNow createdNow
    messages prev.
  unfold ChatTurn.handleSend. split; [|split].
  3: { intros blanks H. rewrite (trim_white_space_only blanks H). reflexivity. }
  - intros ->. reflexivity.
  - intros Hne.
    destruct (JsString.trim input) as [|c t] eqn:Et; [congruence|].
    cbn [truthy_string negb].
    destruct (GeminiCalls.getChatResponse apiKey first followUp cu idNow
                createdNow prev) as [reply complaints] eqn:Er.
    exists reply. split; [reflexivity|]. split; [|reflexivity].
    assert (Hreply : fst (GeminiCalls.getChatResponse apiKey first followUp cu
                            idNow createdNow prev) <> "").
    { unfold GeminiCalls.getChatResponse.
      destruct apiKey; simpl; [|discriminate].
      destruct first as [text [|[name args] calls]|]; simpl; try discriminate.
      - unfold GeminiCalls.textOr.
        destruct text as [[|c0 t0]|]; simpl; discriminate.
      - destruct (ChatAssistant.handleToolCall cu idNow createdNow name args prev).
        destruct followUp as [[[|c0 t0]|] ?|]; simpl; discriminate. }
    now rewrite Er in Hreply.
Qed.

Lemma handleSend_appends_message_and_reply_witness :
  ChatTurn.handleSend "   " 1700000000123 1700000000456 true
    (GeminiCalls.Replies (Some "Hello!") []) GeminiCalls.SendFails
    None 1700000000200 1700000000201 ChatTurn.welcome []
  = (ChatTurn.welcome, []).
Proof.
  apply (proj1 (handleSend_appends_message_and_reply "   " 1700000000123
                  1700000000456 true (GeminiCalls.Replies (Some "Hello!") [])
                  GeminiCalls.SendFails None 1700000000200 1700000000201
                  ChatTurn.welcome [])).
  reflexivity.
Defined.

(** ** The helpers of the form *)

Lemma analyzeWasteImage_returns apiKey isDataUrl remote :
  exists analysis,
    GeminiCalls.analyzeWasteImage apiKey isDataUrl remote = Returns analysis
    /\ analysis <> "".
Proof.
  unfold GeminiCalls.analyzeWasteImage, GeminiCalls.textOr.
  destruct apiKey; simpl; [|eexists; split; [reflexivity|discriminate]].
  destruct isDataUrl; simpl; [|eexists; split; [reflexivity|discriminate]].
  destruct remote as [[[|c t]|]|]; simpl;
    eexists; (split; [reflexivity|discriminate]).
Qed.

(** With an image attached, the "analyze" button always adds text to the
    description, after "AI Analysis: ": the model's words, or, when the
    API key is missing, the image is not a data URL or the request fails,
    the corresponding message of the service.  The handler's own failure
    alert is never raised, and a description that was empty is then
    accepted by the submission's check. *)
Theorem handleAnalyzeImage_always_extends_description :
  forall apiKey isDataUrl remote st,
    truthy_opt_string (ComplaintForm.image st) = true ->
    (exists analysis,
        GeminiCalls.analyzeWasteImage apiKey isDataUrl remote = Returns analysis
        /\ analysis <> ""
        /\ ComplaintForm.description
             (FormHelpers.handleAnalyzeImage apiKey isDataUrl remote st)
           = ((if truthy_string (ComplaintForm.description st)
               then ComplaintForm.description st ++ FormHelpers.LF
                    ++ FormHelpers.LF ++ "AI Analysis: "
               else "AI Analysis: ") ++ analysis)%string)
    /\ truthy_string
         (ComplaintForm.description
            (FormHelpers.handleAnalyzeImage apiKey isDataUrl remote st)) = true
    /\ (ComplaintForm.description st = "" ->
        ComplaintForm.description
          (FormHelpers.handleAnalyzeImage true true GeminiService.Fails st)
        = "AI Analysis: Failed to analyze image. Please try again."
        /\ forall env,
             ComplaintForm.handleSubmit env
               (FormHelpers.handleAnalyzeImage true true GeminiService.Fails st)
             <> ComplaintForm.Alert "Please provide a description.").
Proof.
  intros apiKey isDataUrl remote st Himg.
  assert (Hdesc : forall k d r,
             exists analysis,
               GeminiCalls.analyzeWasteImage k d r = Returns analysis
               /\ analysis <> ""
               /\ ComplaintForm.description (FormHelpers.handleAnalyzeImage k d r st)
                  = ((if truthy_string (ComplaintForm.description st)
                      then ComplaintForm.description st ++ FormHelpers.LF
                           ++ FormHelpers.LF ++ "AI Analysis: "
                      else "AI Analysis: ") ++ analysis)%string).
  { intros k d r. unfold FormHelpers.handleAnalyzeImage. rewrite Himg.
    destruct (analyzeWasteImage_returns k d r) as [analysis [E Hne]].
    rewrite E. exists analysis. now repeat split. }
  assert (Htruthy : forall k d r,
             truthy_string
               (ComplaintForm.description (FormHelpers.handleAnalyzeImage k d r st))
             = true).
  { intros k d r. destruct (Hdesc k d r) as [analysis (_ & _ & ->)].
    destruct (truthy_string (ComplaintForm.description st)) eqn:Et.
    - destruct (ComplaintForm.description st); [discriminate|reflexivity].
    - reflexivity. }
  split; [apply Hdesc|]. split; [apply Htruthy|].
  intros Hempty. split.
  - unfold FormHelpers.handleAnalyzeImage. rewrite Himg, Hempty. reflexivity.
  - intros env H. unfold ComplaintForm.handleSubmit in H.
    rewrite (Htruthy true true GeminiService.Fails) in H. cbn [negb] in H.
    repeat match type of H with
      | context [if ?b then _ else _] => destruct b
      | context [match ?o with Some _ => _ | None => _ end] => destruct o
      end;
      discriminate H.
Qed.

Lemma handleAnalyzeImage_always_extends_description_witness :
  truthy_string
    (ComplaintForm.description
       (FormHelpers.handleAnalyzeImage true false GeminiService.Fails
          (ComplaintForm.mkState "Gym" ""
             (Some "https://example.com/photo.png") true None)))
  = true.
Proof.
  apply (proj1 (proj2 (handleAnalyzeImage_always_extends_description true false
                         GeminiService.Fails
                         (ComplaintForm.mkState "Gym" ""
                            (Some "https://example.com/photo.png") true None)
                         eq_refl))).
Defined.

Lemma getLocationFromCoordinates_returns apiKey remote :
  exists located,
    GeminiCalls.getLocationFromCoordinates apiKey remote = Returns located.
Proof.
  unfold GeminiCalls.getLocationFromCoordinates.
  destruct apiKey; simpl; [|eauto]. destruct remote; eauto.
Qed.

(** When a complaint is submitted without a location and the visitor
    accepts the detection and the detected place, the location filed is the
    trimmed text the geocoding request answers; without an API key, on a
    failed request and on an answer that is empty or blank (any run of
    white space characters, ASCII or not) it is the coordinate text of the
    position fix.  When the position fix fails nothing is filed. *)
Theorem detected_location_falls_back_to_coordinates :
  forall st coordinates apiKey remote,
    truthy_string (ComplaintForm.description st) = true ->
    truthy_opt_string (ComplaintForm.image st) = true ->
    ComplaintForm.location st = "" ->
    (forall text chunks,
        apiKey = true ->
        remote = GeminiCalls.GroundedResponds (Some text) chunks ->
        JsString.trim text <> "" ->
        ComplaintForm.handleSubmit
          (FormHelpers.browserWith true true (Some coordinates) apiKey remote) st
        = ComplaintForm.Proceed (JsString.trim text))
    /\ (apiKey = false
        \/ remote = GeminiCalls.GroundedFails
        \/ (exists chunks, remote = GeminiCalls.GroundedResponds None chunks)
        \/ (exists text chunks,
               remote = GeminiCalls.GroundedResponds (Some text) chunks
               /\ JsString.trim text = "") ->
        ComplaintForm.handleSubmit
          (FormHelpers.browserWith true true (Some coordinates) apiKey remote) st
        = ComplaintForm.Proceed coordinates)
    /\ (forall cu idNow createdNow k r prev,
           Filing.submitForm cu idNow createdNow
             (FormHelpers.browserWith true true None apiKey remote) k r st prev
           = prev)
    /\ (forall blanks chunks,
           Forall (fun w => In w JsString.white_space) blanks ->
           ComplaintForm.handleSubmit
             (FormHelpers.browserWith true true (Some coordinates) true
                (GeminiCalls.GroundedResponds
                   (Some (fold_right append "" blanks)) chunks)) st
           = ComplaintForm.Proceed coordinates).
Proof.
  intros st coordinates apiKey remote Hd Hi Hl.
  unfold ComplaintForm.handleSubmit, Filing.submitForm, FormHelpers.browserWith.
  cbn [ComplaintForm.geolocation ComplaintForm.confirmAutoDetect
       ComplaintForm.currentPosition ComplaintForm.address
       ComplaintForm.confirmProceed].
  rewrite Hd, Hi, Hl. cbn [negb truthy_string].
  split; [|split; [|split]].
  4: { intros blanks chunks H.
       cbn [GeminiCalls.getLocationFromCoordinates negb option_map
            GeminiCalls.address].
       rewrite (trim_white_space_only blanks H). reflexivity. }
  - intros text chunks -> -> Hne.
    cbn [GeminiCalls.getLocationFromCoordinates negb option_map
         GeminiCalls.address]. unfold GeminiCalls.textOr.
    cbn [truthy_opt_string].
    destruct (JsString.trim text) as [|c t]; [congruence|reflexivity].
  - intros H.
    assert (E : match GeminiCalls.getLocationFromCoordinates apiKey remote with
                | Returns located => GeminiCalls.address located
                | Throws => ""
                end = "").
    { unfold GeminiCalls.getLocationFromCoordinates, GeminiCalls.textOr.
      destruct H as [->|[->|[[chunks ->]|[text [chunks [-> Et]]]]]].
      - reflexivity.
      - destruct apiKey; reflexivity.
      - destruct apiKey; reflexivity.
      - destruct apiKey; [|reflexivity]. simpl. rewrite Et. reflexivity. }
    rewrite E. reflexivity.
  - intros. unfold ComplaintForm.handleSubmit.
    cbn [ComplaintForm.geolocation ComplaintForm.confirmAutoDetect
         ComplaintForm.currentPosition].
    rewrite Hd, Hi, Hl. reflexivity.
Qed.

Lemma detected_location_falls_back_to_coordinates_witness :
  ComplaintForm.handleSubmit
    (FormHelpers.browserWith true true (Some "28.61390, 77.20900") false
       (GeminiCalls.GroundedResponds (Some "India Gate, New Delhi") []))
    (ComplaintForm.mkState "" "Bin is overflowing"
       (Some "data:image/png;base64,iVBORw0KGgo=") true None)
  = ComplaintForm.Proceed "28.61390, 77.20900".
Proof.
  apply (proj1 (proj2 (detected_location_falls_back_to_coordinates
                         (ComplaintForm.mkState "" "Bin is overflowing"
                            (Some "data:image/png;base64,iVBORw0KGgo=") true None)
                         "28.61390, 77.20900" false
                         (GeminiCalls.GroundedResponds
                            (Some "India Gate, New Delhi") [])
                         eq_refl eq_refl eq_refl))).
  left. reflexivity.
Defined.

(** ** The report buttons *)

(** A chart summary always settles and touches only its own chart: without
    an API key it is "API Key not configured."; with a key and a chart that
    has data it is "Error: Could not generate summary." when the request
    fails and otherwise the model's text, or "No response generated." for
    an empty one.  The full report never raises its failure alert: a failed
    request yields the report "Failed to generate report due to an
    error.". *)
Theorem report_summaries_settle :
  forall chartType remote prev,
    (forall apiKey dataLength,
        (match chartType with
         | Reports.statusChart => Reports.volume
         | Reports.volumeChart => Reports.status
         end)
          (Reports.handleGenerateReportSummary chartType dataLength apiKey remote prev)
        = (match chartType with
           | Reports.statusChart => Reports.volume
           | Reports.volumeChart => Reports.status
           end) prev)
    /\ (forall dataLength,
           (match chartType with
            | Reports.statusChart => Reports.status
            | Reports.volumeChart => Reports.volume
            end)
             (Reports.handleGenerateReportSummary chartType dataLength false remote prev)
           = "API Key not configured.")
    /\ (forall dataLength,
           (0 < dataLength)%nat ->
           (match chartType with
            | Reports.statusChart => Reports.status
            | Reports.volumeChart => Reports.volume
            end)
             (Reports.handleGenerateReportSummary chartType dataLength true remote prev)
           = match remote with
             | GeminiService.Responds text =>
                 GeminiCalls.textOr text "No response generated."
             | GeminiService.Fails => "Error: Could not generate summary."
             end)
    /\ (forall apiKey fullReport,
           snd (Reports.handleGenerateFullReport apiKey remote fullReport) = false
           /\ fst (Reports.handleGenerateFullReport apiKey remote fullReport) <> ""
           /\ fst (Reports.handleGenerateFullReport true GeminiService.Fails fullReport)
              = "Failed to generate report due to an error.").
Proof.
  intros chartType remote prev. split; [|split; [|split]].
  - intros apiKey dataLength. unfold Reports.handleGenerateReportSummary.
    destruct (GeminiCalls.generateChartAnalysis apiKey dataLength remote);
      destruct chartType; reflexivity.
  - intros dataLength. destruct chartType; reflexivity.
  - intros dataLength Hpos. unfold Reports.handleGenerateReportSummary,
      GeminiCalls.generateChartAnalysis.
    destruct dataLength as [|n]; [lia|]. cbn [negb Nat.eqb].
    destruct remote; destruct chartType; reflexivity.
  - intros apiKey fullReport.
    unfold Reports.handleGenerateFullReport, GeminiCalls.generateComprehensiveReport,
      GeminiCalls.textOr.
    destruct apiKey; simpl; [|repeat split; discriminate].
    destruct remote as [[[|c t]|]|]; simpl; repeat split; discriminate.
Qed.

Lemma report_summaries_settle_witness :
  Reports.volume
    (Reports.handleGenerateReportSummary Reports.volumeChart 3 true
       GeminiService.Fails (Reports.mkSummaries "" ""))
  = "Error: Could not generate summary.".
Proof.
  apply (proj1 (proj2 (proj2 (report_summaries_settle Reports.volumeChart
                                GeminiService.Fails (Reports.mkSummaries "" ""))))
           3%nat).
  lia.
Defined.

(** ** Manual verification *)

(** A verification made by hand on the form always leaves a verdict, and
    the verdict stays: the description, the image, the location and the
    visibility can be edited afterwards without it being reset, and the
    submission then files the complaint with that verdict and makes no
    authenticity request of its own. *)
Theorem manual_verdict_is_kept_until_submission :
  forall apiKey remote st,
    truthy_string (ComplaintForm.description st) = true
    \/ truthy_opt_string (ComplaintForm.image st) = true ->
    exists verdict,
      GeminiService.verifyComplaintAuthenticity apiKey remote = Returns verdict
      /\ ComplaintForm.verificationResult
           (FormHelpers.handleManualVerification apiKey remote st)
         = Some (match verdict with
                 | AiLikelyAuthentic => "Likely Authentic"
                 | AiPotentialSpam => "Potential Spam"
                 end)
      /\ forall location description image isPublic finalLocation verify,
           ComplaintForm.processSubmission
             (ComplaintForm.mkState location description image isPublic
                (ComplaintForm.verificationResult
                   (FormHelpers.handleManualVerification apiKey remote st)))
             finalLocation verify
           = ComplaintForm.mkSubmission finalLocation description
               (or_undefined image)
               (match verdict with
                | AiLikelyAuthentic => isPublic
                | AiPotentialSpam => false
                end)
               (Authenticity_of_ai verdict).
Proof.
  intros apiKey remote st Hsome.
  destruct (verifyComplaintAuthenticity_returns apiKey remote) as [verdict Hv].
  exists verdict. split; [exact Hv|].
  assert (E : ComplaintForm.verificationResult
                (FormHelpers.handleManualVerification apiKey remote st)
              = Some (match verdict with
                      | AiLikelyAuthentic => "Likely Authentic"
                      | AiPotentialSpam => "Potential Spam"
                      end)).
  { unfold FormHelpers.handleManualVerification.
    destruct Hsome as [-> | ->]; rewrite ?andb_false_r; simpl;
      rewrite Hv; now destruct verdict. }
  split; [exact E|].
  intros location description image isPublic finalLocation verify.
  rewrite E. unfold ComplaintForm.processSubmission.
  destruct verdict; simpl; [|reflexivity].
  destruct isPublic; reflexivity.
Qed.

Lemma manual_verdict_is_kept_until_submission_witness :
  exists verdict,
    GeminiService.verifyComplaintAuthenticity true
      (GeminiService.Responds (Some "Likely Authentic")) = Returns verdict
    /\ ComplaintForm.verificationResult
         (FormHelpers.handleManualVerification true
            (GeminiService.Responds (Some "Likely Authentic"))
            (ComplaintForm.mkState "Gym" "Bin is overflowing" None true None))
       = Some (match verdict with
               | AiLikelyAuthentic => "Likely Authentic"
               | AiPotentialSpam => "Potential Spam"
               end)
    /\ forall location description image isPublic finalLocation verify,
         ComplaintForm.processSubmission
           (ComplaintForm.mkState location description image isPublic
              (ComplaintForm.verificationResult
                 (FormHelpers.handleManualVerification true
                    (GeminiService.Responds (Some "Likely Authentic"))
                    (ComplaintForm.mkState "Gym" "Bin is overflowing" None true
                       None))))
           finalLocation verify
         = ComplaintForm.mkSubmission finalLocation description
             (or_undefined image)
             (match verdict with
              | AiLikelyAuthentic => isPublic
              | AiPotentialSpam => false
              end)
             (Authenticity_of_ai verdict).
Proof.
  apply (manual_verdict_is_kept_until_submission true
           (GeminiService.Responds (Some "Likely Authentic"))
           (ComplaintForm.mkState "Gym" "Bin is overflowing" None true None)).
  left. reflexivity.
Defined.

(** ** Which operations remove complaints *)

(** Only the purge takes complaints out of the collection: every other
    operation leaves the same ids at the same positions, and the purge
    leaves, in order, the ids that differ from the one it addresses. *)
Theorem only_purge_removes_complaints :
  forall (op : Lifecycle.Operation) complaintId prev,
    map Complaint.id (Lifecycle.apply op complaintId prev)
    = match op with
      | Lifecycle.Purge =>
          filter (fun i => negb (i =? complaintId)) (map Complaint.id prev)
      | _ => map Complaint.id prev
      end.
Proof.
  assert (Hmap : forall cid update prev,
             (forall c, Complaint.id (update c) = Complaint.id c) ->
             map Complaint.id (updateById cid update prev) = map Complaint.id prev).
  { intros cid update prev Hid. unfold updateById. rewrite map_map.
    apply map_ext. intros c. destruct (Complaint.id c =? cid); auto. }
  intros op cid prev.
  destruct op as [|status now|now| | |complaints k r|status]; simpl;
    as_updateById; try (apply Hmap; intros c; reflexivity).
  - unfold App.handlePermanentDelete.
    induction prev as [|c prev IH]; simpl; [reflexivity|].
    destruct (Complaint.id c =? cid); simpl; now rewrite IH.
  - destruct (handleVerifyAuthenticity_cases complaints cid k r prev)
      as [E|[res E]]; rewrite E; [reflexivity|].
    apply Hmap. intros c. reflexivity.
Qed.
